(** * Auction bidding engine: lifecycle reconciliation, bid arbitration,
      anti-snipe extension and winner resolution

    Shallow embedding of

      - [backend/app/models/enums.py], [models/auction.py], [models/bid.py]
      - [backend/app/repositories/auction.py], [repositories/bid.py],
        [repositories/notification.py], [repositories/account.py]
      - [backend/app/utils/validators.py] ([validate_price],
        [validate_date_range]) and [utils/formatter.py]
        ([format_pagination_response])
      - [backend/app/routers/v1/bids.py] ([place_bid], [cancel_bid],
        [get_auction_bids], [get_highest_bid]) and [routers/v1/auctions.py]
        ([register_auction], [update_auction])

    Modelling conventions.

      - A [datetime] is an integer number of microseconds (the resolution of
        Python's [datetime]); a [timedelta] is a difference of two of them.
      - One request executes at one instant [now]: every [datetime.utcnow()]
        read while a request is served returns that instant.  Successive
        requests carry their own instants.
      - The SQLAlchemy session is a record of tables; a table is the list of
        its rows in the order in which the engine scans them.  Every write of
        the modelled functions is followed by [db.commit()] in the source, so
        writes are applied to the tables at once.
      - [ORDER BY bidPrice DESC] is a stable sort of the scanned rows: the
        query names no second key, so among equal prices the scan order
        decides.
      - [raise HTTPException(...)] ends a request with [Raise]; what was
        committed before stays committed.
      - The statements sent to the database succeed.  The one exception is
        the commit of the outbid notification in [place_bid], whose failure
        is modelled in [place_bid_session].
      - A [float] appears once, in [validate_date_range]: it is modelled
        as the binary64 that Python computes. *)

From Stdlib Require Import ZArith List Bool Lia String.
From Stdlib Require Import Permutation Sorted.
Import ListNotations.
Open Scope Z_scope.

(** ** Time *)

Definition datetime := Z.

(** [timedelta(minutes=m)] *)
Definition timedelta_minutes (m : Z) : Z := m * 60 * 1000000.

(** [timedelta(hours=h)], [timedelta(days=d)] *)
Definition timedelta_hours (h : Z) : Z := h * 3600 * 1000000.
Definition timedelta_days (d : Z) : Z := d * 86400 * 1000000.

(** ** Enumerations ([models/enums.py]) *)

Module AuctionStatus.
Inductive t := DRAFT | SCHEDULED | ONGOING | COMPLETED | CANCELLED.

Definition eqb (x y : t) : bool :=
  match x, y with
  | DRAFT, DRAFT | SCHEDULED, SCHEDULED | ONGOING, ONGOING
  | COMPLETED, COMPLETED | CANCELLED, CANCELLED => true
  | _, _ => false
  end.

(** [str(status)] of a member of a [str]-mixin [Enum]. *)
Definition str (x : t) : string :=
  match x with
  | DRAFT => "AuctionStatus.DRAFT"
  | SCHEDULED => "AuctionStatus.SCHEDULED"
  | ONGOING => "AuctionStatus.ONGOING"
  | COMPLETED => "AuctionStatus.COMPLETED"
  | CANCELLED => "AuctionStatus.CANCELLED"
  end.
End AuctionStatus.

Module BidStatus.
Inductive t := ACTIVE | OUTBID | WINNING | WON | LOST | CANCELLED.

Definition eqb (x y : t) : bool :=
  match x, y with
  | ACTIVE, ACTIVE | OUTBID, OUTBID | WINNING, WINNING
  | WON, WON | LOST, LOST | CANCELLED, CANCELLED => true
  | _, _ => false
  end.

(** The value of the member; a member compares equal to its value. *)
Definition value (x : t) : string :=
  match x with
  | ACTIVE => "active"
  | OUTBID => "outbid"
  | WINNING => "winning"
  | WON => "won"
  | LOST => "lost"
  | CANCELLED => "cancelled"
  end.

(** [bidStatus.in_([ACTIVE, WINNING, WON])] *)
Definition in_leading (x : t) : bool :=
  match x with
  | ACTIVE | WINNING | WON => true
  | _ => false
  end.
End BidStatus.

Module PaymentStatus.
Inductive t := PENDING | PROCESSING | COMPLETED | FAILED | REFUNDED | CANCELLED.

Definition eqb (x y : t) : bool :=
  match x, y with
  | PENDING, PENDING | PROCESSING, PROCESSING | COMPLETED, COMPLETED
  | FAILED, FAILED | REFUNDED, REFUNDED | CANCELLED, CANCELLED => true
  | _, _ => false
  end.
End PaymentStatus.

Module PaymentType.
Inductive t := DEPOSIT | FINAL_PAYMENT.

Definition eqb (x y : t) : bool :=
  match x, y with
  | DEPOSIT, DEPOSIT | FINAL_PAYMENT, FINAL_PAYMENT => true
  | _, _ => false
  end.
End PaymentType.

Module NotificationType.
Inductive t :=
| BID_OUTBID | BID_WON | BID_LOST | AUCTION_STARTING | AUCTION_ENDING
| AUCTION_COMPLETED | AUCTION_CANCELLED | PAYMENT_REQUIRED
| PAYMENT_CONFIRMED | PRODUCT_APPROVED | PRODUCT_REJECTED.
End NotificationType.

(** ** Rows ([models/*.py]) *)

Module Auction.
Record t := mk {
  auctionID : Z;
  auctionName : string;
  productID : Z;
  createdAt : datetime;
  updatedAt : option datetime;
  startDate : datetime;
  endDate : datetime;
  priceStep : Z;
  auctionStatus : AuctionStatus.t;
  bidWinnerID : option Z
}.

Definition set_auctionName (v : string) (a : t) : t :=
  mk (auctionID a) v (productID a) (createdAt a) (updatedAt a)
     (startDate a) (endDate a) (priceStep a) (auctionStatus a) (bidWinnerID a).

Definition set_updatedAt (v : option datetime) (a : t) : t :=
  mk (auctionID a) (auctionName a) (productID a) (createdAt a) v
     (startDate a) (endDate a) (priceStep a) (auctionStatus a) (bidWinnerID a).

Definition set_startDate (v : datetime) (a : t) : t :=
  mk (auctionID a) (auctionName a) (productID a) (createdAt a) (updatedAt a)
     v (endDate a) (priceStep a) (auctionStatus a) (bidWinnerID a).

Definition set_endDate (v : datetime) (a : t) : t :=
  mk (auctionID a) (auctionName a) (productID a) (createdAt a) (updatedAt a)
     (startDate a) v (priceStep a) (auctionStatus a) (bidWinnerID a).

Definition set_priceStep (v : Z) (a : t) : t :=
  mk (auctionID a) (auctionName a) (productID a) (createdAt a) (updatedAt a)
     (startDate a) (endDate a) v (auctionStatus a) (bidWinnerID a).

Definition set_auctionStatus (v : AuctionStatus.t) (a : t) : t :=
  mk (auctionID a) (auctionName a) (productID a) (createdAt a) (updatedAt a)
     (startDate a) (endDate a) (priceStep a) v (bidWinnerID a).

Definition set_bidWinnerID (v : option Z) (a : t) : t :=
  mk (auctionID a) (auctionName a) (productID a) (createdAt a) (updatedAt a)
     (startDate a) (endDate a) (priceStep a) (auctionStatus a) v.
End Auction.

Module Bid.
Record t := mk {
  bidID : Z;
  auctionID : Z;
  userID : Z;
  bidPrice : Z;
  bidStatus : BidStatus.t;
  createdAt : datetime
}.

Definition set_bidStatus (v : BidStatus.t) (b : t) : t :=
  mk (bidID b) (auctionID b) (userID b) (bidPrice b) v (createdAt b).

Definition set_createdAt (v : datetime) (b : t) : t :=
  mk (bidID b) (auctionID b) (userID b) (bidPrice b) (bidStatus b) v.
End Bid.

Module Payment.
Record t := mk {
  paymentID : Z;
  auctionID : Z;
  userID : Z;
  paymentStatus : PaymentStatus.t;
  paymentType : PaymentType.t;
  amount : Z
}.
End Payment.

Module Account.
Record t := mk {
  accountID : Z;
  username : string;
  email : string
}.
End Account.

Module Notification.
Record t := mk {
  notificationID : Z;
  userID : Z;
  auctionID : Z;
  notificationType : NotificationType.t;
  title : string;
  isRead : bool;
  isSent : bool;
  createdAt : datetime
}.
End Notification.

(** ** Request bodies ([schemas/*.py]) *)

Module BidCreate.
Record t := mk { auctionID : Z; bidPrice : Z }.
End BidCreate.

(** [AuctionUpdate]: every field is optional; [None] is a field that the
    request did not set ([dict(exclude_unset=True)] leaves it out). *)
Module AuctionUpdate.
Record t := mk {
  auctionName : option string;
  startDate : option datetime;
  endDate : option datetime;
  priceStep : option Z;
  auctionStatus : option AuctionStatus.t;
  bidWinnerID : option Z
}.

(** [AuctionUpdate(endDate=v)] *)
Definition of_endDate (v : datetime) : t :=
  mk None None (Some v) None None None.
End AuctionUpdate.

Module NotificationCreate.
Record t := mk {
  userID : Z;
  auctionID : Z;
  notificationType : NotificationType.t;
  title : string
}.
End NotificationCreate.

(** ** The session and what leaves the process *)

(** An e-mail handed to [email_service.send_email]. *)
Record Email := { to_email : string; subject_auction : string }.

(** A [bid_update] broadcast scheduled with [asyncio.create_task]. *)
Record BroadcastTask := {
  task_auction_id : Z;
  task_new_highest_bid_raw : Z;
  task_total_bids : Z;
  task_extended : bool;
  task_new_end_time : option datetime
}.

Record World := mkWorld {
  auction_tbl : list Auction.t;
  bid_tbl : list Bid.t;
  payment_tbl : list Payment.t;
  account_tbl : list Account.t;
  notification_tbl : list Notification.t;
  tasks : list BroadcastTask;
  outbox : list Email
}.

Definition with_auctions (v : list Auction.t) (db : World) : World :=
  mkWorld v (bid_tbl db) (payment_tbl db) (account_tbl db)
          (notification_tbl db) (tasks db) (outbox db).

Definition with_bids (v : list Bid.t) (db : World) : World :=
  mkWorld (auction_tbl db) v (payment_tbl db) (account_tbl db)
          (notification_tbl db) (tasks db) (outbox db).

Definition with_notifications (v : list Notification.t) (db : World) : World :=
  mkWorld (auction_tbl db) (bid_tbl db) (payment_tbl db) (account_tbl db)
          v (tasks db) (outbox db).

Definition with_tasks (v : list BroadcastTask) (db : World) : World :=
  mkWorld (auction_tbl db) (bid_tbl db) (payment_tbl db) (account_tbl db)
          (notification_tbl db) v (outbox db).

Definition with_outbox (v : list Email) (db : World) : World :=
  mkWorld (auction_tbl db) (bid_tbl db) (payment_tbl db) (account_tbl db)
          (notification_tbl db) (tasks db) v.

(** The next value of an [autoincrement] primary key. *)
Definition next_id (ids : list Z) : Z := 1 + fold_right Z.max 0 ids.

(** ** Queries *)

(** [ORDER BY bidPrice DESC]: stable insertion sort, the head of the input
    goes before every row whose price is not greater than its own. *)
Fixpoint insert_by_price_desc (b : Bid.t) (rows : list Bid.t) : list Bid.t :=
  match rows with
  | [] => [b]
  | x :: rest =>
      if Bid.bidPrice b <? Bid.bidPrice x
      then x :: insert_by_price_desc b rest
      else b :: x :: rest
  end.

Fixpoint order_by_bidPrice_desc (rows : list Bid.t) : list Bid.t :=
  match rows with
  | [] => []
  | b :: rest => insert_by_price_desc b (order_by_bidPrice_desc rest)
  end.

(** [.first()] *)
Definition first {A : Type} (rows : list A) : option A := hd_error rows.

(** [.offset(skip).limit(limit).all()] *)
Definition offset_limit {A : Type} (skip limit : nat) (rows : list A) : list A :=
  firstn limit (skipn skip rows).

(** ** [repositories/bid.py] *)

Definition get_bid (db : World) (bid_id : Z) : option Bid.t :=
  first (filter (fun b => Bid.bidID b =? bid_id) (bid_tbl db)).

Definition get_bids_by_auction (db : World) (auction_id : Z)
    (skip limit : nat) : list Bid.t :=
  offset_limit skip limit
    (order_by_bidPrice_desc
       (filter (fun b => Bid.auctionID b =? auction_id) (bid_tbl db))).

Definition get_current_highest_bid (db : World) (auction_id : Z) : option Bid.t :=
  first
    (order_by_bidPrice_desc
       (filter (fun b => (Bid.auctionID b =? auction_id)
                         && BidStatus.in_leading (Bid.bidStatus b))
               (bid_tbl db))).

Definition create_bid (now : datetime) (bid : BidCreate.t) (user_id : Z)
    (db : World) : Bid.t * World :=
  let db_bid :=
    Bid.mk (next_id (map Bid.bidID (bid_tbl db)))
           (BidCreate.auctionID bid) user_id (BidCreate.bidPrice bid)
           BidStatus.ACTIVE now in
  (db_bid, with_bids (bid_tbl db ++ [db_bid]) db).

(** Assignment to an attribute of the row whose primary key is [bid_id]. *)
Definition set_bid_status (bid_id : Z) (s : BidStatus.t) (rows : list Bid.t)
    : list Bid.t :=
  map (fun b => if Bid.bidID b =? bid_id then Bid.set_bidStatus s b else b) rows.

Definition cancel_bid_repo (bid_id user_id : Z) (db : World) : bool * World :=
  match get_bid db bid_id with
  | None => (false, db)
  | Some db_bid =>
      if negb (Bid.userID db_bid =? user_id) then (false, db)
      else (true, with_bids (set_bid_status bid_id BidStatus.CANCELLED (bid_tbl db)) db)
  end.

(** ** [repositories/auction.py] *)

(** [db.add(auction); db.commit()]: the row with the auction's primary key
    takes the object's attributes. *)
Definition save_auction (a : Auction.t) (db : World) : World :=
  with_auctions
    (map (fun r => if Auction.auctionID r =? Auction.auctionID a then a else r)
         (auction_tbl db))
    db.

(** The bulk [UPDATE ... SET bidStatus = LOST] of the winner resolution,
    after the winner itself was set to [WINNING]. *)
Definition resolve_bids (auction_id : Z) (highest_bid : Bid.t)
    (rows : list Bid.t) : list Bid.t :=
  map (fun b =>
         if (Bid.auctionID b =? auction_id)
            && negb (Bid.bidID b =? Bid.bidID highest_bid)
            && BidStatus.eqb (Bid.bidStatus b) BidStatus.ACTIVE
         then Bid.set_bidStatus BidStatus.LOST b
         else b)
      (set_bid_status (Bid.bidID highest_bid) BidStatus.WINNING rows).

Definition check_and_update_status (now : datetime) (auction : option Auction.t)
    (db : World) : option Auction.t * World :=
  match auction with
  | None => (None, db)
  | Some auction =>
      let '(auction, updated) :=
        if AuctionStatus.eqb (Auction.auctionStatus auction) AuctionStatus.SCHEDULED
           && (Auction.startDate auction <=? now)
        then (Auction.set_auctionStatus AuctionStatus.ONGOING auction, true)
        else (auction, false) in
      if AuctionStatus.eqb (Auction.auctionStatus auction) AuctionStatus.ONGOING
         && (Auction.endDate auction <=? now)
      then
        let auction := Auction.set_auctionStatus AuctionStatus.COMPLETED auction in
        let highest_bid :=
          first
            (order_by_bidPrice_desc
               (filter (fun b => (Bid.auctionID b =? Auction.auctionID auction)
                                 && BidStatus.eqb (Bid.bidStatus b) BidStatus.ACTIVE)
                       (bid_tbl db))) in
        match highest_bid with
        | Some highest_bid =>
            let auction :=
              Auction.set_bidWinnerID (Some (Bid.userID highest_bid)) auction in
            let db :=
              with_bids
                (resolve_bids (Auction.auctionID auction) highest_bid (bid_tbl db))
                db in
            (Some auction, save_auction auction db)
        | None => (Some auction, save_auction auction db)
        end
      else if updated then (Some auction, save_auction auction db)
      else (Some auction, db)
  end.

Definition get_auction (now : datetime) (auction_id : Z) (db : World)
    : option Auction.t * World :=
  let auction :=
    first (filter (fun a => Auction.auctionID a =? auction_id) (auction_tbl db)) in
  check_and_update_status now auction db.

(** [setattr(db_auction, field, value)] for every field the request set. *)
Definition apply_update (u : AuctionUpdate.t) (a : Auction.t) : Auction.t :=
  let a := match AuctionUpdate.auctionName u with
           | Some v => Auction.set_auctionName v a | None => a end in
  let a := match AuctionUpdate.startDate u with
           | Some v => Auction.set_startDate v a | None => a end in
  let a := match AuctionUpdate.endDate u with
           | Some v => Auction.set_endDate v a | None => a end in
  let a := match AuctionUpdate.priceStep u with
           | Some v => Auction.set_priceStep v a | None => a end in
  let a := match AuctionUpdate.auctionStatus u with
           | Some v => Auction.set_auctionStatus v a | None => a end in
  match AuctionUpdate.bidWinnerID u with
  | Some v => Auction.set_bidWinnerID (Some v) a | None => a end.

Definition update_auction_repo (now : datetime) (auction_id : Z)
    (auction_update : AuctionUpdate.t) (db : World) : option Auction.t * World :=
  let '(db_auction, db) := get_auction now auction_id db in
  match db_auction with
  | None => (None, db)
  | Some db_auction =>
      let db_auction := apply_update auction_update db_auction in
      let db_auction := Auction.set_updatedAt (Some now) db_auction in
      let db := save_auction db_auction db in
      check_and_update_status now (Some db_auction) db
  end.

(** ** [repositories/account.py], [repositories/notification.py] *)

Definition get_account_by_id (db : World) (account_id : Z) : option Account.t :=
  first (filter (fun a => Account.accountID a =? account_id) (account_tbl db)).

Definition create_notification (now : datetime) (n : NotificationCreate.t)
    (db : World) : Notification.t * World :=
  let db_notification :=
    Notification.mk
      (next_id (map Notification.notificationID (notification_tbl db)))
      (NotificationCreate.userID n) (NotificationCreate.auctionID n)
      (NotificationCreate.notificationType n) (NotificationCreate.title n)
      false false now in
  (db_notification,
   with_notifications (notification_tbl db ++ [db_notification]) db).

(** ** [utils/validators.py] *)

Inductive PriceError :=
| Price_must_be_at_least (min_price : Z)
| Price_must_not_exceed (max_price : Z).

(** [if max_price and price > max_price]: [None] and [0] are falsy. *)
Definition validate_price (price min_price : Z) (max_price : option Z)
    : bool * option PriceError :=
  if price <? min_price then (false, Some (Price_must_be_at_least min_price))
  else
    match max_price with
    | Some m =>
        if negb (m =? 0) && (m <? price)
        then (false, Some (Price_must_not_exceed m))
        else (true, None)
    | None => (true, None)
    end.

Inductive DateRangeError :=
| End_date_must_be_after_start_date
| Duration_must_be_at_least (hours : Z)
| Duration_must_not_exceed (days : Z).

(** [timedelta.total_seconds()] is the quotient of two [int]s, the
    microseconds of the duration by [10**6], as a [float]: the binary64
    nearest to the quotient, ties to the even mantissa.  A float is kept as
    mantissa and exponent, [(m, e)] for [m * 2 ^ e]; the quotients met here
    are in the range of the normal numbers. *)
Definition round_half_even (n d : Z) : Z :=
  let q := n / d in
  let r := n mod d in
  if 2 * r <? d then q
  else if d <? 2 * r then q + 1
  else if Z.even q then q else q + 1.

(** [n / d] for [int]s [n > 0] and [d > 0] *)
Definition true_divide (n d : Z) : Z * Z :=
  let k := Z.log2 n - Z.log2 d in
  let e := if (if 0 <=? k then d * 2 ^ k <=? n else d <=? n * 2 ^ (- k))
           then k - 52 else k - 53 in
  let m := if 0 <=? e then round_half_even n (d * 2 ^ e)
           else round_half_even (n * 2 ^ (- e)) d in
  (m, e).

Definition total_seconds (duration : Z) : Z * Z := true_divide duration 1000000.

(** [x < t] for a [float] [x] and an [int] [t]: Python compares the two
    numbers exactly. *)
Definition float_lt_int (x : Z * Z) (t : Z) : bool :=
  let '(m, e) := x in
  if 0 <=? e then m * 2 ^ e <? t else m <? t * 2 ^ (- e).

Definition validate_date_range (start_date end_date : datetime)
    (min_duration_hours max_duration_days : option Z)
    : bool * option DateRangeError :=
  if end_date <=? start_date then (false, Some End_date_must_be_after_start_date)
  else
    let duration := end_date - start_date in
    let too_short :=
      match min_duration_hours with
      | Some h => negb (h =? 0) && float_lt_int (total_seconds duration) (h * 3600)
      | None => false
      end in
    if too_short
    then (false, option_map Duration_must_be_at_least min_duration_hours)
    else
      let too_long :=
        match max_duration_days with
        | Some d => negb (d =? 0) && (d <? duration / timedelta_days 1)
        | None => false
        end in
      if too_long
      then (false, option_map Duration_must_not_exceed max_duration_days)
      else (true, None).

(** ** Requests: results, exceptions and the request monad *)

(** The [detail] of the [HTTPException]s raised by the modelled endpoints;
    a parameter is the value interpolated into the message. *)
Inductive Detail :=
| Auction_not_found
| Auction_is_not_currently_active (opens_at : datetime)
| Auction_is_not_accepting_bids (status : AuctionStatus.t)
| You_must_register_and_pay_the_deposit
| Bid_must_be_at_least (min_bid_amount : Z)
| Bid_not_found
| You_can_only_cancel_your_own_bids
| Bid_is_not_active (status : BidStatus.t)
| Cannot_cancel_bid_after_auction_has_ended
| Cannot_cancel_bid_while_leading_in_the_last_10_minutes
| Failed_to_cancel_bid
| Invalid_date_range (error : option DateRangeError)
| Invalid_price (error : option PriceError)
| Cannot_update_active_auction
| Failed_to_update_auction.

(** The calls of the notification block of [place_bid] that can fail. *)
Inductive NotifyStep :=
| CollectParticipants   (* repositories.get_bids_by_auction *)
| Broadcast             (* building the message, asyncio.create_task *)
| LookupAccount         (* repositories.get_account_by_id *)
| RecordNotification    (* schemas.NotificationCreate, models.Notification *)
| SendEmail.            (* format_bid_outbid_email, email_service.send_email *)

Inductive Exn :=
| HTTPException (status_code : Z) (detail : Detail)
| Exception (raised_by : NotifyStep)
| AttributeError
| SQLAlchemyError         (* raised by a [db.commit()] that fails *)
| PendingRollbackError    (* raised by a session whose commit has failed *)
| ZeroDivisionError.

Inductive Result (A : Type) :=
| Ok (a : A)
| Raise (e : Exn).
Arguments Ok {A} a.
Arguments Raise {A} e.

Definition M (A : Type) : Type := World -> Result A * World.

Definition ret {A} (a : A) : M A := fun db => (Ok a, db).

Definition raise {A} (e : Exn) : M A := fun db => (Raise e, db).

Definition bind {A B} (c : M A) (k : A -> M B) : M B :=
  fun db =>
    match c db with
    | (Ok a, db') => k a db'
    | (Raise e, db') => (Raise e, db')
    end.

(** A repository call that writes. *)
Definition call {A} (f : World -> A * World) : M A :=
  fun db => let '(a, db') := f db in (Ok a, db').

(** A repository call that only reads. *)
Definition query {A} (f : World -> A) : M A := fun db => (Ok (f db), db).

(** [try: body  except Exception as e: print(...)] *)
Definition try_except (body : M unit) : M unit :=
  fun db =>
    match body db with
    | (Ok _, db') => (Ok tt, db')
    | (Raise _, db') => (Ok tt, db')
    end.

Declare Scope request_scope.
Delimit Scope request_scope with request.
Notation "x <- c ;; k" := (bind c (fun x => k))
  (at level 61, c at next level, right associativity) : request_scope.
Notation "c ;;; k" := (bind c (fun _ => k))
  (at level 61, right associativity) : request_scope.
Open Scope request_scope.

Definition HTTP_400_BAD_REQUEST : Z := 400.
Definition HTTP_403_FORBIDDEN : Z := 403.
Definition HTTP_404_NOT_FOUND : Z := 404.
Definition HTTP_500_INTERNAL_SERVER_ERROR : Z := 500.

(** ** [routers/v1/bids.py]: [place_bid] *)

(** [status_str not in ["active", "pending", "ONGOING", "ongoing",
    "AuctionStatus.ONGOING"]] *)
Definition accepting_statuses : list string :=
  ["active"; "pending"; "ONGOING"; "ongoing"; "AuctionStatus.ONGOING"]%string.

Definition status_accepts_bids (s : AuctionStatus.t) : bool :=
  existsb (String.eqb (AuctionStatus.str s)) accepting_statuses.

Definition deposit_payment_of (db : World) (auction_id user_id : Z)
    : option Payment.t :=
  first
    (filter (fun p => (Payment.auctionID p =? auction_id)
                      && (Payment.userID p =? user_id)
                      && PaymentType.eqb (Payment.paymentType p) PaymentType.DEPOSIT
                      && PaymentStatus.eqb (Payment.paymentStatus p)
                                           PaymentStatus.COMPLETED)
            (payment_tbl db)).

(** What [place_bid] holds in its local variables once the bid is created
    and the anti-snipe extension applied (lines 42-116). *)
Record Committed := {
  c_db_bid : Bid.t;
  c_auction : option Auction.t;
  c_previous_highest_bid : option Bid.t;
  c_extended : bool
}.

Definition MAX_BID_PRICE : Z := 999999999.

Definition place_bid_commit (now : datetime) (bid : BidCreate.t)
    (current_user : Account.t) : M Committed :=
  auction <- call (get_auction now (BidCreate.auctionID bid)) ;;
  match auction with
  | None => raise (HTTPException HTTP_404_NOT_FOUND Auction_not_found)
  | Some auction =>
    let current_time := now in
    if negb ((Auction.startDate auction <=? current_time)
             && (current_time <=? Auction.endDate auction))
    then raise (HTTPException HTTP_400_BAD_REQUEST
                  (Auction_is_not_currently_active (Auction.startDate auction)))
    else if negb (status_accepts_bids (Auction.auctionStatus auction))
    then raise (HTTPException HTTP_400_BAD_REQUEST
                  (Auction_is_not_accepting_bids (Auction.auctionStatus auction)))
    else
    deposit_payment <-
      query (fun db => deposit_payment_of db (BidCreate.auctionID bid)
                         (Account.accountID current_user)) ;;
    match deposit_payment with
    | None => raise (HTTPException HTTP_400_BAD_REQUEST
                       You_must_register_and_pay_the_deposit)
    | Some _ =>
      previous_highest_bid <-
        query (fun db => get_current_highest_bid db (BidCreate.auctionID bid)) ;;
      let min_bid_amount :=
        match previous_highest_bid with
        | Some p => Bid.bidPrice p + Auction.priceStep auction
        | None => Auction.priceStep auction
        end in
      let '(is_valid, _) :=
        validate_price (BidCreate.bidPrice bid) min_bid_amount (Some MAX_BID_PRICE) in
      if negb is_valid
      then raise (HTTPException HTTP_400_BAD_REQUEST
                    (Bid_must_be_at_least min_bid_amount))
      else
      db_bid <- call (create_bid now bid (Account.accountID current_user)) ;;
      let time_remaining := Auction.endDate auction - current_time in
      if time_remaining <=? timedelta_minutes 5
      then
        let new_end_date := Auction.endDate auction + timedelta_minutes 5 in
        updated_auction <-
          call (update_auction_repo now (BidCreate.auctionID bid)
                  (AuctionUpdate.of_endDate new_end_date)) ;;
        ret {| c_db_bid := db_bid; c_auction := updated_auction;
               c_previous_highest_bid := previous_highest_bid;
               c_extended := true |}
      else
        ret {| c_db_bid := db_bid; c_auction := Some auction;
               c_previous_highest_bid := previous_highest_bid;
               c_extended := false |}
    end
  end.

(** A call of the notification block whose Python code raises, when
    [faults] says so, before anything is written: the session is as it
    was.  The failure of the commit that [create_notification] makes is not
    of this kind; it is modelled with the session, in [place_bid_session]
    below. *)
Definition attempt (faults : NotifyStep -> bool) (step : NotifyStep) : M unit :=
  fun db => if faults step then (Raise (Exception step), db) else (Ok tt, db).

Definition create_task (t : BroadcastTask) : M unit :=
  fun db => (Ok tt, with_tasks (tasks db ++ [t]) db).

Definition send_email (e : Email) : M unit :=
  fun db => (Ok tt, with_outbox (outbox db ++ [e]) db).

(** The body of the [try] block of [place_bid] (lines 119-176). *)
Definition send_notifications (now : datetime) (faults : NotifyStep -> bool)
    (bid : BidCreate.t) (current_user : Account.t) (c : Committed) : M unit :=
  attempt faults CollectParticipants ;;;
  all_bids <-
    query (fun db => get_bids_by_auction db (BidCreate.auctionID bid) 0 100) ;;
  attempt faults Broadcast ;;;
  create_task
    {| task_auction_id := BidCreate.auctionID bid;
       task_new_highest_bid_raw := BidCreate.bidPrice bid;
       task_total_bids := Z.of_nat (List.length all_bids);
       task_extended := c_extended c;
       task_new_end_time := option_map Auction.endDate (c_auction c) |} ;;;
  match c_previous_highest_bid c with
  | Some previous_highest_bid =>
      if negb (Bid.userID previous_highest_bid =? Account.accountID current_user)
      then
        attempt faults LookupAccount ;;;
        outbid_user <-
          query (fun db => get_account_by_id db (Bid.userID previous_highest_bid)) ;;
        match outbid_user, c_auction c with
        | Some outbid_user, Some auction =>
            attempt faults RecordNotification ;;;
            call (create_notification now
                    (NotificationCreate.mk (Bid.userID previous_highest_bid)
                       (BidCreate.auctionID bid) NotificationType.BID_OUTBID
                       "You have been outbid!")) ;;;
            attempt faults SendEmail ;;;
            send_email {| to_email := Account.email outbid_user;
                          subject_auction := Auction.auctionName auction |}
        | Some _, None => raise AttributeError
        | None, _ => ret tt
        end
      else ret tt
  | None => ret tt
  end.

Record PlaceBidResponse := {
  success : bool;
  bid_id : Z;
  auction_id : Z;
  bid_price_raw : Z;
  bid_status : BidStatus.t;
  is_leading : bool;
  auction_extended : bool
}.

Definition place_bid (now : datetime) (faults : NotifyStep -> bool)
    (bid : BidCreate.t) (current_user : Account.t) : M PlaceBidResponse :=
  c <- place_bid_commit now bid current_user ;;
  try_except (send_notifications now faults bid current_user c) ;;;
  match c_auction c with
  | None => raise AttributeError   (* [auction.endDate] of [None], line 193 *)
  | Some _ =>
      ret {| success := true;
             bid_id := Bid.bidID (c_db_bid c);
             auction_id := Bid.auctionID (c_db_bid c);
             bid_price_raw := Bid.bidPrice (c_db_bid c);
             bid_status := Bid.bidStatus (c_db_bid c);
             is_leading := true;
             auction_extended := c_extended c |}
  end.

(** ** [place_bid] when the commit of the notification fails

    In [place_bid] above every statement sent to the database succeeds.
    [create_notification] commits on the session of the request, inside
    the [try] block.  When that commit fails, the transaction is rolled
    back: the notification is not stored, what the earlier commits stored
    stays, every row object of the session is expired, and the session
    refuses any further statement with [PendingRollbackError] until
    [rollback()] is called.  The [except] of [place_bid] does not call it,
    and the [return] reads [db_bid.bidID]. *)

Record Session := { database : World; needs_rollback : bool }.

Definition open_session (db : World) : Session :=
  {| database := db; needs_rollback := false |}.

Definition S (A : Type) : Type := Session -> Result A * Session.

Definition bindS {A B} (c : S A) (k : A -> S B) : S B :=
  fun s =>
    match c s with
    | (Ok a, s') => k a s'
    | (Raise e, s') => (Raise e, s')
    end.

Declare Scope session_scope.
Delimit Scope session_scope with session.
Notation "x <- c ;; k" := (bindS c (fun x => k)) : session_scope.
Notation "c ;;; k" := (bindS c (fun _ => k)) : session_scope.

(** Code that sends statements to the database, all of which succeed. *)
Definition statement {A} (c : M A) : S A :=
  fun s =>
    if needs_rollback s then (Raise PendingRollbackError, s)
    else let '(r, db) := c (database s) in
         (r, {| database := db; needs_rollback := false |}).

(** Code that sends none. *)
Definition local {A} (c : M A) : S A :=
  fun s =>
    let '(r, db) := c (database s) in
    (r, {| database := db; needs_rollback := needs_rollback s |}).

(** [db.add(row); db.commit()] when the commit fails. *)
Definition failed_commit {A} : S A :=
  fun s =>
    if needs_rollback s then (Raise PendingRollbackError, s)
    else (Raise SQLAlchemyError, {| database := database s; needs_rollback := true |}).

(** Reading an attribute of a row object: a statement when the object is
    expired, as every object is after a rollback. *)
Definition read_row : S unit :=
  fun s =>
    if needs_rollback s then (Raise PendingRollbackError, s) else (Ok tt, s).

Definition try_except_session (body : S unit) : S unit :=
  fun s =>
    match body s with
    | (Ok _, s') => (Ok tt, s')
    | (Raise _, s') => (Ok tt, s')
    end.

(** The [try] block, with [commit_fails] for the commit of
    [create_notification]. *)
Definition send_notifications_session (now : datetime)
    (faults : NotifyStep -> bool) (commit_fails : bool)
    (bid : BidCreate.t) (current_user : Account.t) (c : Committed) : S unit :=
  (local (attempt faults CollectParticipants) ;;;
   all_bids <-
     statement
       (query (fun db => get_bids_by_auction db (BidCreate.auctionID bid) 0 100)) ;;
   local (attempt faults Broadcast) ;;;
   local (create_task
            {| task_auction_id := BidCreate.auctionID bid;
               task_new_highest_bid_raw := BidCreate.bidPrice bid;
               task_total_bids := Z.of_nat (List.length all_bids);
               task_extended := c_extended c;
               task_new_end_time := option_map Auction.endDate (c_auction c) |}) ;;;
   match c_previous_highest_bid c with
   | Some previous_highest_bid =>
       if negb (Bid.userID previous_highest_bid =? Account.accountID current_user)
       then
         local (attempt faults LookupAccount) ;;;
         outbid_user <-
           statement
             (query (fun db =>
                       get_account_by_id db (Bid.userID previous_highest_bid))) ;;
         match outbid_user, c_auction c with
         | Some outbid_user, Some auction =>
             local (attempt faults RecordNotification) ;;;
             (if commit_fails then failed_commit
              else
                statement
                  (call (create_notification now
                           (NotificationCreate.mk (Bid.userID previous_highest_bid)
                              (BidCreate.auctionID bid) NotificationType.BID_OUTBID
                              "You have been outbid!")))) ;;;
             local (attempt faults SendEmail) ;;;
             local (send_email {| to_email := Account.email outbid_user;
                                  subject_auction := Auction.auctionName auction |})
         | Some _, None => local (raise AttributeError)
         | None, _ => local (ret tt)
         end
       else local (ret tt)
   | None => local (ret tt)
   end)%session.

Definition place_bid_session (now : datetime) (faults : NotifyStep -> bool)
    (commit_fails : bool) (bid : BidCreate.t) (current_user : Account.t)
    : S PlaceBidResponse :=
  (c <- statement (place_bid_commit now bid current_user) ;;
   try_except_session
     (send_notifications_session now faults commit_fails bid current_user c) ;;;
   read_row ;;;   (* [db_bid.bidID], line 185 *)
   match c_auction c with
   | None => local (raise AttributeError)
   | Some _ =>
       local (ret {| success := true;
                     bid_id := Bid.bidID (c_db_bid c);
                     auction_id := Bid.auctionID (c_db_bid c);
                     bid_price_raw := Bid.bidPrice (c_db_bid c);
                     bid_status := Bid.bidStatus (c_db_bid c);
                     is_leading := true;
                     auction_extended := c_extended c |})
   end)%session.

(** ** [routers/v1/bids.py]: [cancel_bid] *)

Inductive MessageResponse := Bid_cancelled_successfully.

Definition cancel_bid (now : datetime) (bid_id : Z) (current_user : Account.t)
    : M MessageResponse :=
  bid <- query (fun db => get_bid db bid_id) ;;
  match bid with
  | None => raise (HTTPException HTTP_404_NOT_FOUND Bid_not_found)
  | Some bid =>
    if negb (Bid.userID bid =? Account.accountID current_user)
    then raise (HTTPException HTTP_403_FORBIDDEN You_can_only_cancel_your_own_bids)
    else if negb (String.eqb (BidStatus.value (Bid.bidStatus bid)) "active")
    then raise (HTTPException HTTP_400_BAD_REQUEST
                  (Bid_is_not_active (Bid.bidStatus bid)))
    else
    auction <- call (get_auction now (Bid.auctionID bid)) ;;
    match auction with
    | None => raise (HTTPException HTTP_404_NOT_FOUND Auction_not_found)
    | Some auction =>
      let current_time := now in
      let time_diff := Auction.endDate auction - current_time in
      if time_diff <=? 0
      then raise (HTTPException HTTP_400_BAD_REQUEST
                    Cannot_cancel_bid_after_auction_has_ended)
      else
      current_highest_bid <-
        query (fun db => get_current_highest_bid db (Bid.auctionID bid)) ;;
      (match current_highest_bid with
       | Some h =>
           if Bid.userID h =? Account.accountID current_user
           then
             if time_diff <=? timedelta_minutes 10
             then raise (HTTPException HTTP_400_BAD_REQUEST
                           Cannot_cancel_bid_while_leading_in_the_last_10_minutes)
             else if timedelta_minutes 10 <? time_diff
             then
               let new_end_date := Auction.endDate auction + timedelta_minutes 5 in
               call (update_auction_repo now (Bid.auctionID bid)
                       (AuctionUpdate.of_endDate new_end_date)) ;;;
               ret tt
             else ret tt
           else ret tt
       | None => ret tt
       end) ;;;
      success <- call (cancel_bid_repo bid_id (Account.accountID current_user)) ;;
      if negb success
      then raise (HTTPException HTTP_500_INTERNAL_SERVER_ERROR Failed_to_cancel_bid)
      else ret Bid_cancelled_successfully
    end
  end.

(** ** [routers/v1/auctions.py]: [update_auction] (administrators only)

    [sanitize_string] rewrites the auction's name only; it is taken as an
    argument. *)

Definition update_auction (sanitize_string : string -> Z -> string)
    (now : datetime) (auction_id : Z) (auction_update : AuctionUpdate.t)
    : M Auction.t :=
  auction <- call (get_auction now auction_id) ;;
  match auction with
  | None => raise (HTTPException HTTP_404_NOT_FOUND Auction_not_found)
  | Some auction =>
    let auction_update :=
      match AuctionUpdate.auctionName auction_update with
      | Some name =>
          if String.eqb name "" then auction_update
          else AuctionUpdate.mk (Some (sanitize_string name 200))
                 (AuctionUpdate.startDate auction_update)
                 (AuctionUpdate.endDate auction_update)
                 (AuctionUpdate.priceStep auction_update)
                 (AuctionUpdate.auctionStatus auction_update)
                 (AuctionUpdate.bidWinnerID auction_update)
      | None => auction_update
      end in
    let dates_checked :=
      match AuctionUpdate.startDate auction_update,
            AuctionUpdate.endDate auction_update with
      | Some s, Some e => validate_date_range s e (Some 1) (Some 30)
      | _, _ => (true, None)
      end in
    if negb (fst dates_checked)
    then raise (HTTPException HTTP_400_BAD_REQUEST
                  (Invalid_date_range (snd dates_checked)))
    else
    let price_checked :=
      match AuctionUpdate.priceStep auction_update with
      | Some p =>
          if p =? 0 then (true, None)
          else validate_price p 1000 (Some 100000000)
      | None => (true, None)
      end in
    if negb (fst price_checked)
    then raise (HTTPException HTTP_400_BAD_REQUEST
                  (Invalid_price (snd price_checked)))
    else if AuctionStatus.eqb (Auction.auctionStatus auction) AuctionStatus.ONGOING
    then raise (HTTPException HTTP_400_BAD_REQUEST Cannot_update_active_auction)
    else
    updated_auction <- call (update_auction_repo now auction_id auction_update) ;;
    match updated_auction with
    | None => raise (HTTPException HTTP_500_INTERNAL_SERVER_ERROR
                       Failed_to_update_auction)
    | Some updated_auction => ret updated_auction
    end
  end.

(** ** The operations that mutate an auction after its creation *)

Inductive Operation :=
| Reconcile (auction_id : Z)
| PlaceBid (faults : NotifyStep -> bool) (bid : BidCreate.t) (current_user : Account.t)
| CancelBid (bid_id : Z) (current_user : Account.t).

Definition run (now : datetime) (op : Operation) (db : World) : World :=
  match op with
  | Reconcile auction_id => snd (get_auction now auction_id db)
  | PlaceBid faults bid current_user => snd (place_bid now faults bid current_user db)
  | CancelBid bid_id current_user => snd (cancel_bid now bid_id current_user db)
  end.

(** A sequence of operations, each at its own instant. *)
Definition run_all (requests : list (datetime * Operation)) (db : World) : World :=
  fold_left (fun db request => run (fst request) (snd request) db) requests db.

(** A sequence of [place_bid] requests, each at its own instant; the
    responses come back in order together with the final session. *)
Fixpoint place_bids (faults : NotifyStep -> bool)
    (requests : list (datetime * BidCreate.t * Account.t)) (db : World)
    : list (Result PlaceBidResponse) * World :=
  match requests with
  | [] => ([], db)
  | (now, bid, current_user) :: rest =>
      let '(r, db1) := place_bid now faults bid current_user db in
      let '(rs, db2) := place_bids faults rest db1 in
      (r :: rs, db2)
  end.

(** ** Scenario of the specification: price step 10000, two bidders *)

Definition minute : Z := 60 * 1000000.

Definition alice : Account.t := Account.mk 1 "alice" "alice@example.com".
Definition bob : Account.t := Account.mk 2 "bob" "bob@example.com".

Definition deposit (payment_id auction_id user_id : Z) : Payment.t :=
  Payment.mk payment_id auction_id user_id PaymentStatus.COMPLETED
             PaymentType.DEPOSIT 100000.

(** Auction 7 runs from instant 0 to [end_]; both bidders paid the deposit. *)
Definition demo_auction (status : AuctionStatus.t) (end_ : datetime) : Auction.t :=
  Auction.mk 7 "vase" 3 0 None 0 end_ 10000 status None.

Definition demo_world (status : AuctionStatus.t) (end_ : datetime)
    (bids : list Bid.t) : World :=
  mkWorld [demo_auction status end_] bids [deposit 1 7 1; deposit 2 7 2]
          [alice; bob] [] [] [].

Definition no_faults : NotifyStep -> bool := fun _ => false.
Definition all_faults : NotifyStep -> bool := fun _ => true.

(** ** Vocabulary of the properties *)

(** The row of an auction, as [get_auction] looks it up. *)
Definition find_auction (db : World) (auction_id : Z) : option Auction.t :=
  first (filter (fun a => Auction.auctionID a =? auction_id) (auction_tbl db)).

(** The ACTIVE bids of an auction, in scan order. *)
Definition active_bids (db : World) (auction_id : Z) : list Bid.t :=
  filter (fun b => (Bid.auctionID b =? auction_id)
                   && BidStatus.eqb (Bid.bidStatus b) BidStatus.ACTIVE)
         (bid_tbl db).

(** What [check_and_update_status] returns when it closes the auction. *)
Definition closed (a : Auction.t) (db : World) : option Auction.t * World :=
  match first (order_by_bidPrice_desc (active_bids db (Auction.auctionID a))) with
  | Some highest_bid =>
      let a' :=
        Auction.set_bidWinnerID (Some (Bid.userID highest_bid))
          (Auction.set_auctionStatus AuctionStatus.COMPLETED a) in
      (Some a',
       save_auction a'
         (with_bids (resolve_bids (Auction.auctionID a) highest_bid (bid_tbl db)) db))
  | None =>
      let a' := Auction.set_auctionStatus AuctionStatus.COMPLETED a in
      (Some a', save_auction a' db)
  end.

(** Reconciliation keeps the key, the dates and the price step. *)
Definition same_dates (a a1 : Auction.t) : Prop :=
  Auction.auctionID a1 = Auction.auctionID a
  /\ Auction.startDate a1 = Auction.startDate a
  /\ Auction.endDate a1 = Auction.endDate a
  /\ Auction.priceStep a1 = Auction.priceStep a.

(** The tables and logs that reconciliation never writes. *)
Definition same_side_tables (db db1 : World) : Prop :=
  payment_tbl db1 = payment_tbl db
  /\ account_tbl db1 = account_tbl db
  /\ notification_tbl db1 = notification_tbl db
  /\ tasks db1 = tasks db
  /\ outbox db1 = outbox db.

(** The lifecycle order SCHEDULED -> ONGOING -> COMPLETED: [s'] is [s] or
    lies further along the chain. *)
Definition not_backward (s s' : AuctionStatus.t) : Prop :=
  s' = s
  \/ (s = AuctionStatus.SCHEDULED /\ s' = AuctionStatus.ONGOING)
  \/ (s = AuctionStatus.SCHEDULED /\ s' = AuctionStatus.COMPLETED)
  \/ (s = AuctionStatus.ONGOING /\ s' = AuctionStatus.COMPLETED).

(** The bid that the specification elects at closing: an ACTIVE bid of the
    auction of the greatest amount and, among those, of the earliest
    creation timestamp. *)
Definition earliest_greatest (db : World) (auction_id : Z) (h : Bid.t) : Prop :=
  In h (active_bids db auction_id)
  /\ forall b, In b (active_bids db auction_id) ->
       Bid.bidPrice b < Bid.bidPrice h
       \/ (Bid.bidPrice b = Bid.bidPrice h /\ Bid.createdAt h <= Bid.createdAt b).

(** Two ACTIVE bids of 70000 on auction 7; the row scanned first was
    created later. *)
Definition tie_world : World :=
  demo_world AuctionStatus.ONGOING (60 * minute)
    [Bid.mk 1 7 1 70000 BidStatus.ACTIVE (59 * minute + 2);
     Bid.mk 2 7 2 70000 BidStatus.ACTIVE (59 * minute + 1)].

(** What the two writes of the winner resolution do to one row. *)
Definition resolve_row (auction_id : Z) (h b : Bid.t) : Bid.t :=
  let b1 := if Bid.bidID b =? Bid.bidID h
            then Bid.set_bidStatus BidStatus.WINNING b else b in
  if (Bid.auctionID b1 =? auction_id) && negb (Bid.bidID b1 =? Bid.bidID h)
     && BidStatus.eqb (Bid.bidStatus b1) BidStatus.ACTIVE
  then Bid.set_bidStatus BidStatus.LOST b1 else b1.

(** The least amount [place_bid] accepts on auction [a]: the price of the
    current highest bid plus the price step, the price step alone when
    there is no such bid. *)
Definition minimum_bid (db : World) (a : Auction.t) : Z :=
  match get_current_highest_bid db (Auction.auctionID a) with
  | Some p => Bid.bidPrice p + Auction.priceStep a
  | None => Auction.priceStep a
  end.

(** The auction after an extension of five minutes made at [now]. *)
Definition extended_auction (now : datetime) (a : Auction.t) : Auction.t :=
  Auction.set_updatedAt (Some now)
    (Auction.set_endDate (Auction.endDate a + timedelta_minutes 5) a).

(** The row that [create_bid] inserts. *)
Definition new_bid (now : datetime) (bid : BidCreate.t) (current_user : Account.t)
    (db : World) : Bid.t :=
  Bid.mk (next_id (map Bid.bidID (bid_tbl db))) (BidCreate.auctionID bid)
         (Account.accountID current_user) (BidCreate.bidPrice bid)
         BidStatus.ACTIVE now.

(** An auction on which [check_and_update_status] has nothing to do at
    [now]. *)
Definition settled (now : datetime) (a : Auction.t) : Prop :=
  (Auction.auctionStatus a <> AuctionStatus.SCHEDULED \/ now < Auction.startDate a)
  /\ (Auction.auctionStatus a <> AuctionStatus.ONGOING \/ now < Auction.endDate a).

(** The bid table once bid [bid_id] is cancelled. *)
Definition cancelled (bid_id : Z) (db : World) : World :=
  with_bids (set_bid_status bid_id BidStatus.CANCELLED (bid_tbl db)) db.

(** Every auction of [db] is still there in [db'], with the start it had
    and an end that is not earlier. *)
Definition advances (db db' : World) : Prop :=
  forall id a,
    find_auction db id = Some a ->
    exists a',
      find_auction db' id = Some a'
      /\ Auction.startDate a' = Auction.startDate a
      /\ Auction.endDate a <= Auction.endDate a'.

(** The bids that count for the current price. *)
Definition leading_bids (db : World) (auction_id : Z) : list Bid.t :=
  filter (fun b => (Bid.auctionID b =? auction_id)
                   && BidStatus.in_leading (Bid.bidStatus b))
         (bid_tbl db).

(** The current price of the specification: the greatest amount among the
    ACTIVE, WINNING and WON bids of the auction, 0 when there is none. *)
Definition current_price (db : World) (auction_id : Z) : Z :=
  match map Bid.bidPrice (leading_bids db auction_id) with
  | [] => 0
  | p :: ps => fold_right Z.max p ps
  end.

Definition is_ok {A : Type} (r : Result A) : Prop := exists x, r = Ok x.

(** Auction 8 is planned from minute 100 to minute 400. *)
Definition planned_world : World :=
  mkWorld [Auction.mk 8 "lamp" 4 0 None (100 * minute) (400 * minute) 10000
             AuctionStatus.SCHEDULED None]
          [] [] [alice; bob] [] [] [].

(** A request that sets both dates, three hours apart. *)
Definition shorten : AuctionUpdate.t :=
  AuctionUpdate.mk None (Some (100 * minute)) (Some (280 * minute)) None None None.

(** The bids of one auction, in scan order. *)
Definition bids_of (db : World) (auction_id : Z) : list Bid.t :=
  filter (fun b => Bid.auctionID b =? auction_id) (bid_tbl db).

(** The scenario of the specification: with two minutes left, bidder A bids
    50000, then bidder B bids 60000. *)
Definition scenario_requests : list (datetime * BidCreate.t * Account.t) :=
  [(60 * minute, BidCreate.mk 7 50000, alice);
   (60 * minute, BidCreate.mk 7 60000, bob)].

Definition scenario_world : World :=
  demo_world AuctionStatus.ONGOING (62 * minute) [].

(** Bidder A leads auction 7 with 50000; the auction ends at minute 120. *)
Definition led_world : World :=
  demo_world AuctionStatus.ONGOING (120 * minute)
    [Bid.mk 1 7 1 50000 BidStatus.ACTIVE (59 * minute)].

(** Auction 7 ended at minute 59 and was not fetched since: it is still
    ONGOING and bidder A's bid still ACTIVE. *)
Definition ended_world : World :=
  demo_world AuctionStatus.ONGOING (59 * minute)
    [Bid.mk 1 7 1 50000 BidStatus.ACTIVE (50 * minute)].

(** The session with the creation timestamp of every bid replaced by the
    one that [f] gives for its key. *)
Definition retime_bid (f : Z -> datetime) (b : Bid.t) : Bid.t :=
  Bid.set_createdAt (f (Bid.bidID b)) b.

Definition retime (f : Z -> datetime) (db : World) : World :=
  with_bids (map (retime_bid f) (bid_tbl db)) db.

(** ** Vocabulary of the further properties *)

(** A bid without its status: key, auction, bidder, amount and creation
    timestamp. *)
Definition bid_identity (b : Bid.t) : Z * Z * Z * Z * datetime :=
  (Bid.bidID b, Bid.auctionID b, Bid.userID b, Bid.bidPrice b, Bid.createdAt b).

(** Every auction of [db] is still there in [db'], its status not moved
    backwards, and its name, product, creation timestamp and price step as
    they were. *)
Definition evolves (db db' : World) : Prop :=
  forall id a,
    find_auction db id = Some a ->
    exists a',
      find_auction db' id = Some a'
      /\ not_backward (Auction.auctionStatus a) (Auction.auctionStatus a')
      /\ Auction.priceStep a' = Auction.priceStep a
      /\ Auction.auctionName a' = Auction.auctionName a
      /\ Auction.productID a' = Auction.productID a
      /\ Auction.createdAt a' = Auction.createdAt a.

(** ** [repositories/auction.py]: [create_auction], [get_auctions],
       [get_user_won_auctions] *)

Module AuctionCreate.
Record t := mk {
  auctionName : string;
  productID : Z;
  startDate : datetime;
  endDate : datetime;
  priceStep : Z
}.

Definition set_auctionName (v : string) (a : t) : t :=
  mk v (productID a) (startDate a) (endDate a) (priceStep a).
End AuctionCreate.

Definition create_auction (now : datetime) (auction : AuctionCreate.t) (db : World)
    : option Auction.t * World :=
  let db_auction :=
    Auction.mk (next_id (map Auction.auctionID (auction_tbl db)))
               (AuctionCreate.auctionName auction) (AuctionCreate.productID auction)
               now None
               (AuctionCreate.startDate auction) (AuctionCreate.endDate auction)
               (AuctionCreate.priceStep auction) AuctionStatus.SCHEDULED None in
  let db := with_auctions (auction_tbl db ++ [db_auction]) db in
  check_and_update_status now (Some db_auction) db.

(** [[check_and_update_status(db, a) for a in auctions]] *)
Fixpoint check_each (now : datetime) (auctions : list Auction.t) (db : World)
    : list (option Auction.t) * World :=
  match auctions with
  | [] => ([], db)
  | a :: rest =>
      let '(a', db) := check_and_update_status now (Some a) db in
      let '(rest', db) := check_each now rest db in
      (a' :: rest', db)
  end.

Definition get_auctions (now : datetime) (skip limit : nat) (db : World)
    : list (option Auction.t) * World :=
  check_each now (offset_limit skip limit (auction_tbl db)) db.


(** ** [routers/v1/auctions.py]: [register_auction]

    The products table is read once and never written; it is given beside
    the session.  The endpoint compares the start with its own reading of
    the clock ([datetime.now()] for a start without time zone), the
    repository stamps and reconciles with the UTC clock: [now_local] and
    [now] are the two readings. *)

Module Product.
Record t := mk { productID : Z; productName : string }.
End Product.

Definition get_product (products : list Product.t) (product_id : Z)
    : option Product.t :=
  first (filter (fun p => Product.productID p =? product_id) products).

Inductive RegisterDetail :=
| Product_not_found
| Register_invalid_date_range (error : option DateRangeError)
| Register_invalid_price (error : option PriceError)
| Start_date_must_be_in_the_future.

Inductive Registered :=
| Registration_refused (status_code : Z) (detail : RegisterDetail)
| Registration_done (db_auction : option Auction.t).

Definition register_auction (sanitize_string : string -> Z -> string)
    (products : list Product.t) (now_local now : datetime)
    (auction : AuctionCreate.t) (db : World) : Registered * World :=
  let auction :=
    AuctionCreate.set_auctionName
      (sanitize_string (AuctionCreate.auctionName auction) 200) auction in
  match get_product products (AuctionCreate.productID auction) with
  | None => (Registration_refused HTTP_404_NOT_FOUND Product_not_found, db)
  | Some _ =>
    let '(is_valid, error) :=
      validate_date_range (AuctionCreate.startDate auction)
        (AuctionCreate.endDate auction) (Some 1) (Some 30) in
    if negb is_valid
    then (Registration_refused HTTP_400_BAD_REQUEST
            (Register_invalid_date_range error), db)
    else
    let '(is_valid, error) :=
      validate_price (AuctionCreate.priceStep auction) 1000 (Some 100000000) in
    if negb is_valid
    then (Registration_refused HTTP_400_BAD_REQUEST (Register_invalid_price error), db)
    else if AuctionCreate.startDate auction <=? now_local
    then (Registration_refused HTTP_400_BAD_REQUEST Start_date_must_be_in_the_future,
          db)
    else
      let '(db_auction, db) := create_auction now auction db in
      (Registration_done db_auction, db)
  end.

(** ** [routers/v1/bids.py]: [get_highest_bid] *)

Inductive HighestBid :=
| No_bids_yet (next_min_bid : Z)
| Highest_bid (bid_id bid_price_raw : Z) (is_your_bid : bool) (next_min_bid_raw : Z).

Definition next_min_bid_of (r : HighestBid) : Z :=
  match r with
  | No_bids_yet m => m
  | Highest_bid _ _ _ m => m
  end.

Definition get_highest_bid (now : datetime) (auction_id : Z)
    (current_user : Account.t) : M HighestBid :=
  auction <- call (get_auction now auction_id) ;;
  match auction with
  | None => raise (HTTPException HTTP_404_NOT_FOUND Auction_not_found)
  | Some auction =>
      highest_bid <- query (fun db => get_current_highest_bid db auction_id) ;;
      match highest_bid with
      | None => ret (No_bids_yet (Auction.priceStep auction))
      | Some highest_bid =>
          let next_min_bid := Bid.bidPrice highest_bid + Auction.priceStep auction in
          ret (Highest_bid (Bid.bidID highest_bid) (Bid.bidPrice highest_bid)
                 (Bid.userID highest_bid =? Account.accountID current_user)
                 next_min_bid)
      end
  end.

(** ** [utils/formatter.py]: [format_pagination_response]

    The items are passed through and left out; [None] is the
    [ZeroDivisionError] of a page size of 0. *)

Record Pagination := {
  page : Z;
  page_size : Z;
  total_items : Z;
  total_pages : Z;
  has_next : bool;
  has_previous : bool
}.

Definition format_pagination_response (page page_size total_items : Z)
    : option Pagination :=
  if page_size =? 0 then None
  else
    let total_pages := (total_items + page_size - 1) / page_size in
    Some {| page := page;
            page_size := page_size;
            total_items := total_items;
            total_pages := total_pages;
            has_next := page <? total_pages;
            has_previous := 1 <? page |}.

(** ** [routers/v1/bids.py]: [get_auction_bids]

    [skip] and [limit] are the integers of the query string, which the
    endpoint does not bound.  The page is the Python slice
    [all_bids[skip:skip+limit]]: a negative index counts from the end of
    the list, and an index beyond an end of the list is brought back to
    that end.  The items of the page are the bid rows, from which the
    endpoint formats its entries; the formatted texts, and the lookups of
    the bidders that serve them, are left out.  For a limit of 0,
    [skip // limit] raises [ZeroDivisionError], which the endpoint does not
    catch. *)

Definition slice_index (len i : Z) : Z :=
  if i <? 0 then Z.max (i + len) 0 else Z.min i len.

(** [rows[start:stop]] *)
Definition slice {A : Type} (rows : list A) (start stop : Z) : list A :=
  let len := Z.of_nat (List.length rows) in
  let lo := slice_index len start in
  let hi := slice_index len stop in
  firstn (Z.to_nat (hi - lo)) (skipn (Z.to_nat lo) rows).

Record AuctionBids := {
  listed_auction : Auction.t;
  listed_bids : list Bid.t;
  listed_pagination : Pagination
}.

Definition get_auction_bids (now : datetime) (auction_id : Z) (skip limit : Z)
    : M AuctionBids :=
  auction <- call (get_auction now auction_id) ;;
  match auction with
  | None => raise (HTTPException HTTP_404_NOT_FOUND Auction_not_found)
  | Some auction =>
      all_bids <- query (fun db => get_bids_by_auction db auction_id 0 1000) ;;
      let total := Z.of_nat (List.length all_bids) in
      let bids := slice all_bids skip (skip + limit) in
      if limit =? 0 then raise ZeroDivisionError
      else
        match format_pagination_response (skip / limit + 1) limit total with
        | None => raise ZeroDivisionError
        | Some pagination =>
            ret {| listed_auction := auction;
                   listed_bids := bids;
                   listed_pagination := pagination |}
        end
  end.

(** * Properties *)

#[local] Arguments check_and_update_status : simpl never.

(** ** Enumerations *)

Lemma BidStatus_eqb_eq x y : BidStatus.eqb x y = true <-> x = y.
Proof. destruct x, y; simpl; split; intro H; try reflexivity; discriminate. Qed.

Lemma BidStatus_eqb_neq x y : BidStatus.eqb x y = false <-> x <> y.
Proof.
  split.
  - intros H E. apply BidStatus_eqb_eq in E. congruence.
  - intro H. destruct (BidStatus.eqb x y) eqn:E; [|reflexivity].
    apply BidStatus_eqb_eq in E. contradiction.
Qed.

Lemma status_accepts_bids_ongoing s :
  status_accepts_bids s = true <-> s = AuctionStatus.ONGOING.
Proof. destruct s; vm_compute; split; intro H; try reflexivity; discriminate. Qed.

Lemma value_is_active s :
  String.eqb (BidStatus.value s) "active" = true <-> s = BidStatus.ACTIVE.
Proof. destruct s; vm_compute; split; intro H; try reflexivity; discriminate. Qed.

(** ** The price-ordered query *)

Section PriceOrder.

Lemma first_insert b rows :
  first (insert_by_price_desc b rows) =
  match first rows with
  | Some x => if Bid.bidPrice b <? Bid.bidPrice x then Some x else Some b
  | None => Some b
  end.
Proof.
  destruct rows as [|x rest]; simpl; [reflexivity|].
  destruct (Bid.bidPrice b <? Bid.bidPrice x); reflexivity.
Qed.

Lemma first_order_by_nil rows :
  first (order_by_bidPrice_desc rows) = None -> rows = [].
Proof.
  destruct rows as [|b rest]; [reflexivity|]. simpl.
  rewrite first_insert.
  destruct (first (order_by_bidPrice_desc rest)) as [x|];
    [destruct (Bid.bidPrice b <? Bid.bidPrice x)|]; discriminate.
Qed.

(** The head of the ordered rows is the first row of greatest price:
    strictly smaller prices before it, no greater price after it. *)
Lemma first_order_by_split rows h :
  first (order_by_bidPrice_desc rows) = Some h ->
  exists before after,
    rows = before ++ h :: after
    /\ Forall (fun b => Bid.bidPrice b < Bid.bidPrice h) before
    /\ Forall (fun b => Bid.bidPrice b <= Bid.bidPrice h) after.
Proof.
  revert h. induction rows as [|b rest IH]; intros h H; [discriminate|].
  simpl in H. rewrite first_insert in H.
  destruct (first (order_by_bidPrice_desc rest)) as [x|] eqn:F.
  - destruct (IH x eq_refl) as (l1 & l2 & E & B & A).
    destruct (Bid.bidPrice b <? Bid.bidPrice x) eqn:C; inversion H; subst h.
    + apply Z.ltb_lt in C. exists (b :: l1), l2. rewrite E. repeat split; auto.
    + apply Z.ltb_ge in C. exists [], rest. repeat split; auto.
      rewrite E. apply Forall_app. split.
      * eapply Forall_impl; [|exact B]. simpl. intros; lia.
      * constructor; [lia|]. eapply Forall_impl; [|exact A]. simpl. intros; lia.
  - inversion H; subst h. apply first_order_by_nil in F. subst rest.
    exists [], []. repeat split; auto.
Qed.

Lemma first_order_by_In rows h :
  first (order_by_bidPrice_desc rows) = Some h -> In h rows.
Proof.
  intro H. destruct (first_order_by_split _ _ H) as (l1 & l2 & E & _).
  rewrite E. apply in_or_app. right. left. reflexivity.
Qed.

Lemma first_order_by_max rows h b :
  first (order_by_bidPrice_desc rows) = Some h -> In b rows ->
  Bid.bidPrice b <= Bid.bidPrice h.
Proof.
  intros H I. destruct (first_order_by_split _ _ H) as (l1 & l2 & E & B & A).
  rewrite E in I. apply in_app_or in I. destruct I as [I|[I|I]].
  - rewrite Forall_forall in B. specialize (B _ I). simpl in B. lia.
  - subst b. lia.
  - rewrite Forall_forall in A. apply (A _ I).
Qed.

End PriceOrder.

(** ** Looking an auction up by its primary key, and saving it *)

Lemma find_auction_id db auction_id a :
  find_auction db auction_id = Some a -> Auction.auctionID a = auction_id.
Proof.
  unfold find_auction. induction (auction_tbl db) as [|r rows IH]; simpl; [discriminate|].
  destruct (Auction.auctionID r =? auction_id) eqn:E; simpl; auto.
  intro H. inversion H; subst. apply Z.eqb_eq. exact E.
Qed.

Lemma find_save_auction a db auction_id :
  find_auction (save_auction a db) auction_id =
  if auction_id =? Auction.auctionID a
  then option_map (fun _ => a) (find_auction db auction_id)
  else find_auction db auction_id.
Proof.
  unfold find_auction, save_auction. simpl.
  induction (auction_tbl db) as [|r rows IH]; simpl.
  - destruct (auction_id =? Auction.auctionID a); reflexivity.
  - destruct (Auction.auctionID r =? Auction.auctionID a) eqn:E1.
    + apply Z.eqb_eq in E1.
      destruct (auction_id =? Auction.auctionID a) eqn:E2.
      * apply Z.eqb_eq in E2. rewrite E1, <- E2, !Z.eqb_refl. reflexivity.
      * rewrite E1, (Z.eqb_sym (Auction.auctionID a) auction_id), E2. exact IH.
    + destruct (Auction.auctionID r =? auction_id) eqn:E3.
      * apply Z.eqb_eq in E3. subst auction_id. rewrite E1. reflexivity.
      * exact IH.
Qed.

(** ** [check_and_update_status], case by case *)

Lemma check_and_update_status_cases now a db :
  ((Auction.auctionStatus a <> AuctionStatus.SCHEDULED \/ now < Auction.startDate a)
   /\ (Auction.auctionStatus a <> AuctionStatus.ONGOING \/ now < Auction.endDate a)
   /\ check_and_update_status now (Some a) db = (Some a, db))
  \/ (Auction.auctionStatus a = AuctionStatus.SCHEDULED
      /\ Auction.startDate a <= now /\ now < Auction.endDate a
      /\ check_and_update_status now (Some a) db =
         (Some (Auction.set_auctionStatus AuctionStatus.ONGOING a),
          save_auction (Auction.set_auctionStatus AuctionStatus.ONGOING a) db))
  \/ ((Auction.auctionStatus a = AuctionStatus.ONGOING
       \/ (Auction.auctionStatus a = AuctionStatus.SCHEDULED
           /\ Auction.startDate a <= now))
      /\ Auction.endDate a <= now
      /\ check_and_update_status now (Some a) db = closed a db).
Proof.
  destruct a as [id nm pid ca ua st en ps status w].
  unfold check_and_update_status, closed, active_bids. simpl.
  destruct (st <=? now) eqn:S, (en <=? now) eqn:E, status;
    simpl; rewrite ?S; simpl; rewrite ?E; simpl;
    try apply Z.leb_le in S; try apply Z.leb_gt in S;
    try apply Z.leb_le in E; try apply Z.leb_gt in E;
    try (left; repeat split; auto; try (left; discriminate); try (right; lia);
         fail);
    try (right; left; repeat split; auto; fail);
    try (right; right; split; [auto|split; [assumption|reflexivity]]).
Qed.

Lemma find_auction_with_bids rows db auction_id :
  find_auction (with_bids rows db) auction_id = find_auction db auction_id.
Proof. reflexivity. Qed.

Lemma closed_inv a db :
  exists a1 db1,
    closed a db = (Some a1, db1)
    /\ Auction.auctionStatus a1 = AuctionStatus.COMPLETED
    /\ same_dates a a1
    /\ same_side_tables db db1
    /\ (find_auction db (Auction.auctionID a) <> None ->
        find_auction db1 (Auction.auctionID a) = Some a1)
    /\ (forall id, id <> Auction.auctionID a ->
        find_auction db1 id = find_auction db id).
Proof.
  unfold closed.
  destruct (first (order_by_bidPrice_desc (active_bids db (Auction.auctionID a))));
    eexists; eexists; (split; [reflexivity|]);
    unfold same_dates, same_side_tables; simpl; repeat split; try reflexivity.
  all: try (intro F; rewrite find_save_auction; simpl; rewrite Z.eqb_refl;
            unfold find_auction in *; simpl in *;
            destruct (first (filter _ (auction_tbl db))); [reflexivity|contradiction]).
  all: intros id N; rewrite find_save_auction; simpl;
       apply Z.eqb_neq in N; rewrite N; reflexivity.
Qed.

(** Whatever it does, [check_and_update_status] returns the auction, with
    its key and dates, stores what it returns and leaves the other tables
    and the other auctions alone. *)
Lemma check_and_update_status_inv now a db :
  exists a1 db1,
    check_and_update_status now (Some a) db = (Some a1, db1)
    /\ same_dates a a1
    /\ same_side_tables db db1
    /\ (find_auction db (Auction.auctionID a) = Some a ->
        find_auction db1 (Auction.auctionID a) = Some a1)
    /\ (forall id, id <> Auction.auctionID a ->
        find_auction db1 id = find_auction db id)
    /\ (Auction.auctionStatus a1 = AuctionStatus.ONGOING -> now < Auction.endDate a).
Proof.
  destruct (check_and_update_status_cases now a db)
    as [(H1 & H2 & E)|[(H1 & H2 & H3 & E)|(H1 & H2 & E)]]; rewrite E.
  - exists a, db. unfold same_dates, same_side_tables. repeat split; auto.
    intro S. destruct H2 as [H2|H2]; [contradiction|exact H2].
  - eexists; eexists; (split; [reflexivity|]).
    unfold same_dates, same_side_tables; simpl. repeat split; auto.
    + intro F. rewrite find_save_auction; simpl. rewrite Z.eqb_refl, F. reflexivity.
    + intros id N. rewrite find_save_auction; simpl.
      apply Z.eqb_neq in N; rewrite N; reflexivity.
  - destruct (closed_inv a db) as (a1 & db1 & C & S & D & T & F1 & F2).
    exists a1, db1. rewrite C. repeat split; auto.
    + apply D.
    + apply D.
    + apply D.
    + apply D.
    + apply T.
    + apply T.
    + apply T.
    + apply T.
    + apply T.
    + intro F. apply F1. rewrite F. discriminate.
    + intro O. rewrite S in O. discriminate.
Qed.

(** While the end lies ahead the bids are not touched: the auction is
    returned as it is, or started. *)
Lemma check_and_update_status_open now a db :
  now < Auction.endDate a ->
  (check_and_update_status now (Some a) db = (Some a, db)
   /\ (Auction.auctionStatus a <> AuctionStatus.SCHEDULED \/ now < Auction.startDate a))
  \/ (Auction.auctionStatus a = AuctionStatus.SCHEDULED
      /\ Auction.startDate a <= now
      /\ check_and_update_status now (Some a) db =
         (Some (Auction.set_auctionStatus AuctionStatus.ONGOING a),
          save_auction (Auction.set_auctionStatus AuctionStatus.ONGOING a) db)).
Proof.
  intro L.
  destruct (check_and_update_status_cases now a db)
    as [(H1 & H2 & E)|[(H1 & H2 & H3 & E)|(H1 & H2 & E)]].
  - left. auto.
  - right. auto.
  - lia.
Qed.

Lemma check_and_update_status_open_bids now a db :
  now < Auction.endDate a ->
  bid_tbl (snd (check_and_update_status now (Some a) db)) = bid_tbl db.
Proof.
  intro L. destruct (check_and_update_status_open now a db L) as [(E & _)|(_ & _ & E)];
    rewrite E; reflexivity.
Qed.

(** An ONGOING auction whose end lies ahead is already reconciled. *)
Lemma check_and_update_status_ongoing now a db :
  Auction.auctionStatus a = AuctionStatus.ONGOING ->
  now < Auction.endDate a ->
  check_and_update_status now (Some a) db = (Some a, db).
Proof.
  intros S L. destruct (check_and_update_status_open now a db L) as [(E & _)|(S' & _)].
  - exact E.
  - congruence.
Qed.

Lemma check_and_update_status_settled now a db :
  Auction.auctionStatus a <> AuctionStatus.SCHEDULED ->
  Auction.auctionStatus a <> AuctionStatus.ONGOING ->
  check_and_update_status now (Some a) db = (Some a, db).
Proof.
  intros N1 N2.
  destruct (check_and_update_status_cases now a db)
    as [(H1 & H2 & E)|[(H1 & H2 & H3 & E)|([H1|(H1 & _)] & H2 & E)]];
    [exact E|contradiction..].
Qed.

Lemma active_bids_none db auction_id :
  (forall b, In b (bid_tbl db) -> Bid.auctionID b <> auction_id) ->
  active_bids db auction_id = [].
Proof.
  unfold active_bids. induction (bid_tbl db) as [|b rows IH]; intro H; simpl;
    [reflexivity|].
  destruct (Bid.auctionID b =? auction_id) eqn:E.
  - apply Z.eqb_eq in E. exfalso. apply (H b); simpl; auto.
  - simpl. apply IH. intros; apply H; simpl; auto.
Qed.

(** ** Reconciliation *)

(** C7 (as amended).  [check_and_update_status] at a fixed instant is
    idempotent: run on its own result (the returned auction and the session
    it left) it returns that result again, status, winner reference and
    bids included.  The status it returns is the status it was given or one
    further along SCHEDULED -> ONGOING -> COMPLETED, and the auction it
    returns is the one then stored.  An auction that is ONGOING, or
    SCHEDULED with its start passed, whose end has passed and which has no
    bid comes back COMPLETED, its winner reference left as it was and the
    bid table as it was.  An auction in any other status comes back as it
    is and nothing is written. *)
Theorem reconcile_idempotent_monotone now a db :
  exists a1 db1,
    check_and_update_status now (Some a) db = (Some a1, db1)
    /\ check_and_update_status now (Some a1) db1 = (Some a1, db1)
    /\ not_backward (Auction.auctionStatus a) (Auction.auctionStatus a1)
    /\ (find_auction db (Auction.auctionID a) = Some a ->
        find_auction db1 (Auction.auctionID a) = Some a1)
    /\ (Auction.endDate a <= now ->
        Auction.auctionStatus a = AuctionStatus.ONGOING
        \/ (Auction.auctionStatus a = AuctionStatus.SCHEDULED
            /\ Auction.startDate a <= now) ->
        (forall b, In b (bid_tbl db) -> Bid.auctionID b <> Auction.auctionID a) ->
        Auction.auctionStatus a1 = AuctionStatus.COMPLETED
        /\ Auction.bidWinnerID a1 = Auction.bidWinnerID a
        /\ bid_tbl db1 = bid_tbl db)
    /\ (Auction.auctionStatus a <> AuctionStatus.SCHEDULED ->
        Auction.auctionStatus a <> AuctionStatus.ONGOING ->
        a1 = a /\ db1 = db).
Proof.
  destruct (check_and_update_status_cases now a db)
    as [(H1 & H2 & E)|[(H1 & H2 & H3 & E)|(H1 & H2 & E)]].
  - exists a, db. split; [exact E|]. split; [exact E|]. split; [left; reflexivity|].
    split; [auto|]. split; [|auto].
    intros P [S|(S & Q)] _; exfalso;
      [destruct H2 as [H2|H2]|destruct H1 as [H1|H1]]; try contradiction; lia.
  - eexists; eexists. split; [exact E|]. split; [|split; [|split; [|split]]].
    + apply check_and_update_status_ongoing; simpl; auto.
    + right; left. simpl. auto.
    + intro F. rewrite find_save_auction. simpl. rewrite Z.eqb_refl, F. reflexivity.
    + intros P. lia.
    + intros S. contradiction.
  - destruct (closed_inv a db) as (a1 & db1 & C & S & D & T & F1 & F2).
    exists a1, db1. rewrite E. split; [exact C|]. split; [|split; [|split; [|split]]].
    + apply check_and_update_status_settled; rewrite S; discriminate.
    + rewrite S. destruct H1 as [H1|(H1 & _)]; rewrite H1; auto.
      * right; right; right; auto.
      * right; right; left; auto.
    + intro F. apply F1. rewrite F. discriminate.
    + intros _ _ B. split; [exact S|].
      unfold closed in C. rewrite (active_bids_none _ _ B) in C. simpl in C.
      inversion C; subst. simpl. split; reflexivity.
    + intros N1 N2. destruct H1 as [H1|(H1 & _)]; contradiction.
Qed.

Lemma reconcile_idempotent_monotone_witness :
  exists a1 db1,
    check_and_update_status (90 * minute)
      (Some (demo_auction AuctionStatus.ONGOING (60 * minute)))
      (demo_world AuctionStatus.ONGOING (60 * minute) []) = (Some a1, db1)
    /\ find_auction db1 7 = Some a1
    /\ Auction.auctionStatus a1 = AuctionStatus.COMPLETED
    /\ Auction.bidWinnerID a1 = None.
Proof.
  destruct (reconcile_idempotent_monotone (90 * minute)
              (demo_auction AuctionStatus.ONGOING (60 * minute))
              (demo_world AuctionStatus.ONGOING (60 * minute) []))
    as (a1 & db1 & E & _ & _ & F & H & _).
  exists a1, db1. split; [exact E|]. split; [exact (F eq_refl)|].
  destruct H as (S & W & _).
  - vm_compute. discriminate.
  - left. reflexivity.
  - intros b [].
  - split; [exact S|exact W].
Defined.

(** C7 (as stated) fails on "an auction whose end has passed and which has
    zero bids yields COMPLETED with no winner".  Auction 8 of
    [planned_world] has no bid, starts at minute 100 and ends at minute
    400; an administrator updates it at minute 10.  Cancelled, it is still
    CANCELLED when fetched at minute 500: only a SCHEDULED or ONGOING
    auction is moved.  Given the end of minute 50, it is still SCHEDULED
    when fetched at minute 60: a SCHEDULED auction is moved once its start
    has passed.  Given the winner 2, it is COMPLETED at minute 500 with
    that winner: a winner is written only when an ACTIVE bid is found, and
    never cleared. *)
Lemma reconcile_completes_only_running_auctions :
  (exists a db a1 db1,
      update_auction (fun name _ => name) (10 * minute) 8
        (AuctionUpdate.mk None None None None (Some AuctionStatus.CANCELLED) None)
        planned_world = (Ok a, db)
      /\ find_auction db 8 = Some a
      /\ Auction.endDate a <= 500 * minute
      /\ bid_tbl db = []
      /\ check_and_update_status (500 * minute) (Some a) db = (Some a1, db1)
      /\ Auction.auctionStatus a1 = AuctionStatus.CANCELLED
      /\ Auction.auctionStatus a1 <> AuctionStatus.COMPLETED)
  /\ (exists a db a1 db1,
        update_auction (fun name _ => name) (10 * minute) 8
          (AuctionUpdate.of_endDate (50 * minute)) planned_world = (Ok a, db)
        /\ find_auction db 8 = Some a
        /\ Auction.endDate a <= 60 * minute
        /\ bid_tbl db = []
        /\ check_and_update_status (60 * minute) (Some a) db = (Some a1, db1)
        /\ Auction.auctionStatus a1 = AuctionStatus.SCHEDULED
        /\ Auction.auctionStatus a1 <> AuctionStatus.COMPLETED)
  /\ (exists a db a1 db1,
        update_auction (fun name _ => name) (10 * minute) 8
          (AuctionUpdate.mk None None None None None (Some 2)) planned_world
        = (Ok a, db)
        /\ find_auction db 8 = Some a
        /\ Auction.endDate a <= 500 * minute
        /\ bid_tbl db = []
        /\ check_and_update_status (500 * minute) (Some a) db = (Some a1, db1)
        /\ Auction.auctionStatus a1 = AuctionStatus.COMPLETED
        /\ Auction.bidWinnerID a1 = Some 2
        /\ Auction.bidWinnerID a1 <> None).
Proof.
  split; [|split]; do 4 eexists;
    (split; [vm_compute; reflexivity|]);
    repeat (split; [vm_compute; (reflexivity || discriminate)|]);
    discriminate.
Qed.

(** ** Winner resolution *)

Lemma get_bid_map (F : Bid.t -> Bid.t) rows bid_id :
  (forall x, Bid.bidID (F x) = Bid.bidID x) ->
  first (filter (fun b => Bid.bidID b =? bid_id) (map F rows)) =
  option_map F (first (filter (fun b => Bid.bidID b =? bid_id) rows)).
Proof.
  intro K. induction rows as [|x rest IH]; simpl; [reflexivity|].
  rewrite K. destruct (Bid.bidID x =? bid_id); simpl; auto.
Qed.

Lemma get_bid_unique rows b :
  NoDup (map Bid.bidID rows) -> In b rows ->
  first (filter (fun x => Bid.bidID x =? Bid.bidID b) rows) = Some b.
Proof.
  induction rows as [|x rest IH]; intros N I; [destruct I|].
  simpl in N. inversion N as [|? ? N1 N2]; subst. simpl.
  destruct I as [I|I].
  - subst x. rewrite Z.eqb_refl. reflexivity.
  - destruct (Bid.bidID x =? Bid.bidID b) eqn:E.
    + apply Z.eqb_eq in E. exfalso. apply N1. rewrite E. apply in_map. exact I.
    + apply IH; assumption.
Qed.

Lemma bidID_injective rows b h :
  NoDup (map Bid.bidID rows) -> In b rows -> In h rows ->
  Bid.bidID b = Bid.bidID h -> b = h.
Proof.
  intros N Ib Ih E.
  pose proof (get_bid_unique rows b N Ib) as Gb.
  pose proof (get_bid_unique rows h N Ih) as Gh.
  rewrite E in Gb. congruence.
Qed.

Lemma active_bids_In db auction_id b :
  In b (active_bids db auction_id) <->
  In b (bid_tbl db) /\ Bid.auctionID b = auction_id
  /\ Bid.bidStatus b = BidStatus.ACTIVE.
Proof.
  unfold active_bids. rewrite filter_In, andb_true_iff, Z.eqb_eq, BidStatus_eqb_eq.
  tauto.
Qed.

Lemma resolve_bids_map auction_id h rows :
  resolve_bids auction_id h rows = map (resolve_row auction_id h) rows.
Proof. unfold resolve_bids, set_bid_status. rewrite map_map. reflexivity. Qed.

Lemma resolve_row_id auction_id h b :
  Bid.bidID (resolve_row auction_id h b) = Bid.bidID b.
Proof.
  unfold resolve_row.
  destruct (Bid.bidID b =? Bid.bidID h); simpl;
    match goal with |- context [if ?c then _ else _] => destruct c end; reflexivity.
Qed.

Lemma filter_retime f (p : Bid.t -> bool) rows :
  (forall b, p (retime_bid f b) = p b) ->
  filter p (map (retime_bid f) rows) = map (retime_bid f) (filter p rows).
Proof.
  intro K. induction rows as [|b rest IH]; simpl; [reflexivity|].
  rewrite K. destruct (p b); simpl; rewrite IH; reflexivity.
Qed.

Lemma order_by_retime f rows :
  order_by_bidPrice_desc (map (retime_bid f) rows)
  = map (retime_bid f) (order_by_bidPrice_desc rows).
Proof.
  induction rows as [|b rest IH]; simpl; [reflexivity|]. rewrite IH.
  generalize (order_by_bidPrice_desc rest) as l.
  induction l as [|x l IHl]; simpl; [reflexivity|].
  destruct (Bid.bidPrice b <? Bid.bidPrice x); simpl; [rewrite IHl|]; reflexivity.
Qed.

Lemma resolve_bids_retime f auction_id h rows :
  resolve_bids auction_id (retime_bid f h) (map (retime_bid f) rows)
  = map (retime_bid f) (resolve_bids auction_id h rows).
Proof.
  rewrite !resolve_bids_map, !map_map. apply map_ext. intro b.
  unfold resolve_row, retime_bid. destruct b as [i au u p st c]; simpl.
  destruct (i =? Bid.bidID h); simpl;
    match goal with |- context [if ?c then _ else _] => destruct c end;
    reflexivity.
Qed.

(** [check_and_update_status] does not read the creation timestamps: with
    other timestamps in the table it returns the same auction and leaves the
    same rows, each with its own timestamp. *)
Lemma check_and_update_status_ignores_createdAt f now a db :
  check_and_update_status now (Some a) (retime f db)
  = (fst (check_and_update_status now (Some a) db),
     retime f (snd (check_and_update_status now (Some a) db))).
Proof.
  destruct (check_and_update_status_cases now a db)
    as [(H1 & H2 & E)|[(H1 & H2 & H3 & E)|(H1 & H2 & E)]];
    destruct (check_and_update_status_cases now a (retime f db))
      as [(H1' & H2' & E')|[(H1' & H2' & H3' & E')|(H1' & H2' & E')]];
    rewrite E, E'; try reflexivity;
    try (exfalso; repeat match goal with
                         | H : _ \/ _ |- _ => destruct H
                         | H : _ /\ _ |- _ => destruct H
                         end; try contradiction; try congruence; lia).
  unfold closed, active_bids, retime. simpl.
  rewrite filter_retime by (intros [i au u p st c]; reflexivity).
  rewrite order_by_retime.
  destruct (order_by_bidPrice_desc _) as [|h rest]; simpl; [reflexivity|].
  rewrite resolve_bids_retime. reflexivity.
Qed.

(** C2 (as amended).  When [check_and_update_status] takes an ONGOING
    auction to COMPLETED, and bid keys are unique: if the auction has an
    ACTIVE bid, the winner is the ACTIVE bid of the greatest amount that
    comes first in the scan order of the table (the creation timestamp is
    not consulted); it is marked WINNING and its bidder becomes the
    auction's winner reference, every other ACTIVE bid of the auction is
    marked LOST, and every other row keeps its status.  If the auction has
    no ACTIVE bid, it completes with the bid table and the winner reference
    left as they were. *)
Theorem winner_resolution now a db :
  Auction.auctionStatus a = AuctionStatus.ONGOING ->
  Auction.endDate a <= now ->
  NoDup (map Bid.bidID (bid_tbl db)) ->
  exists a1 db1,
    check_and_update_status now (Some a) db = (Some a1, db1)
    /\ Auction.auctionStatus a1 = AuctionStatus.COMPLETED
    /\ ((active_bids db (Auction.auctionID a) = []
         /\ Auction.bidWinnerID a1 = Auction.bidWinnerID a
         /\ bid_tbl db1 = bid_tbl db)
        \/ (exists h before after,
              active_bids db (Auction.auctionID a) = before ++ h :: after
              /\ Forall (fun b => Bid.bidPrice b < Bid.bidPrice h) before
              /\ Forall (fun b => Bid.bidPrice b <= Bid.bidPrice h) after
              /\ Auction.bidWinnerID a1 = Some (Bid.userID h)
              /\ map Bid.bidID (bid_tbl db1) = map Bid.bidID (bid_tbl db)
              /\ forall b, In b (bid_tbl db) ->
                   exists s,
                     get_bid db1 (Bid.bidID b) = Some (Bid.set_bidStatus s b)
                     /\ (b = h -> s = BidStatus.WINNING)
                     /\ (b <> h -> Bid.auctionID b = Auction.auctionID a ->
                         Bid.bidStatus b = BidStatus.ACTIVE -> s = BidStatus.LOST)
                     /\ (Bid.bidStatus b <> BidStatus.ACTIVE
                         \/ Bid.auctionID b <> Auction.auctionID a ->
                         s = Bid.bidStatus b))).
Proof.
  intros S E N.
  destruct (check_and_update_status_cases now a db)
    as [(H1 & [H2|H2] & _)|[(H1 & _)|(_ & _ & C)]];
    [contradiction|lia|congruence|].
  destruct (closed_inv a db) as (a1 & db1 & C1 & S1 & _).
  exists a1, db1. rewrite C. split; [exact C1|]. split; [exact S1|].
  unfold closed in C1.
  destruct (first (order_by_bidPrice_desc (active_bids db (Auction.auctionID a))))
    as [h|] eqn:F.
  - right. destruct (first_order_by_split _ _ F) as (before & after & A & B1 & B2).
    exists h, before, after. inversion C1; subst a1 db1; clear C1. simpl.
    split; [exact A|]. split; [exact B1|]. split; [exact B2|].
    split; [reflexivity|].
    rewrite resolve_bids_map.
    assert (Ih : In h (bid_tbl db)).
    { apply (active_bids_In db (Auction.auctionID a) h).
      rewrite A. apply in_or_app. right. left. reflexivity. }
    split.
    { rewrite map_map. apply map_ext. intro x. apply resolve_row_id. }
    intros b Ib. exists (Bid.bidStatus (resolve_row (Auction.auctionID a) h b)).
    split.
    { unfold get_bid. simpl.
      rewrite (get_bid_map _ _ _ (resolve_row_id (Auction.auctionID a) h)).
      rewrite (get_bid_unique _ _ N Ib). simpl. f_equal.
      unfold resolve_row. destruct b as [i au u p st c]; simpl.
      destruct (i =? Bid.bidID h); simpl;
        match goal with |- context [if ?c then _ else _] => destruct c end;
        reflexivity. }
    unfold resolve_row. split; [|split].
    + intro Eb. subst b. rewrite Z.eqb_refl. simpl.
      rewrite Z.eqb_refl. simpl. rewrite andb_false_r. reflexivity.
    + intros Nb Ea Es.
      assert (Ni : (Bid.bidID b =? Bid.bidID h) = false).
      { apply Z.eqb_neq. intro K. apply Nb.
        apply (bidID_injective (bid_tbl db)); assumption. }
      rewrite Ni. rewrite Ni, Ea, Es, Z.eqb_refl. reflexivity.
    + intros D.
      destruct (Bid.bidID b =? Bid.bidID h) eqn:Ei.
      * exfalso. apply Z.eqb_eq in Ei.
        assert (b = h) by (apply (bidID_injective (bid_tbl db)); assumption).
        subst b.
        assert (Ha : In h (active_bids db (Auction.auctionID a))).
        { rewrite A. apply in_or_app. right. left. reflexivity. }
        apply active_bids_In in Ha. destruct Ha as (_ & Ha1 & Ha2).
        destruct D; contradiction.
      * rewrite Ei. simpl.
        destruct D as [D|D].
        -- apply BidStatus_eqb_neq in D. rewrite D, andb_false_r. reflexivity.
        -- apply Z.eqb_neq in D. rewrite D. reflexivity.
  - left. apply first_order_by_nil in F. inversion C1; subst. simpl.
    repeat split; auto.
Qed.

Lemma winner_resolution_witness :
  Auction.auctionStatus (demo_auction AuctionStatus.ONGOING (60 * minute))
  = AuctionStatus.ONGOING
  /\ Auction.endDate (demo_auction AuctionStatus.ONGOING (60 * minute)) <= 90 * minute
  /\ NoDup (map Bid.bidID (bid_tbl tie_world))
  /\ exists a1 db1,
       check_and_update_status (90 * minute)
         (Some (demo_auction AuctionStatus.ONGOING (60 * minute))) tie_world
       = (Some a1, db1)
       /\ Auction.auctionStatus a1 = AuctionStatus.COMPLETED.
Proof.
  assert (N : NoDup (map Bid.bidID (bid_tbl tie_world))).
  { simpl. repeat constructor; simpl; intuition discriminate. }
  assert (L : Auction.endDate (demo_auction AuctionStatus.ONGOING (60 * minute))
              <= 90 * minute).
  { vm_compute. discriminate. }
  split; [reflexivity|]. split; [exact L|]. split; [exact N|].
  destruct (winner_resolution (90 * minute)
              (demo_auction AuctionStatus.ONGOING (60 * minute)) tie_world
              eq_refl L N) as (a1 & db1 & E & S & _).
  exists a1, db1. split; [exact E|exact S].
Defined.

(** C2 (as stated) fails on a tie.  Bids 1 and 2 are ACTIVE at 70000; bid 2
    was created first, so the specification elects it.  Closing the auction
    marks bid 1 WINNING and its bidder the winner, and bid 2 LOST; the
    winner is the same whatever the creation timestamps in the table. *)
Lemma winner_resolution_not_by_creation_time :
  earliest_greatest tie_world 7
    (Bid.mk 2 7 2 70000 BidStatus.ACTIVE (59 * minute + 1))
  /\ exists a1 db1,
       check_and_update_status (90 * minute)
         (Some (demo_auction AuctionStatus.ONGOING (60 * minute))) tie_world
       = (Some a1, db1)
       /\ Auction.auctionStatus a1 = AuctionStatus.COMPLETED
       /\ Auction.bidWinnerID a1 = Some 1
       /\ get_bid db1 1 = Some (Bid.mk 1 7 1 70000 BidStatus.WINNING (59 * minute + 2))
       /\ get_bid db1 2 = Some (Bid.mk 2 7 2 70000 BidStatus.LOST (59 * minute + 1))
       /\ forall f,
            fst (check_and_update_status (90 * minute)
                   (Some (demo_auction AuctionStatus.ONGOING (60 * minute)))
                   (retime f tie_world)) = Some a1.
Proof.
  split.
  - split.
    + vm_compute. right. left. reflexivity.
    + intros b I. vm_compute in I. destruct I as [<-|[<-|[]]]; right; split;
        try reflexivity; vm_compute; discriminate.
  - destruct (check_and_update_status (90 * minute)
                (Some (demo_auction AuctionStatus.ONGOING (60 * minute))) tie_world)
      as [a1 db1] eqn:C.
    vm_compute in C. inversion C; subst a1 db1; clear C.
    eexists. eexists. split; [reflexivity|].
    do 4 (split; [reflexivity|]).
    intro f. rewrite check_and_update_status_ignores_createdAt.
    vm_compute. reflexivity.
Qed.

(** ** The extension of the end by [update_auction] *)

Lemma settled_check now a db :
  settled now a -> check_and_update_status now (Some a) db = (Some a, db).
Proof.
  intros [S1 S2].
  destruct (check_and_update_status_cases now a db)
    as [(_ & _ & E)|[(H1 & H2 & _)|([H1|(H1 & H1')] & H2 & _)]]; auto;
    exfalso; destruct S1, S2; try contradiction; try congruence; lia.
Qed.

Lemma check_settled now a db a1 db1 :
  check_and_update_status now (Some a) db = (Some a1, db1) -> settled now a1.
Proof.
  intro C.
  destruct (check_and_update_status_cases now a db)
    as [(H1 & H2 & E)|[(H1 & H2 & H3 & E)|(H1 & H2 & E)]]; rewrite E in C.
  - inversion C; subst. split; assumption.
  - inversion C; subst. split; simpl; [left; discriminate|right; assumption].
  - destruct (closed_inv a db) as (a1' & db1' & K & S & _).
    rewrite K in C. inversion C; subst.
    split; left; rewrite S; discriminate.
Qed.

Lemma settled_ongoing now a :
  Auction.auctionStatus a = AuctionStatus.ONGOING -> now < Auction.endDate a ->
  settled now a.
Proof. intros S L. split; [left; rewrite S; discriminate|right; exact L]. Qed.

Lemma extend_end now a db new_end :
  find_auction db (Auction.auctionID a) = Some a ->
  settled now a ->
  now < new_end ->
  update_auction_repo now (Auction.auctionID a) (AuctionUpdate.of_endDate new_end) db =
  (Some (Auction.set_updatedAt (Some now) (Auction.set_endDate new_end a)),
   save_auction (Auction.set_updatedAt (Some now) (Auction.set_endDate new_end a)) db).
Proof.
  intros F S L'. unfold update_auction_repo, get_auction.
  change (first (filter (fun r => Auction.auctionID r =? Auction.auctionID a)
                        (auction_tbl db)))
    with (find_auction db (Auction.auctionID a)).
  rewrite F, (settled_check now a db S).
  unfold apply_update; simpl.
  rewrite settled_check; [reflexivity|].
  destruct S as [S1 S2]. split; simpl; [exact S1|right; exact L'].
Qed.

(** ** [place_bid]: the commit *)

Lemma validate_price_accepts price min_price max_price :
  fst (validate_price price min_price (Some max_price)) =
  negb ((price <? min_price) || (negb (max_price =? 0) && (max_price <? price))).
Proof.
  unfold validate_price. destruct (price <? min_price); simpl; [reflexivity|].
  destruct (negb (max_price =? 0) && (max_price <? price)); reflexivity.
Qed.

(** Once the auction is found, open, ONGOING after reconciliation and the
    deposit paid, [place_bid] decides on the amount alone. *)
Lemma place_bid_commit_admitted now bid current_user db a a1 db0 :
  find_auction db (BidCreate.auctionID bid) = Some a ->
  check_and_update_status now (Some a) db = (Some a1, db0) ->
  Auction.startDate a <= now <= Auction.endDate a ->
  Auction.auctionStatus a1 = AuctionStatus.ONGOING ->
  deposit_payment_of db (BidCreate.auctionID bid) (Account.accountID current_user)
  <> None ->
  place_bid_commit now bid current_user db =
  if (BidCreate.bidPrice bid <? minimum_bid db a)
     || (MAX_BID_PRICE <? BidCreate.bidPrice bid)
  then (Raise (HTTPException HTTP_400_BAD_REQUEST
                 (Bid_must_be_at_least (minimum_bid db a))), db0)
  else
    let db_bid := new_bid now bid current_user db in
    let db' := with_bids (bid_tbl db ++ [db_bid]) db0 in
    if Auction.endDate a - now <=? timedelta_minutes 5
    then (Ok {| c_db_bid := db_bid;
                c_auction := Some (extended_auction now a1);
                c_previous_highest_bid :=
                  get_current_highest_bid db (BidCreate.auctionID bid);
                c_extended := true |},
          save_auction (extended_auction now a1) db')
    else (Ok {| c_db_bid := db_bid;
                c_auction := Some a1;
                c_previous_highest_bid :=
                  get_current_highest_bid db (BidCreate.auctionID bid);
                c_extended := false |},
          db').
Proof.
  intros F C W S D.
  pose proof (find_auction_id _ _ _ F) as Ia.
  destruct (check_and_update_status_inv now a db)
    as (a1' & db0' & C' & (I1 & I2 & I3 & I4) & (T1 & T2 & T3 & T4 & T5) & F1 & F2 & O).
  rewrite C in C'. inversion C'; subst a1' db0'; clear C'.
  specialize (O S).
  assert (B : bid_tbl db0 = bid_tbl db).
  { pose proof (check_and_update_status_open_bids now a db O) as K.
    rewrite C in K. exact K. }
  unfold place_bid_commit, bind, call, get_auction.
  change (first (filter (fun r => Auction.auctionID r =? BidCreate.auctionID bid)
                        (auction_tbl db)))
    with (find_auction db (BidCreate.auctionID bid)).
  rewrite F, C.
  rewrite I2, I3.
  replace ((Auction.startDate a <=? now) && (now <=? Auction.endDate a)) with true
    by (symmetry; apply andb_true_iff; split; apply Z.leb_le; lia).
  replace (status_accepts_bids (Auction.auctionStatus a1)) with true
    by (symmetry; apply status_accepts_bids_ongoing; exact S).
  cbn [negb]. unfold query.
  replace (deposit_payment_of db0 (BidCreate.auctionID bid)
             (Account.accountID current_user))
    with (deposit_payment_of db (BidCreate.auctionID bid)
            (Account.accountID current_user))
    by (unfold deposit_payment_of; rewrite T1; reflexivity).
  destruct (deposit_payment_of db (BidCreate.auctionID bid)
              (Account.accountID current_user)) as [dp|]; [|contradiction].
  replace (get_current_highest_bid db0 (BidCreate.auctionID bid))
    with (get_current_highest_bid db (BidCreate.auctionID bid))
    by (unfold get_current_highest_bid; rewrite B; reflexivity).
  unfold minimum_bid. rewrite Ia, I4.
  set (previous := get_current_highest_bid db (BidCreate.auctionID bid)).
  set (minimum := match previous with
                  | Some p => Bid.bidPrice p + Auction.priceStep a
                  | None => Auction.priceStep a
                  end).
  pose proof (validate_price_accepts (BidCreate.bidPrice bid) minimum MAX_BID_PRICE) as V.
  destruct (validate_price (BidCreate.bidPrice bid) minimum (Some MAX_BID_PRICE))
    as [is_valid err]. simpl in V. subst is_valid.
  change (negb (MAX_BID_PRICE =? 0)) with true. cbn [andb].
  rewrite negb_involutive.
  destruct ((BidCreate.bidPrice bid <? minimum)
            || (MAX_BID_PRICE <? BidCreate.bidPrice bid)); [reflexivity|].
  unfold create_bid, new_bid. rewrite B.
  destruct (Auction.endDate a - now <=? timedelta_minutes 5); [|reflexivity].
  rewrite <- Ia, <- I1, <- I3.
  rewrite extend_end.
  - reflexivity.
  - rewrite I1, Ia, find_auction_with_bids. rewrite <- Ia. apply F1.
    rewrite Ia. exact F.
  - apply settled_ongoing; [exact S|lia].
  - unfold timedelta_minutes. lia.
Qed.

(** A bid is committed only under those conditions. *)
Lemma place_bid_commit_ok_inv now bid current_user db c db1 :
  place_bid_commit now bid current_user db = (Ok c, db1) ->
  exists a a1 db0,
    find_auction db (BidCreate.auctionID bid) = Some a
    /\ check_and_update_status now (Some a) db = (Some a1, db0)
    /\ Auction.startDate a <= now <= Auction.endDate a
    /\ Auction.auctionStatus a1 = AuctionStatus.ONGOING
    /\ deposit_payment_of db (BidCreate.auctionID bid) (Account.accountID current_user)
       <> None.
Proof.
  unfold place_bid_commit, bind, call, get_auction.
  change (first (filter (fun r => Auction.auctionID r =? BidCreate.auctionID bid)
                        (auction_tbl db)))
    with (find_auction db (BidCreate.auctionID bid)).
  destruct (find_auction db (BidCreate.auctionID bid)) as [a|] eqn:F;
    [|unfold check_and_update_status, raise; discriminate].
  destruct (check_and_update_status_inv now a db)
    as (a1 & db0 & C & (I1 & I2 & I3 & I4) & (T1 & T2 & T3 & T4 & T5) & F1 & F2 & O).
  rewrite C. intro H. exists a, a1, db0. split; [reflexivity|]. split; [exact C|].
  rewrite I2, I3 in H.
  destruct ((Auction.startDate a <=? now) && (now <=? Auction.endDate a)) eqn:W;
    [|discriminate H].
  apply andb_true_iff in W. destruct W as [W1 W2].
  apply Z.leb_le in W1. apply Z.leb_le in W2.
  destruct (status_accepts_bids (Auction.auctionStatus a1)) eqn:S; [|discriminate H].
  apply status_accepts_bids_ongoing in S.
  cbn [negb] in H. unfold query in H.
  replace (deposit_payment_of db0 (BidCreate.auctionID bid)
             (Account.accountID current_user))
    with (deposit_payment_of db (BidCreate.auctionID bid)
            (Account.accountID current_user)) in H
    by (unfold deposit_payment_of; rewrite T1; reflexivity).
  destruct (deposit_payment_of db (BidCreate.auctionID bid)
              (Account.accountID current_user)); [|discriminate H].
  repeat split; auto. discriminate.
Qed.

(** The commit of a bid, in full. *)
Lemma place_bid_commit_ok now bid current_user db c db1 :
  place_bid_commit now bid current_user db = (Ok c, db1) ->
  exists a a1 db0,
    find_auction db (BidCreate.auctionID bid) = Some a
    /\ check_and_update_status now (Some a) db = (Some a1, db0)
    /\ Auction.startDate a <= now < Auction.endDate a
    /\ Auction.auctionStatus a1 = AuctionStatus.ONGOING
    /\ minimum_bid db a <= BidCreate.bidPrice bid <= MAX_BID_PRICE
    /\ c_db_bid c = new_bid now bid current_user db
    /\ c_previous_highest_bid c = get_current_highest_bid db (BidCreate.auctionID bid)
    /\ c_extended c = (Auction.endDate a - now <=? timedelta_minutes 5)
    /\ c_auction c = Some (if c_extended c then extended_auction now a1 else a1)
    /\ db1 = (let db' := with_bids (bid_tbl db ++ [c_db_bid c]) db0 in
              if c_extended c then save_auction (extended_auction now a1) db' else db').
Proof.
  intro H.
  destruct (place_bid_commit_ok_inv _ _ _ _ _ _ H) as (a & a1 & db0 & F & C & W & S & D).
  exists a, a1, db0.
  rewrite (place_bid_commit_admitted _ _ _ _ _ _ _ F C W S D) in H.
  destruct (check_and_update_status_inv now a db)
    as (a1' & db0' & C' & _ & _ & _ & _ & O).
  rewrite C in C'. inversion C'; subst a1' db0'; clear C'. specialize (O S).
  destruct ((BidCreate.bidPrice bid <? minimum_bid db a)
            || (MAX_BID_PRICE <? BidCreate.bidPrice bid)) eqn:V; [discriminate H|].
  apply orb_false_iff in V. destruct V as [V1 V2].
  apply Z.ltb_ge in V1. apply Z.ltb_ge in V2.
  cbv zeta in H.
  destruct (Auction.endDate a - now <=? timedelta_minutes 5) eqn:X;
    inversion H; subst c db1; simpl; repeat split; auto; lia.
Qed.

(** What a committed bid leaves in the session: the new ACTIVE row after the
    rows that were there, the auction ONGOING with its end kept or moved by
    five minutes, and nothing else. *)
Lemma place_bid_commit_effect now bid current_user db c db1 :
  place_bid_commit now bid current_user db = (Ok c, db1) ->
  exists a a2,
    find_auction db (BidCreate.auctionID bid) = Some a
    /\ find_auction db1 (BidCreate.auctionID bid) = Some a2
    /\ c_auction c = Some a2
    /\ Auction.startDate a <= now < Auction.endDate a
    /\ Auction.startDate a2 = Auction.startDate a
    /\ Auction.endDate a2 =
       (if Auction.endDate a - now <=? timedelta_minutes 5
        then Auction.endDate a + timedelta_minutes 5 else Auction.endDate a)
    /\ Auction.auctionStatus a2 = AuctionStatus.ONGOING
    /\ c_extended c = (Auction.endDate a - now <=? timedelta_minutes 5)
    /\ c_db_bid c = new_bid now bid current_user db
    /\ bid_tbl db1 = bid_tbl db ++ [new_bid now bid current_user db]
    /\ (forall id, id <> BidCreate.auctionID bid ->
        find_auction db1 id = find_auction db id)
    /\ same_side_tables db db1.
Proof.
  intro H.
  destruct (place_bid_commit_ok _ _ _ _ _ _ H)
    as (a & a1 & db0 & F & C & W & S & V & Eb & Ep & Ex & Ea & Ed).
  pose proof (find_auction_id _ _ _ F) as Ia.
  destruct (check_and_update_status_inv now a db)
    as (a1' & db0' & C' & (I1 & I2 & I3 & I4) & (T1 & T2 & T3 & T4 & T5) & F1 & F2 & O).
  rewrite C in C'. inversion C'; subst a1' db0'; clear C'.
  assert (B : bid_tbl db0 = bid_tbl db).
  { pose proof (check_and_update_status_open_bids now a db (O S)) as K.
    rewrite C in K. exact K. }
  rewrite <- Ia in *. rewrite Eb in Ed.
  exists a, (if c_extended c then extended_auction now a1 else a1).
  split; [exact F|]. rewrite Ex in *.
  destruct (Auction.endDate a - now <=? timedelta_minutes 5) eqn:X; subst db1; simpl.
  - split.
    { rewrite find_save_auction. simpl. rewrite I1, Z.eqb_refl.
      rewrite find_auction_with_bids, (F1 F). reflexivity. }
    repeat split; auto; try lia.
    + intros id N. rewrite find_save_auction. simpl. rewrite I1.
      apply Z.eqb_neq in N. rewrite N. rewrite find_auction_with_bids.
      apply F2. apply Z.eqb_neq. exact N.
  - split.
    { rewrite find_auction_with_bids. apply F1. exact F. }
    repeat split; auto; try lia.
Qed.

(** ** [place_bid]: the notification block *)

Lemma send_notifications_frame now faults bid current_user c db :
  let db2 := snd (send_notifications now faults bid current_user c db) in
  auction_tbl db2 = auction_tbl db
  /\ bid_tbl db2 = bid_tbl db
  /\ payment_tbl db2 = payment_tbl db
  /\ account_tbl db2 = account_tbl db.
Proof.
  unfold send_notifications, bind, attempt, query, call, create_task, send_email,
    ret, raise, create_notification.
  destruct (faults CollectParticipants); simpl; [auto|].
  destruct (faults Broadcast); simpl; [auto|].
  destruct (c_previous_highest_bid c) as [p|]; simpl; [|auto].
  destruct (negb (Bid.userID p =? Account.accountID current_user)); simpl; [|auto].
  destruct (faults LookupAccount); simpl; [auto|].
  destruct (get_account_by_id _ _) as [u|]; simpl; [|auto].
  destruct (c_auction c) as [a|]; simpl; [|auto].
  destruct (faults RecordNotification); simpl; [auto|].
  destruct (faults SendEmail); simpl; auto.
Qed.

(** [place_bid] is the commit, then the guarded notification block, then
    the response. *)
Lemma place_bid_after_commit now faults bid current_user db c db1 :
  place_bid_commit now bid current_user db = (Ok c, db1) ->
  exists a2,
    c_auction c = Some a2
    /\ place_bid now faults bid current_user db =
       (Ok {| success := true;
              bid_id := Bid.bidID (c_db_bid c);
              auction_id := Bid.auctionID (c_db_bid c);
              bid_price_raw := Bid.bidPrice (c_db_bid c);
              bid_status := Bid.bidStatus (c_db_bid c);
              is_leading := true;
              auction_extended := c_extended c |},
        snd (send_notifications now faults bid current_user c db1)).
Proof.
  intro H.
  destruct (place_bid_commit_effect _ _ _ _ _ _ H) as (a & a2 & _ & _ & Ea & _).
  exists a2. split; [exact Ea|].
  unfold place_bid, bind. rewrite H. unfold try_except.
  destruct (send_notifications now faults bid current_user c db1) as [[u|e] db2];
    rewrite Ea; reflexivity.
Qed.

Lemma place_bid_refused now faults bid current_user db e db1 :
  place_bid_commit now bid current_user db = (Raise e, db1) ->
  place_bid now faults bid current_user db = (Raise e, db1).
Proof. intro H. unfold place_bid, bind. rewrite H. reflexivity. Qed.

Lemma place_bid_ok_commit now faults bid current_user db r db2 :
  place_bid now faults bid current_user db = (Ok r, db2) ->
  exists c db1,
    place_bid_commit now bid current_user db = (Ok c, db1)
    /\ db2 = snd (send_notifications now faults bid current_user c db1)
    /\ bid_id r = Bid.bidID (c_db_bid c)
    /\ auction_extended r = c_extended c.
Proof.
  intro H.
  destruct (place_bid_commit now bid current_user db) as [[c|e] db1] eqn:P.
  - destruct (place_bid_after_commit now faults _ _ _ _ _ P) as (a2 & _ & E).
    rewrite E in H. inversion H; subst. exists c, db1. simpl. auto.
  - rewrite (place_bid_refused _ faults _ _ _ _ _ P) in H. discriminate.
Qed.

(** ** [cancel_bid] *)

Lemma get_bid_set_status db bid_id s :
  first (filter (fun x => Bid.bidID x =? bid_id) (set_bid_status bid_id s (bid_tbl db)))
  = option_map (Bid.set_bidStatus s) (get_bid db bid_id).
Proof.
  unfold get_bid, set_bid_status.
  induction (bid_tbl db) as [|x rest IH]; simpl; [reflexivity|].
  destruct (Bid.bidID x =? bid_id) eqn:E; simpl; rewrite E; simpl; auto.
Qed.

(** The checks made before the auction is fetched. *)
Lemma cancel_bid_early now bid_id current_user db :
  match get_bid db bid_id with
  | None =>
      cancel_bid now bid_id current_user db =
      (Raise (HTTPException HTTP_404_NOT_FOUND Bid_not_found), db)
  | Some b =>
      (Bid.userID b <> Account.accountID current_user ->
       cancel_bid now bid_id current_user db =
       (Raise (HTTPException HTTP_403_FORBIDDEN You_can_only_cancel_your_own_bids), db))
      /\ (Bid.userID b = Account.accountID current_user ->
          Bid.bidStatus b <> BidStatus.ACTIVE ->
          cancel_bid now bid_id current_user db =
          (Raise (HTTPException HTTP_400_BAD_REQUEST
                    (Bid_is_not_active (Bid.bidStatus b))), db))
      /\ (Bid.userID b = Account.accountID current_user ->
          Bid.bidStatus b = BidStatus.ACTIVE ->
          find_auction db (Bid.auctionID b) = None ->
          cancel_bid now bid_id current_user db =
          (Raise (HTTPException HTTP_404_NOT_FOUND Auction_not_found), db))
  end.
Proof.
  unfold cancel_bid, bind, query, call, raise.
  destruct (get_bid db bid_id) as [b|]; [|reflexivity].
  split; [|split].
  - intro N. apply Z.eqb_neq in N. rewrite N. reflexivity.
  - intros U N. rewrite U, Z.eqb_refl. simpl.
    destruct (String.eqb (BidStatus.value (Bid.bidStatus b)) "active") eqn:V;
      [|reflexivity].
    apply value_is_active in V. contradiction.
  - intros U S F. rewrite U, Z.eqb_refl. simpl.
    replace (String.eqb (BidStatus.value (Bid.bidStatus b)) "active") with true
      by (symmetry; apply value_is_active; exact S).
    simpl. unfold get_auction.
    change (first (filter (fun r => Auction.auctionID r =? Bid.auctionID b)
                          (auction_tbl db)))
      with (find_auction db (Bid.auctionID b)).
    rewrite F. reflexivity.
Qed.

(** Once the bid is found, owned by the requester and ACTIVE, and its
    auction is fetched. *)
Lemma cancel_bid_found now bid_id current_user db b a a1 db0 :
  get_bid db bid_id = Some b ->
  Bid.userID b = Account.accountID current_user ->
  Bid.bidStatus b = BidStatus.ACTIVE ->
  find_auction db (Bid.auctionID b) = Some a ->
  check_and_update_status now (Some a) db = (Some a1, db0) ->
  cancel_bid now bid_id current_user db =
  if Auction.endDate a - now <=? 0
  then (Raise (HTTPException HTTP_400_BAD_REQUEST
                 Cannot_cancel_bid_after_auction_has_ended), db0)
  else
    match get_current_highest_bid db (Bid.auctionID b) with
    | Some h =>
        if Bid.userID h =? Account.accountID current_user
        then
          if Auction.endDate a - now <=? timedelta_minutes 10
          then (Raise (HTTPException HTTP_400_BAD_REQUEST
                         Cannot_cancel_bid_while_leading_in_the_last_10_minutes),
                db0)
          else (Ok Bid_cancelled_successfully,
                cancelled bid_id (save_auction (extended_auction now a1) db0))
        else (Ok Bid_cancelled_successfully, cancelled bid_id db0)
    | None => (Ok Bid_cancelled_successfully, cancelled bid_id db0)
    end.
Proof.
  intros G U S F C.
  pose proof (find_auction_id _ _ _ F) as Ia.
  destruct (check_and_update_status_inv now a db)
    as (a1' & db0' & C' & (I1 & I2 & I3 & I4) & _ & F1 & F2 & _).
  rewrite C in C'. inversion C'; subst a1' db0'; clear C'.
  unfold cancel_bid, bind, query, call, raise.
  rewrite G, U, Z.eqb_refl. cbn [negb].
  replace (String.eqb (BidStatus.value (Bid.bidStatus b)) "active") with true
    by (symmetry; apply value_is_active; exact S).
  cbn [negb]. unfold get_auction.
  change (first (filter (fun r => Auction.auctionID r =? Bid.auctionID b)
                        (auction_tbl db)))
    with (find_auction db (Bid.auctionID b)).
  rewrite F, C, I3.
  destruct (Auction.endDate a - now <=? 0) eqn:T; [reflexivity|].
  apply Z.leb_gt in T.
  assert (B : bid_tbl db0 = bid_tbl db).
  { pose proof (check_and_update_status_open_bids now a db ltac:(lia)) as K.
    rewrite C in K. exact K. }
  replace (get_current_highest_bid db0 (Bid.auctionID b))
    with (get_current_highest_bid db (Bid.auctionID b))
    by (unfold get_current_highest_bid; rewrite B; reflexivity).
  assert (R : forall X, bid_tbl X = bid_tbl db ->
            cancel_bid_repo bid_id (Account.accountID current_user) X
            = (true, cancelled bid_id X)).
  { intros X BX. unfold cancel_bid_repo, get_bid. rewrite BX.
    fold (get_bid db bid_id). rewrite G, U, Z.eqb_refl. simpl.
    unfold cancelled. rewrite BX. reflexivity. }
  destruct (get_current_highest_bid db (Bid.auctionID b)) as [h|];
    [|unfold ret; rewrite (R db0 B); reflexivity].
  destruct (Bid.userID h =? Account.accountID current_user);
    [|unfold ret; rewrite (R db0 B); reflexivity].
  destruct (Auction.endDate a - now <=? timedelta_minutes 10) eqn:T10; [reflexivity|].
  apply Z.leb_gt in T10.
  replace (timedelta_minutes 10 <? Auction.endDate a - now) with true
    by (symmetry; apply Z.ltb_lt; exact T10).
  rewrite <- Ia, <- I1, <- I3.
  rewrite extend_end.
  - unfold ret. rewrite R; [reflexivity|exact B].
  - rewrite I1. apply F1. rewrite Ia. exact F.
  - apply (check_settled now a db a1 db0 C).
  - unfold timedelta_minutes. lia.
Qed.

(** ** Start and end of an auction across the operations *)

Lemma advances_refl db : advances db db.
Proof. intros id a F. exists a. repeat split; auto. lia. Qed.

Lemma advances_trans db1 db2 db3 :
  advances db1 db2 -> advances db2 db3 -> advances db1 db3.
Proof.
  intros H12 H23 id a F.
  destruct (H12 id a F) as (a2 & F2 & S2 & E2).
  destruct (H23 id a2 F2) as (a3 & F3 & S3 & E3).
  exists a3. repeat split; auto; [congruence|lia].
Qed.

Lemma advances_same_auctions db db' :
  auction_tbl db' = auction_tbl db -> advances db db'.
Proof.
  intros E id a F. exists a. unfold find_auction in *. rewrite E.
  repeat split; auto. lia.
Qed.

Lemma advances_check now a db :
  find_auction db (Auction.auctionID a) = Some a ->
  advances db (snd (check_and_update_status now (Some a) db)).
Proof.
  intros F id x Fx.
  destruct (check_and_update_status_inv now a db)
    as (a1 & db1 & C & (I1 & I2 & I3 & I4) & _ & F1 & F2 & _).
  rewrite C. simpl.
  destruct (Z.eq_dec id (Auction.auctionID a)) as [E|N].
  - subst id. rewrite F in Fx. inversion Fx; subst x.
    exists a1. rewrite (F1 F). repeat split; auto. lia.
  - exists x. rewrite (F2 id N). repeat split; auto. lia.
Qed.

Lemma advances_get_auction now auction_id db :
  advances db (snd (get_auction now auction_id db)).
Proof.
  unfold get_auction.
  change (first (filter (fun r => Auction.auctionID r =? auction_id) (auction_tbl db)))
    with (find_auction db auction_id).
  destruct (find_auction db auction_id) as [a|] eqn:F.
  - apply advances_check. rewrite (find_auction_id _ _ _ F). exact F.
  - unfold check_and_update_status. simpl. apply advances_refl.
Qed.

Lemma advances_extend now a db :
  find_auction db (Auction.auctionID a) = Some a ->
  advances db (save_auction (extended_auction now a) db).
Proof.
  intros F id x Fx. rewrite find_save_auction. simpl.
  destruct (id =? Auction.auctionID a) eqn:E.
  - apply Z.eqb_eq in E. subst id. rewrite F in Fx. inversion Fx; subst x.
    rewrite F. simpl. eexists. split; [reflexivity|]. simpl.
    unfold timedelta_minutes. split; [reflexivity|lia].
  - exists x. repeat split; auto. lia.
Qed.

Lemma place_bid_commit_refused_state now bid current_user db e db1 :
  place_bid_commit now bid current_user db = (Raise e, db1) ->
  db1 = snd (get_auction now (BidCreate.auctionID bid) db).
Proof.
  unfold place_bid_commit, bind, call.
  destruct (get_auction now (BidCreate.auctionID bid) db) as [[a1|] db0] eqn:G;
    simpl; [|unfold raise; intro H; inversion H; reflexivity].
  unfold raise, query.
  destruct (negb _); [intro H; inversion H; reflexivity|].
  destruct (negb _); [intro H; inversion H; reflexivity|].
  destruct (deposit_payment_of _ _ _); [|intro H; inversion H; reflexivity].
  destruct (validate_price _ _ _) as [v err].
  destruct (negb v); [intro H; inversion H; reflexivity|].
  destruct (_ <=? _).
  - destruct (update_auction_repo _ _ _ _); unfold ret; discriminate.
  - unfold ret; discriminate.
Qed.

Lemma advances_place_bid now faults bid current_user db :
  advances db (snd (place_bid now faults bid current_user db)).
Proof.
  destruct (place_bid_commit now bid current_user db) as [[c|e] db1] eqn:P.
  - destruct (place_bid_after_commit now faults _ _ _ _ _ P) as (a2 & _ & E).
    rewrite E. simpl.
    apply advances_trans with db1.
    + intros id x Fx.
      destruct (place_bid_commit_effect _ _ _ _ _ _ P)
        as (a & a2' & Fa & Fa2 & _ & W & S2 & E2 & _ & _ & _ & _ & Fo & _).
      destruct (Z.eq_dec id (BidCreate.auctionID bid)) as [I|N].
      * subst id. rewrite Fa in Fx. inversion Fx; subst x.
        exists a2'. split; [exact Fa2|]. split; [exact S2|]. rewrite E2.
        destruct (_ <=? _); unfold timedelta_minutes; lia.
      * exists x. rewrite (Fo id N). repeat split; auto. lia.
    + apply advances_same_auctions.
      apply (send_notifications_frame now faults bid current_user c db1).
  - rewrite (place_bid_refused _ faults _ _ _ _ _ P). simpl.
    rewrite (place_bid_commit_refused_state _ _ _ _ _ _ P).
    apply advances_get_auction.
Qed.

Lemma advances_cancel_bid now bid_id current_user db :
  advances db (snd (cancel_bid now bid_id current_user db)).
Proof.
  pose proof (cancel_bid_early now bid_id current_user db) as Early.
  destruct (get_bid db bid_id) as [b|] eqn:G;
    [|rewrite Early; apply advances_refl].
  destruct Early as (E1 & E2 & E3).
  destruct (Z.eq_dec (Bid.userID b) (Account.accountID current_user)) as [U|U];
    [|rewrite (E1 U); apply advances_refl].
  destruct (BidStatus.eqb (Bid.bidStatus b) BidStatus.ACTIVE) eqn:S;
    [apply BidStatus_eqb_eq in S
    |apply BidStatus_eqb_neq in S; rewrite (E2 U S); apply advances_refl].
  destruct (find_auction db (Bid.auctionID b)) as [a|] eqn:F;
    [|rewrite (E3 U S eq_refl); apply advances_refl].
  pose proof (find_auction_id _ _ _ F) as Ia.
  destruct (check_and_update_status_inv now a db)
    as (a1 & db0 & C & (I1 & _) & _ & F1 & _ & _).
  rewrite (cancel_bid_found _ _ _ _ _ _ _ _ G U S F C).
  assert (A0 : advances db db0).
  { pose proof (advances_check now a db) as K. rewrite C in K. apply K.
    rewrite Ia. exact F. }
  assert (A1 : advances db (cancelled bid_id db0)).
  { apply advances_trans with db0; [exact A0|].
    apply advances_same_auctions. reflexivity. }
  assert (A2 : advances db (cancelled bid_id (save_auction (extended_auction now a1) db0))).
  { apply advances_trans with db0; [exact A0|].
    apply advances_trans with (save_auction (extended_auction now a1) db0).
    - apply advances_extend. rewrite I1. apply F1. rewrite Ia. exact F.
    - apply advances_same_auctions. reflexivity. }
  destruct (_ <=? 0); [exact A0|].
  destruct (get_current_highest_bid db (Bid.auctionID b)) as [h|]; [|exact A1].
  destruct (_ =? _); [|exact A1].
  destruct (_ <=? _); [exact A0|exact A2].
Qed.

Lemma apply_update_dates u a :
  Auction.auctionID (apply_update u a) = Auction.auctionID a
  /\ Auction.startDate (apply_update u a) =
     match AuctionUpdate.startDate u with Some v => v | None => Auction.startDate a end
  /\ Auction.endDate (apply_update u a) =
     match AuctionUpdate.endDate u with Some v => v | None => Auction.endDate a end.
Proof.
  destruct u as [[n|] [s|] [e|] [p|] [st|] [w|]]; simpl; repeat split; reflexivity.
Qed.

(** An accepted administrative update that carries both dates leaves the
    auction with exactly those dates, the end after the start. *)
Lemma update_auction_both_dates sanitize_string now auction_id u db r db' s e :
  AuctionUpdate.startDate u = Some s ->
  AuctionUpdate.endDate u = Some e ->
  update_auction sanitize_string now auction_id u db = (Ok r, db') ->
  find_auction db' auction_id = Some r
  /\ Auction.startDate r = s /\ Auction.endDate r = e /\ s < e.
Proof.
  intros Us Ue. unfold update_auction, bind, call, get_auction.
  change (first (filter (fun r => Auction.auctionID r =? auction_id) (auction_tbl db)))
    with (find_auction db auction_id).
  destruct (find_auction db auction_id) as [a|] eqn:F;
    [|unfold check_and_update_status, raise; discriminate].
  pose proof (find_auction_id _ _ _ F) as Ia.
  destruct (check_and_update_status_inv now a db)
    as (a1 & db0 & C & (I1 & _) & _ & F1 & _ & _).
  rewrite C.
  set (u' := match AuctionUpdate.auctionName u with
             | Some name =>
                 if String.eqb name "" then u
                 else AuctionUpdate.mk (Some (sanitize_string name 200))
                        (AuctionUpdate.startDate u) (AuctionUpdate.endDate u)
                        (AuctionUpdate.priceStep u) (AuctionUpdate.auctionStatus u)
                        (AuctionUpdate.bidWinnerID u)
             | None => u
             end).
  assert (Us' : AuctionUpdate.startDate u' = Some s).
  { unfold u'. destruct (AuctionUpdate.auctionName u) as [n|]; [|exact Us].
    destruct (String.eqb n ""); [exact Us|exact Us]. }
  assert (Ue' : AuctionUpdate.endDate u' = Some e).
  { unfold u'. destruct (AuctionUpdate.auctionName u) as [n|]; [|exact Ue].
    destruct (String.eqb n ""); [exact Ue|exact Ue]. }
  rewrite Us', Ue'.
  destruct (validate_date_range s e (Some 1) (Some 30)) as [ok err] eqn:V.
  cbn [fst snd].
  destruct ok; [|unfold raise; cbv beta; discriminate]. cbn [negb].
  assert (L : s < e).
  { unfold validate_date_range in V.
    destruct (e <=? s) eqn:K; [discriminate V|]. apply Z.leb_gt in K. exact K. }
  destruct (negb (fst _)); [unfold raise; cbv beta; discriminate|].
  destruct (AuctionStatus.eqb _ _); [unfold raise; cbv beta; discriminate|].
  unfold update_auction_repo, get_auction.
  change (first (filter (fun r => Auction.auctionID r =? auction_id) (auction_tbl db0)))
    with (find_auction db0 auction_id).
  assert (F0 : find_auction db0 auction_id = Some a1).
  { rewrite <- Ia. apply F1. rewrite Ia. exact F. }
  rewrite F0, (settled_check now a1 db0 (check_settled _ _ _ _ _ C)).
  set (a2 := Auction.set_updatedAt (Some now) (apply_update u' a1)).
  destruct (apply_update_dates u' a1) as (D1 & D2 & D3).
  rewrite Us' in D2. rewrite Ue' in D3.
  destruct (check_and_update_status_inv now a2 (save_auction a2 db0))
    as (a3 & db3 & C3 & (J1 & J2 & J3 & _) & _ & G1 & _ & _).
  rewrite C3. unfold ret, raise. intro H. inversion H; subst r db'.
  assert (I2 : Auction.auctionID a2 = auction_id).
  { unfold a2. simpl. rewrite D1, I1. exact Ia. }
  split.
  - rewrite <- I2. apply G1. rewrite find_save_auction, Z.eqb_refl.
    rewrite I2, F0. reflexivity.
  - rewrite J2, J3. unfold a2. simpl. rewrite D2, D3. auto.
Qed.

(** C5 (as amended).  Reconciliation, bid placement (with its anti-snipe
    extension) and bid cancellation keep every auction's start and never
    move its end backwards, so [end > start] is preserved.  An accepted
    auction update that carries both dates leaves [end > start]; it sets the
    end it is given, later or earlier. *)
Theorem end_never_decreases :
  (forall now op db id a,
      find_auction db id = Some a ->
      exists a',
        find_auction (run now op db) id = Some a'
        /\ Auction.startDate a' = Auction.startDate a
        /\ Auction.endDate a <= Auction.endDate a'
        /\ (Auction.startDate a < Auction.endDate a ->
            Auction.startDate a' < Auction.endDate a'))
  /\ (forall sanitize_string now id u db r db' s e,
        AuctionUpdate.startDate u = Some s ->
        AuctionUpdate.endDate u = Some e ->
        update_auction sanitize_string now id u db = (Ok r, db') ->
        find_auction db' id = Some r
        /\ Auction.startDate r = s /\ Auction.endDate r = e
        /\ Auction.startDate r < Auction.endDate r).
Proof.
  split.
  - intros now op db id a F.
    assert (A : advances db (run now op db)).
    { destruct op; simpl.
      - apply advances_get_auction.
      - apply advances_place_bid.
      - apply advances_cancel_bid. }
    destruct (A id a F) as (a' & F' & S' & E').
    exists a'. repeat split; auto. lia.
  - intros sanitize_string now id u db r db' s e Us Ue H.
    destruct (update_auction_both_dates _ _ _ _ _ _ _ _ _ Us Ue H) as (F & S & E & L).
    repeat split; auto. lia.
Qed.

Lemma end_never_decreases_witness :
  find_auction (demo_world AuctionStatus.ONGOING (62 * minute) []) 7
  = Some (demo_auction AuctionStatus.ONGOING (62 * minute))
  /\ exists a',
       find_auction
         (run (60 * minute) (PlaceBid no_faults (BidCreate.mk 7 50000) alice)
              (demo_world AuctionStatus.ONGOING (62 * minute) [])) 7 = Some a'
       /\ 62 * minute <= Auction.endDate a'.
Proof.
  split; [reflexivity|].
  destruct (proj1 end_never_decreases (60 * minute)
              (PlaceBid no_faults (BidCreate.mk 7 50000) alice)
              (demo_world AuctionStatus.ONGOING (62 * minute) []) 7
              (demo_auction AuctionStatus.ONGOING (62 * minute)) eq_refl)
    as (a' & F & _ & E & _).
  exists a'. split; [exact F|exact E].
Defined.

(** C5 (as stated) fails for the auction update: the request [shorten],
    accepted for the planned auction 8, moves its end from minute 400 back
    to minute 280. *)
Lemma auction_update_lowers_end :
  find_auction planned_world 8 =
  Some (Auction.mk 8 "lamp" 4 0 None (100 * minute) (400 * minute) 10000
          AuctionStatus.SCHEDULED None)
  /\ exists r db',
       update_auction (fun name _ => name) (10 * minute) 8 shorten planned_world
       = (Ok r, db')
       /\ find_auction db' 8 = Some r
       /\ Auction.endDate r = 280 * minute
       /\ Auction.endDate r < 400 * minute.
Proof.
  split; [reflexivity|].
  eexists. eexists. split; [vm_compute; reflexivity|].
  split; [reflexivity|]. split; [reflexivity|]. vm_compute. reflexivity.
Qed.

(** ** Bid placement *)

Lemma place_bid_ok_effect now faults bid current_user db r db2 :
  place_bid now faults bid current_user db = (Ok r, db2) ->
  exists a a2,
    find_auction db (BidCreate.auctionID bid) = Some a
    /\ find_auction db2 (BidCreate.auctionID bid) = Some a2
    /\ Auction.startDate a <= now < Auction.endDate a
    /\ Auction.endDate a2 =
       (if Auction.endDate a - now <=? timedelta_minutes 5
        then Auction.endDate a + timedelta_minutes 5 else Auction.endDate a)
    /\ auction_extended r = (Auction.endDate a - now <=? timedelta_minutes 5)
    /\ bid_id r = Bid.bidID (new_bid now bid current_user db)
    /\ bid_tbl db2 = bid_tbl db ++ [new_bid now bid current_user db].
Proof.
  intro H.
  destruct (place_bid_ok_commit _ _ _ _ _ _ _ H) as (c & db1 & P & E2 & Ri & Rx).
  destruct (place_bid_commit_effect _ _ _ _ _ _ P)
    as (a & a2 & Fa & Fa2 & _ & W & _ & En & _ & Ex & Eb & B & _ & _).
  destruct (send_notifications_frame now faults bid current_user c db1)
    as (A2 & B2 & _).
  rewrite <- E2 in A2, B2.
  exists a, a2. split; [exact Fa|]. split.
  { unfold find_auction in *. rewrite A2. exact Fa2. }
  split; [exact W|]. split; [exact En|]. split; [congruence|].
  split; [congruence|]. congruence.
Qed.

(** C4.  A successful [place_bid] made when at most five minutes remain
    before the end leaves the auction with the end it had before the bid
    plus five minutes (whatever [now] is) and reports the extension; made
    when more than five minutes remain it leaves the end as it was.  Each
    such bid therefore moves the end once, by five minutes. *)
Theorem anti_snipe_extension now faults bid current_user db r db2 a :
  place_bid now faults bid current_user db = (Ok r, db2) ->
  find_auction db (BidCreate.auctionID bid) = Some a ->
  exists a2,
    find_auction db2 (BidCreate.auctionID bid) = Some a2
    /\ (Auction.endDate a - now <= timedelta_minutes 5 ->
        Auction.endDate a2 = Auction.endDate a + timedelta_minutes 5
        /\ auction_extended r = true)
    /\ (timedelta_minutes 5 < Auction.endDate a - now ->
        Auction.endDate a2 = Auction.endDate a
        /\ auction_extended r = false).
Proof.
  intros H F.
  destruct (place_bid_ok_effect _ _ _ _ _ _ _ H)
    as (a' & a2 & Fa & Fa2 & _ & En & Ex & _).
  rewrite F in Fa. inversion Fa; subst a'.
  exists a2. split; [exact Fa2|]. rewrite En, Ex.
  split; intro L.
  - apply Z.leb_le in L. rewrite L. auto.
  - apply Z.leb_gt in L. rewrite L. auto.
Qed.

Lemma anti_snipe_extension_witness :
  exists r db2 a2,
    place_bid (60 * minute) no_faults (BidCreate.mk 7 50000) alice
      (demo_world AuctionStatus.ONGOING (62 * minute) []) = (Ok r, db2)
    /\ find_auction db2 7 = Some a2
    /\ Auction.endDate a2 = 62 * minute + timedelta_minutes 5
    /\ auction_extended r = true.
Proof.
  destruct (place_bid (60 * minute) no_faults (BidCreate.mk 7 50000) alice
              (demo_world AuctionStatus.ONGOING (62 * minute) []))
    as [[r|e] db2] eqn:P; [|vm_compute in P; discriminate P].
  destruct (anti_snipe_extension _ _ _ _ _ _ _
              (demo_auction AuctionStatus.ONGOING (62 * minute)) P eq_refl)
    as (a2 & F & Near & _).
  exists r, db2, a2. split; [reflexivity|]. split; [exact F|].
  apply Near. vm_compute. discriminate.
Defined.

(** Exceptions raised by the Python code of the notification block are
    swallowed.  Once [place_bid] has committed (the ACTIVE bid is in the
    table and the anti-snipe extension, if any, is applied), the request
    answers with success whichever of those calls raise: the exception is
    caught, and the bid and auction tables are left as the commit left
    them.  The response is the one given when nothing fails.  A request
    refused before the commit is refused alike. *)
Lemma notification_failures_are_swallowed now faults bid current_user db :
  match place_bid_commit now bid current_user db with
  | (Ok c, db1) =>
      In (c_db_bid c) (bid_tbl db1)
      /\ Bid.bidStatus (c_db_bid c) = BidStatus.ACTIVE
      /\ exists r db2,
           place_bid now faults bid current_user db = (Ok r, db2)
           /\ fst (place_bid now no_faults bid current_user db) = Ok r
           /\ success r = true
           /\ bid_id r = Bid.bidID (c_db_bid c)
           /\ auction_extended r = c_extended c
           /\ bid_tbl db2 = bid_tbl db1
           /\ auction_tbl db2 = auction_tbl db1
  | (Raise e, db1) =>
      place_bid now faults bid current_user db = (Raise e, db1)
  end.
Proof.
  destruct (place_bid_commit now bid current_user db) as [[c|e] db1] eqn:P.
  - destruct (place_bid_commit_effect _ _ _ _ _ _ P)
      as (a & a2 & _ & _ & _ & _ & _ & _ & _ & _ & Eb & B & _ & _).
    split; [rewrite B, Eb; apply in_or_app; right; left; reflexivity|].
    split; [rewrite Eb; reflexivity|].
    destruct (place_bid_after_commit now faults _ _ _ _ _ P) as (a2' & _ & E).
    destruct (place_bid_after_commit now no_faults _ _ _ _ _ P) as (a2'' & _ & E0).
    destruct (send_notifications_frame now faults bid current_user c db1)
      as (A2 & B2 & _).
    eexists. eexists. split; [exact E|]. rewrite E0. simpl.
    repeat split; auto.
  - apply place_bid_refused. exact P.
Qed.

(** The notification block of the second bid of the scenario, with every
    such call failing: the bid stands. *)
Lemma notification_failures_are_swallowed_witness :
  exists r db2,
    place_bid (60 * minute) all_faults (BidCreate.mk 7 60000) bob
      (demo_world AuctionStatus.ONGOING (120 * minute)
         [Bid.mk 1 7 1 50000 BidStatus.ACTIVE (59 * minute)]) = (Ok r, db2)
    /\ success r = true
    /\ map Bid.bidID (bid_tbl db2) = [1; 2].
Proof.
  pose proof (notification_failures_are_swallowed (60 * minute) all_faults
                (BidCreate.mk 7 60000) bob
                (demo_world AuctionStatus.ONGOING (120 * minute)
                   [Bid.mk 1 7 1 50000 BidStatus.ACTIVE (59 * minute)])) as H.
  destruct (place_bid_commit (60 * minute) (BidCreate.mk 7 60000) bob _)
    as [[c|e] db1] eqn:P; [|vm_compute in P; discriminate P].
  destruct H as (_ & _ & r & db2 & E & _ & S & _ & _ & B & _).
  exists r, db2. split; [exact E|]. split; [exact S|].
  rewrite B. vm_compute in P. inversion P. reflexivity.
Defined.


(** With the commit of the notification succeeding, [place_bid_session]
    is [place_bid]. *)
Lemma send_notifications_session_commits now faults bid current_user c db :
  send_notifications_session now faults false bid current_user c (open_session db)
  = (fst (send_notifications now faults bid current_user c db),
     open_session (snd (send_notifications now faults bid current_user c db))).
Proof.
  unfold send_notifications_session, send_notifications, bindS, bind, local,
    statement, attempt, query, create_task, send_email, call, raise, ret,
    open_session.
  cbn [database needs_rollback].
  destruct (faults CollectParticipants); [reflexivity|].
  destruct (faults Broadcast); [reflexivity|]. cbn [database needs_rollback].
  destruct (c_previous_highest_bid c) as [p|]; [|reflexivity].
  destruct (negb (Bid.userID p =? Account.accountID current_user)); [|reflexivity].
  destruct (faults LookupAccount); [reflexivity|]. cbn [database needs_rollback].
  match goal with
  | |- context [get_account_by_id ?d ?u] => destruct (get_account_by_id d u) as [o|]
  end; [|reflexivity].
  destruct (c_auction c) as [a|]; [|reflexivity].
  destruct (faults RecordNotification); [reflexivity|]. cbn [database needs_rollback].
  match goal with
  | |- context [create_notification ?n ?x ?d] =>
      destruct (create_notification n x d) as [row db']
  end.
  cbn [database needs_rollback].
  destruct (faults SendEmail); reflexivity.
Qed.

Lemma place_bid_session_commits now faults bid current_user db :
  place_bid_session now faults false bid current_user (open_session db)
  = (fst (place_bid now faults bid current_user db),
     open_session (snd (place_bid now faults bid current_user db))).
Proof.
  unfold place_bid_session, place_bid, bindS, bind, statement at 1,
    try_except_session, try_except, read_row.
  cbn [open_session database needs_rollback].
  destruct (place_bid_commit now bid current_user db) as [[c|e] db1]; [|reflexivity].
  fold (open_session db1). rewrite send_notifications_session_commits.
  destruct (send_notifications now faults bid current_user c db1) as [[u|e] db2];
    cbn [fst snd open_session needs_rollback database];
    destruct (c_auction c); reflexivity.
Qed.

(** When the commit of the outbid notification fails, [place_bid] does not
    answer: the failure is caught, the read of [db_bid.bidID] for the
    response raises [PendingRollbackError].  The bid and the extension are
    stored as the commit of the bid left them, and no notification is. *)
Lemma place_bid_session_failed_commit now faults bid current_user db c db1 p o a :
  place_bid_commit now bid current_user db = (Ok c, db1) ->
  c_previous_highest_bid c = Some p ->
  Bid.userID p <> Account.accountID current_user ->
  get_account_by_id db1 (Bid.userID p) = Some o ->
  c_auction c = Some a ->
  faults CollectParticipants = false ->
  faults Broadcast = false ->
  faults LookupAccount = false ->
  faults RecordNotification = false ->
  exists s',
    place_bid_session now faults true bid current_user (open_session db)
    = (Raise PendingRollbackError, s')
    /\ needs_rollback s' = true
    /\ bid_tbl (database s') = bid_tbl db1
    /\ auction_tbl (database s') = auction_tbl db1
    /\ notification_tbl (database s') = notification_tbl db1
    /\ outbox (database s') = outbox db1.
Proof.
  intros P Hp Hu Ho Ha F1 F2 F3 F4.
  unfold place_bid_session, bindS, statement at 1, try_except_session, read_row.
  cbn [open_session database needs_rollback]. rewrite P.
  unfold send_notifications_session, bindS, local, statement, attempt, query,
    create_task, failed_commit.
  cbn [database needs_rollback]. rewrite F1, F2. cbn [database needs_rollback].
  rewrite Hp.
  replace (Bid.userID p =? Account.accountID current_user) with false
    by (symmetry; apply Z.eqb_neq; exact Hu).
  cbn [negb]. rewrite F3. cbn [database needs_rollback].
  unfold get_account_by_id in *. cbn [account_tbl with_tasks]. rewrite Ho, Ha, F4.
  cbn [database needs_rollback].
  eexists. split; [reflexivity|]. repeat split.
Qed.

(** C9 (defect).  Bob bids 60,000 at minute 100 on auction 7, which Alice
    leads with 50,000, and the commit of the outbid notification fails.
    The request does not return success: it raises [PendingRollbackError],
    with the bid committed and ACTIVE, no notification stored and no e-mail
    sent.  The same request answers with success when that commit
    succeeds. *)
Theorem failed_notification_commit_fails_place_bid :
  exists s',
    place_bid_session (100 * minute) no_faults true (BidCreate.mk 7 60000) bob
      (open_session led_world) = (Raise PendingRollbackError, s')
    /\ needs_rollback s' = true
    /\ get_bid (database s') 2
       = Some (Bid.mk 2 7 2 60000 BidStatus.ACTIVE (100 * minute))
    /\ notification_tbl (database s') = []
    /\ outbox (database s') = []
    /\ is_ok (fst (place_bid_session (100 * minute) no_faults false
                     (BidCreate.mk 7 60000) bob (open_session led_world))).
Proof.
  eexists. split; [vm_compute; reflexivity|].
  repeat (split; [vm_compute; reflexivity|]).
  vm_compute. eexists. reflexivity.
Qed.


(** C1 (as amended).  A successful [place_bid] appends the new bid with
    status ACTIVE and changes no other row: the bid that was the highest
    stays as it was, nothing is set to OUTBID.  So after any sequence of
    successful placements on one auction the table is the table before
    followed by the new bids, all ACTIVE; on an auction that had no bid,
    the N bids of the auction are all ACTIVE. *)
Theorem placed_bids_stay_active faults requests db rs db' auction_id :
  place_bids faults requests db = (rs, db') ->
  Forall (fun q => BidCreate.auctionID (snd (fst q)) = auction_id) requests ->
  Forall is_ok rs ->
  exists placed,
    bid_tbl db' = bid_tbl db ++ placed
    /\ List.length placed = List.length requests
    /\ Forall (fun b => Bid.auctionID b = auction_id
                        /\ Bid.bidStatus b = BidStatus.ACTIVE) placed
    /\ (bids_of db auction_id = [] -> bids_of db' auction_id = placed).
Proof.
  revert db rs db'.
  induction requests as [|[[now bid] current_user] rest IH]; intros db rs db' H A O.
  - simpl in H. inversion H; subst. exists []. rewrite app_nil_r.
    repeat split; auto.
  - simpl in H.
    destruct (place_bid now faults bid current_user db) as [r db1] eqn:P.
    destruct (place_bids faults rest db1) as [rs' db2] eqn:Q.
    inversion H; subst rs db'; clear H.
    apply Forall_cons_iff in A. destruct A as [A1 A2].
    apply Forall_cons_iff in O. destruct O as [O1 O2].
    destruct O1 as [x Ex]. subst r. simpl in A1.
    destruct (place_bid_ok_effect _ _ _ _ _ _ _ P)
      as (a & a2 & _ & _ & _ & _ & _ & _ & B).
    destruct (IH db1 rs' db2 Q A2 O2) as (placed & B2 & L & F & K).
    exists (new_bid now bid current_user db :: placed).
    split; [rewrite B2, B, <- app_assoc; reflexivity|].
    split; [simpl; rewrite L; reflexivity|].
    split; [constructor; [split; [exact A1|reflexivity]|exact F]|].
    intro Empty. unfold bids_of in *. rewrite B2, B, <- app_assoc.
    rewrite filter_app, Empty. simpl. rewrite A1, Z.eqb_refl. f_equal.
    clear - F. induction F as [|b l [Fa Fs] F IHF]; simpl; [reflexivity|].
    rewrite Fa, Z.eqb_refl, IHF. reflexivity.
Qed.

Lemma placed_bids_stay_active_witness :
  exists rs db',
    place_bids no_faults scenario_requests scenario_world = (rs, db')
    /\ Forall is_ok rs
    /\ List.length (bids_of db' 7) = 2%nat
    /\ Forall (fun b => Bid.bidStatus b = BidStatus.ACTIVE) (bids_of db' 7).
Proof.
  destruct (place_bids no_faults scenario_requests scenario_world) as [rs db'] eqn:P.
  assert (O : Forall is_ok rs).
  { vm_compute in P. inversion P. repeat constructor; eexists; reflexivity. }
  assert (A : Forall (fun q => BidCreate.auctionID (snd (fst q)) = 7) scenario_requests).
  { repeat constructor. }
  destruct (placed_bids_stay_active _ _ _ _ _ 7 P A O) as (placed & _ & L & F & K).
  exists rs, db'. split; [reflexivity|]. split; [exact O|].
  rewrite (K eq_refl). split; [exact L|].
  eapply Forall_impl; [|exact F]. simpl. intros b [_ S]. exact S.
Defined.

(** C1 (as stated) fails in the scenario of the specification.  When
    bidder B's 60000 is accepted, bidder A's 50000 is the highest bid of the
    auction; after the commit it is still ACTIVE, and the auction has two
    ACTIVE bids and no OUTBID one. *)
Lemma previous_highest_bid_stays_active :
  exists r1 r2 db1 db2,
    place_bid (60 * minute) no_faults (BidCreate.mk 7 50000) alice scenario_world
    = (Ok r1, db1)
    /\ get_current_highest_bid db1 7
       = Some (Bid.mk 1 7 1 50000 BidStatus.ACTIVE (60 * minute))
    /\ place_bid (60 * minute) no_faults (BidCreate.mk 7 60000) bob db1 = (Ok r2, db2)
    /\ get_bid db2 1 = Some (Bid.mk 1 7 1 50000 BidStatus.ACTIVE (60 * minute))
    /\ map Bid.bidStatus (bids_of db2 7) = [BidStatus.ACTIVE; BidStatus.ACTIVE].
Proof.
  do 4 eexists.
  split; [vm_compute; reflexivity|].
  split; [vm_compute; reflexivity|].
  split; [vm_compute; reflexivity|].
  split; vm_compute; reflexivity.
Qed.

(** ** The minimum bid *)

Lemma fold_max_upper p ps m :
  p <= m -> (forall x, In x ps -> x <= m) -> fold_right Z.max p ps <= m.
Proof.
  intros Hp H. induction ps as [|x rest IH]; simpl; [exact Hp|].
  apply Z.max_lub; [apply H; simpl; auto|apply IH; intros; apply H; simpl; auto].
Qed.

Lemma fold_max_lower p ps m :
  m = p \/ In m ps -> m <= fold_right Z.max p ps.
Proof.
  induction ps as [|x rest IH]; simpl; intros [E|I].
  - lia.
  - destruct I.
  - specialize (IH (or_introl E)). lia.
  - destruct I as [I|I]; [lia|]. specialize (IH (or_intror I)). lia.
Qed.

(** The price of the bid that [get_current_highest_bid] returns is the
    current price of the specification. *)
Lemma current_price_highest db auction_id :
  current_price db auction_id =
  match get_current_highest_bid db auction_id with
  | Some p => Bid.bidPrice p
  | None => 0
  end.
Proof.
  unfold current_price, get_current_highest_bid.
  change (filter (fun b => (Bid.auctionID b =? auction_id)
                           && BidStatus.in_leading (Bid.bidStatus b)) (bid_tbl db))
    with (leading_bids db auction_id).
  destruct (first (order_by_bidPrice_desc (leading_bids db auction_id))) as [h|] eqn:F.
  - pose proof (first_order_by_In _ _ F) as I.
    pose proof (fun b => first_order_by_max _ _ b F) as M.
    destruct (leading_bids db auction_id) as [|b rest]; [destruct I|].
    simpl. apply Z.le_antisymm.
    + apply fold_max_upper; [apply M; simpl; auto|].
      intros x Ix. apply in_map_iff in Ix. destruct Ix as (y & <- & Iy).
      apply M. simpl. auto.
    + apply fold_max_lower. destruct I as [I|I]; [left; congruence|].
      right. apply in_map. exact I.
  - apply first_order_by_nil in F. rewrite F. reflexivity.
Qed.

Lemma minimum_bid_current_price db a :
  minimum_bid db a = current_price db (Auction.auctionID a) + Auction.priceStep a.
Proof.
  unfold minimum_bid. rewrite current_price_highest.
  destruct (get_current_highest_bid db (Auction.auctionID a)); reflexivity.
Qed.

Lemma place_bid_admitted now faults bid current_user db a a1 db0 :
  find_auction db (BidCreate.auctionID bid) = Some a ->
  check_and_update_status now (Some a) db = (Some a1, db0) ->
  Auction.startDate a <= now <= Auction.endDate a ->
  Auction.auctionStatus a1 = AuctionStatus.ONGOING ->
  deposit_payment_of db (BidCreate.auctionID bid) (Account.accountID current_user)
  <> None ->
  let minimum := current_price db (BidCreate.auctionID bid) + Auction.priceStep a in
  (BidCreate.bidPrice bid < minimum \/ MAX_BID_PRICE < BidCreate.bidPrice bid ->
   place_bid now faults bid current_user db =
   (Raise (HTTPException HTTP_400_BAD_REQUEST (Bid_must_be_at_least minimum)), db0))
  /\ (minimum <= BidCreate.bidPrice bid <= MAX_BID_PRICE ->
      exists r db2,
        place_bid now faults bid current_user db = (Ok r, db2)
        /\ bid_price_raw r = BidCreate.bidPrice bid).
Proof.
  intros F C W S D minimum.
  pose proof (place_bid_commit_admitted _ _ _ _ _ _ _ F C W S D) as P.
  assert (M : minimum_bid db a = minimum).
  { rewrite minimum_bid_current_price, (find_auction_id _ _ _ F). reflexivity. }
  rewrite M in P.
  split.
  - intro V.
    replace ((BidCreate.bidPrice bid <? minimum)
             || (MAX_BID_PRICE <? BidCreate.bidPrice bid)) with true in P
      by (symmetry; apply orb_true_iff; rewrite !Z.ltb_lt; exact V).
    apply place_bid_refused. exact P.
  - intro V.
    replace ((BidCreate.bidPrice bid <? minimum)
             || (MAX_BID_PRICE <? BidCreate.bidPrice bid)) with false in P
      by (symmetry; apply orb_false_iff; rewrite !Z.ltb_ge; lia).
    cbv zeta in P.
    destruct (Auction.endDate a - now <=? timedelta_minutes 5);
      destruct (place_bid_after_commit now faults _ _ _ _ _ P) as (a2 & _ & E);
      rewrite E; eexists; eexists; split; reflexivity.
Qed.

(** C6 (as amended).  For a request that reaches the validation of the
    amount (auction found, [now] within its dates, ONGOING once reconciled,
    deposit paid), with [minimum] the current price plus the price step
    (the price step alone when no ACTIVE, WINNING or WON bid exists):
    [place_bid] raises the 400 error whose detail carries [minimum] exactly
    when the amount is below [minimum] or above 999,999,999.  With a
    positive price step a bid equal to the current price is rejected, and a
    bid equal to [minimum] is accepted provided [minimum] does not exceed
    999,999,999. *)
Theorem bid_too_low now faults bid current_user db a a1 db0 :
  find_auction db (BidCreate.auctionID bid) = Some a ->
  check_and_update_status now (Some a) db = (Some a1, db0) ->
  Auction.startDate a <= now <= Auction.endDate a ->
  Auction.auctionStatus a1 = AuctionStatus.ONGOING ->
  deposit_payment_of db (BidCreate.auctionID bid) (Account.accountID current_user)
  <> None ->
  let minimum := current_price db (BidCreate.auctionID bid) + Auction.priceStep a in
  let too_low := Raise (HTTPException 400 (Bid_must_be_at_least minimum)) in
  (fst (place_bid now faults bid current_user db) = too_low
   <-> BidCreate.bidPrice bid < minimum \/ 999999999 < BidCreate.bidPrice bid)
  /\ (0 < Auction.priceStep a ->
      BidCreate.bidPrice bid = current_price db (BidCreate.auctionID bid) ->
      fst (place_bid now faults bid current_user db) = too_low)
  /\ (BidCreate.bidPrice bid = minimum -> minimum <= 999999999 ->
      is_ok (fst (place_bid now faults bid current_user db))).
Proof.
  intros F C W S D minimum too_low.
  destruct (place_bid_admitted now faults _ _ _ _ _ _ F C W S D) as [Low High].
  fold minimum in Low, High. change MAX_BID_PRICE with 999999999 in Low, High.
  split; [split|split].
  - intro R.
    destruct (Z.lt_ge_cases (BidCreate.bidPrice bid) minimum) as [L|L]; [left; exact L|].
    destruct (Z.lt_ge_cases 999999999 (BidCreate.bidPrice bid)) as [G|G];
      [right; exact G|].
    destruct (High (conj L G)) as (r & db2 & E & _).
    rewrite E in R. discriminate R.
  - intro V. rewrite (Low V). reflexivity.
  - intros Pos E. rewrite Low; [reflexivity|]. left. unfold minimum. lia.
  - intros E L. destruct High as (r & db2 & P & _); [lia|].
    rewrite P. exists r. reflexivity.
Qed.

Lemma bid_too_low_witness :
  fst (place_bid (60 * minute) no_faults (BidCreate.mk 7 50000) bob led_world)
  = Raise (HTTPException 400 (Bid_must_be_at_least 60000))
  /\ is_ok (fst (place_bid (60 * minute) no_faults (BidCreate.mk 7 60000) bob led_world)).
Proof.
  assert (F : find_auction led_world 7
              = Some (demo_auction AuctionStatus.ONGOING (120 * minute)))
    by reflexivity.
  assert (C : check_and_update_status (60 * minute)
                (Some (demo_auction AuctionStatus.ONGOING (120 * minute))) led_world
              = (Some (demo_auction AuctionStatus.ONGOING (120 * minute)), led_world))
    by (vm_compute; reflexivity).
  assert (W : Auction.startDate (demo_auction AuctionStatus.ONGOING (120 * minute))
              <= 60 * minute
              <= Auction.endDate (demo_auction AuctionStatus.ONGOING (120 * minute)))
    by (split; vm_compute; discriminate).
  assert (D : deposit_payment_of led_world 7 (Account.accountID bob) <> None)
    by (vm_compute; discriminate).
  split.
  - apply (bid_too_low (60 * minute) no_faults (BidCreate.mk 7 50000) bob led_world
             _ _ _ F C W eq_refl D).
    + vm_compute. reflexivity.
    + reflexivity.
  - apply (bid_too_low (60 * minute) no_faults (BidCreate.mk 7 60000) bob led_world
             _ _ _ F C W eq_refl D).
    + reflexivity.
    + vm_compute. discriminate.
Defined.

(** C6 (as stated) fails above the ceiling.  With bidder A leading at 50000
    and a price step of 10000 the minimum is 60000; a bid of 1,000,000,000
    is not below it, and it is rejected with the error that carries the
    minimum. *)
Lemma bid_not_below_minimum_rejected :
  current_price led_world 7 + 10000 = 60000
  /\ ~ (1000000000 < current_price led_world 7 + 10000)
  /\ fst (place_bid (60 * minute) no_faults (BidCreate.mk 7 1000000000) bob led_world)
     = Raise (HTTPException 400 (Bid_must_be_at_least 60000)).
Proof.
  split; [reflexivity|]. split; [vm_compute; discriminate|].
  vm_compute. reflexivity.
Qed.

(** C10.  A bid above 999,999,999 is never accepted: [place_bid] raises, and
    the session is left as the fetch of the auction left it.  When the
    request reaches the validation of the amount, the error is the 400
    whose detail is "Bid must be at least" the computed minimum, the one
    raised for a bid that is too low, whether or not the amount reaches that
    minimum; the detail carries the minimum only, not the ceiling. *)
Theorem bid_above_ceiling_rejected now faults bid current_user db :
  999999999 < BidCreate.bidPrice bid ->
  (exists e,
      place_bid now faults bid current_user db =
      (Raise e, snd (get_auction now (BidCreate.auctionID bid) db)))
  /\ (forall a a1 db0,
        find_auction db (BidCreate.auctionID bid) = Some a ->
        check_and_update_status now (Some a) db = (Some a1, db0) ->
        Auction.startDate a <= now <= Auction.endDate a ->
        Auction.auctionStatus a1 = AuctionStatus.ONGOING ->
        deposit_payment_of db (BidCreate.auctionID bid)
          (Account.accountID current_user) <> None ->
        place_bid now faults bid current_user db =
        (Raise (HTTPException 400
                  (Bid_must_be_at_least
                     (current_price db (BidCreate.auctionID bid)
                      + Auction.priceStep a))),
         db0)).
Proof.
  intro G. split.
  - destruct (place_bid_commit now bid current_user db) as [[c|e] db1] eqn:P.
    + destruct (place_bid_commit_ok _ _ _ _ _ _ P)
        as (a & a1 & db0 & _ & _ & _ & _ & V & _).
      unfold MAX_BID_PRICE in V. lia.
    + exists e. rewrite (place_bid_refused _ faults _ _ _ _ _ P).
      rewrite (place_bid_commit_refused_state _ _ _ _ _ _ P). reflexivity.
  - intros a a1 db0 F C W S D.
    apply (place_bid_admitted now faults _ _ _ _ _ _ F C W S D).
    right. exact G.
Qed.

Lemma bid_above_ceiling_rejected_witness :
  999999999 < BidCreate.bidPrice (BidCreate.mk 7 1000000000)
  /\ place_bid (60 * minute) no_faults (BidCreate.mk 7 1000000000) bob led_world
     = (Raise (HTTPException 400 (Bid_must_be_at_least 60000)), led_world).
Proof.
  assert (G : 999999999 < BidCreate.bidPrice (BidCreate.mk 7 1000000000))
    by (vm_compute; reflexivity).
  split; [exact G|].
  apply (proj2 (bid_above_ceiling_rejected (60 * minute) no_faults
                  (BidCreate.mk 7 1000000000) bob led_world G)
           (demo_auction AuctionStatus.ONGOING (120 * minute))
           (demo_auction AuctionStatus.ONGOING (120 * minute)) led_world).
  - reflexivity.
  - vm_compute. reflexivity.
  - split; vm_compute; discriminate.
  - reflexivity.
  - vm_compute. discriminate.
Defined.

(** ** Bid cancellation *)

Lemma get_auction_found now auction_id db a :
  find_auction db auction_id = Some a ->
  get_auction now auction_id db = check_and_update_status now (Some a) db.
Proof.
  intro F. unfold get_auction.
  change (first (filter (fun r => Auction.auctionID r =? auction_id) (auction_tbl db)))
    with (find_auction db auction_id).
  rewrite F. reflexivity.
Qed.

(** A bid is accepted only on an auction that is stored ONGOING when the
    request ends. *)
Lemma accepted_bid_auction_ongoing now faults bid current_user db r db2 :
  place_bid now faults bid current_user db = (Ok r, db2) ->
  exists a2,
    find_auction db2 (BidCreate.auctionID bid) = Some a2
    /\ Auction.auctionStatus a2 = AuctionStatus.ONGOING
    /\ In (new_bid now bid current_user db) (bid_tbl db2).
Proof.
  intro H.
  destruct (place_bid_ok_commit _ _ _ _ _ _ _ H) as (c & db1 & P & E & _).
  destruct (place_bid_commit_effect _ _ _ _ _ _ P)
    as (a & a2 & _ & F2 & _ & _ & _ & _ & St & _ & _ & B & _).
  destruct (send_notifications_frame now faults bid current_user c db1) as (A & B' & _).
  exists a2. subst db2. split; [|split; [exact St|]].
  - unfold find_auction. rewrite A. exact F2.
  - rewrite B', B. apply in_or_app. right. left. reflexivity.
Qed.



(** The outcome of [cancel_bid] is one of five. *)
Lemma cancel_bid_outcomes now bid_id current_user db :
  cancel_bid now bid_id current_user db
  = (Raise (HTTPException HTTP_404_NOT_FOUND Bid_not_found), db)
  \/ (exists b e,
        get_bid db bid_id = Some b
        /\ (Bid.userID b <> Account.accountID current_user
            \/ Bid.bidStatus b <> BidStatus.ACTIVE
            \/ find_auction db (Bid.auctionID b) = None)
        /\ cancel_bid now bid_id current_user db = (Raise e, db))
  \/ (exists b a e,
        get_bid db bid_id = Some b
        /\ Bid.userID b = Account.accountID current_user
        /\ Bid.bidStatus b = BidStatus.ACTIVE
        /\ find_auction db (Bid.auctionID b) = Some a
        /\ cancel_bid now bid_id current_user db =
           (Raise e, snd (get_auction now (Bid.auctionID b) db)))
  \/ (exists b a db0,
        get_bid db bid_id = Some b
        /\ Bid.userID b = Account.accountID current_user
        /\ Bid.bidStatus b = BidStatus.ACTIVE
        /\ find_auction db (Bid.auctionID b) = Some a
        /\ now < Auction.endDate a
        /\ bid_tbl db0 = bid_tbl db
        /\ cancel_bid now bid_id current_user db =
           (Ok Bid_cancelled_successfully, cancelled bid_id db0)).
Proof.
  pose proof (cancel_bid_early now bid_id current_user db) as Early.
  destruct (get_bid db bid_id) as [b|] eqn:G; [|left; exact Early].
  right. destruct Early as (E1 & E2 & E3).
  destruct (Z.eq_dec (Bid.userID b) (Account.accountID current_user)) as [U|U];
    [|left; exists b; eexists; split; [reflexivity|]; split; [auto|exact (E1 U)]].
  destruct (BidStatus.eqb (Bid.bidStatus b) BidStatus.ACTIVE) eqn:S;
    [apply BidStatus_eqb_eq in S
    |apply BidStatus_eqb_neq in S; left; exists b; eexists;
     split; [reflexivity|]; split; [auto|exact (E2 U S)]].
  destruct (find_auction db (Bid.auctionID b)) as [a|] eqn:F;
    [|left; exists b; eexists; split; [reflexivity|]; split;
      [auto|exact (E3 U S eq_refl)]].
  right.
  destruct (check_and_update_status_inv now a db) as (a1 & db0 & C & _).
  pose proof (cancel_bid_found _ _ _ _ _ _ _ _ G U S F C) as K.
  assert (GA : snd (get_auction now (Bid.auctionID b) db) = db0)
    by (rewrite (get_auction_found _ _ _ _ F), C; reflexivity).
  destruct (Auction.endDate a - now <=? 0) eqn:T.
  { left. exists b, a. eexists. repeat split; auto. rewrite GA. exact K. }
  apply Z.leb_gt in T.
  assert (B : bid_tbl db0 = bid_tbl db).
  { pose proof (check_and_update_status_open_bids now a db ltac:(lia)) as X.
    rewrite C in X. exact X. }
  destruct (get_current_highest_bid db (Bid.auctionID b)) as [h|].
  - destruct (Bid.userID h =? Account.accountID current_user).
    + destruct (Auction.endDate a - now <=? timedelta_minutes 10).
      * left. exists b, a. eexists. repeat split; auto. rewrite GA. exact K.
      * right. exists b, a, (save_auction (extended_auction now a1) db0).
        repeat split; auto. lia.
    + right. exists b, a, db0. repeat split; auto. lia.
  - right. exists b, a, db0. repeat split; auto. lia.
Qed.

(** C8 (as amended).  [cancel_bid] succeeds only when the bid exists, the
    requester owns it, its status is ACTIVE and the auction has not ended
    (404 for a missing bid, 403 for another's bid, 400 for a bid that is not
    ACTIVE or an auction that has ended).  On success the bid table is the
    table before with the status of the cancelled bid set to CANCELLED and
    every other row as it was.  On failure [cancel_bid] itself writes
    nothing: the session is as it was, or, once the bid passed the three
    checks and its auction was fetched, as that fetch left it (the fetch
    reconciles the auction: one whose end has passed is completed and its
    winner resolved before the refusal). *)
Theorem cancel_bid_contract now bid_id current_user db r db' :
  cancel_bid now bid_id current_user db = (r, db') ->
  (is_ok r ->
   exists b a,
     get_bid db bid_id = Some b
     /\ Bid.userID b = Account.accountID current_user
     /\ Bid.bidStatus b = BidStatus.ACTIVE
     /\ find_auction db (Bid.auctionID b) = Some a
     /\ now < Auction.endDate a
     /\ bid_tbl db' =
        map (fun x => if Bid.bidID x =? bid_id
                      then Bid.set_bidStatus BidStatus.CANCELLED x else x)
            (bid_tbl db))
  /\ (get_bid db bid_id = None ->
      r = Raise (HTTPException 404 Bid_not_found) /\ db' = db)
  /\ (forall b, get_bid db bid_id = Some b ->
      Bid.userID b <> Account.accountID current_user ->
      r = Raise (HTTPException 403 You_can_only_cancel_your_own_bids) /\ db' = db)
  /\ (forall b, get_bid db bid_id = Some b ->
      Bid.userID b = Account.accountID current_user ->
      Bid.bidStatus b <> BidStatus.ACTIVE ->
      r = Raise (HTTPException 400 (Bid_is_not_active (Bid.bidStatus b)))
      /\ db' = db)
  /\ (forall b a, get_bid db bid_id = Some b ->
      Bid.userID b = Account.accountID current_user ->
      Bid.bidStatus b = BidStatus.ACTIVE ->
      find_auction db (Bid.auctionID b) = Some a ->
      Auction.endDate a <= now ->
      r = Raise (HTTPException 400 Cannot_cancel_bid_after_auction_has_ended)
      /\ db' = snd (get_auction now (Bid.auctionID b) db))
  /\ (forall e, r = Raise e ->
      db' = db
      \/ exists b,
           get_bid db bid_id = Some b
           /\ Bid.userID b = Account.accountID current_user
           /\ Bid.bidStatus b = BidStatus.ACTIVE
           /\ db' = snd (get_auction now (Bid.auctionID b) db)).
Proof.
  intro H.
  pose proof (cancel_bid_early now bid_id current_user db) as Early.
  split; [|split; [|split; [|split; [|split]]]].
  - intros [m Em]. subst r.
    destruct (cancel_bid_outcomes now bid_id current_user db)
      as [E|[(b & e & _ & _ & E)|[(b & a & e & _ & _ & _ & _ & E)
         |(b & a & db0 & G & U & S & F & L & B & E)]]];
      rewrite E in H; try discriminate H.
    inversion H; subst. exists b, a. repeat split; auto.
    unfold cancelled. simpl. rewrite B. reflexivity.
  - intro G. rewrite G in Early. rewrite Early in H. inversion H. auto.
  - intros b G U. rewrite G in Early. destruct Early as (E1 & _).
    rewrite (E1 U) in H. inversion H. auto.
  - intros b G U S. rewrite G in Early. destruct Early as (_ & E2 & _).
    rewrite (E2 U S) in H. inversion H. auto.
  - intros b a G U S F L.
    destruct (check_and_update_status_inv now a db) as (a1 & db0 & C & _).
    rewrite (cancel_bid_found _ _ _ _ _ _ _ _ G U S F C) in H.
    replace (Auction.endDate a - now <=? 0) with true in H
      by (symmetry; apply Z.leb_le; lia).
    rewrite (get_auction_found _ _ _ _ F), C. inversion H. auto.
  - intros e Er. subst r.
    destruct (cancel_bid_outcomes now bid_id current_user db)
      as [E|[(b & e' & _ & _ & E)|[(b & a & e' & G & U & S & F & E)
         |(b & a & db0 & _ & _ & _ & _ & _ & _ & E)]]];
      rewrite E in H; try discriminate H; inversion H; subst; auto.
    right. exists b. auto.
Qed.

Lemma cancel_bid_contract_witness :
  exists db',
    cancel_bid (60 * minute) 1 bob led_world
    = (Raise (HTTPException 403 You_can_only_cancel_your_own_bids), db')
    /\ db' = led_world.
Proof.
  destruct (cancel_bid (60 * minute) 1 bob led_world) as [r db'] eqn:E.
  destruct (cancel_bid_contract _ _ _ _ _ _ E) as (_ & _ & Own & _).
  destruct (Own (Bid.mk 1 7 1 50000 BidStatus.ACTIVE (59 * minute)) eq_refl)
    as (Er & Ed); [vm_compute; discriminate|].
  exists db'. rewrite Er. split; [reflexivity|exact Ed].
Defined.

(** C8 (as stated) fails on "no state change on failure".  The owner's
    cancellation of an ACTIVE bid on an auction that ended a minute ago is
    refused with a 400; the fetch made on the way has completed the
    auction, made that very bid WINNING and its bidder the winner. *)
Lemma failed_cancellation_changes_state :
  exists db',
    cancel_bid (60 * minute) 1 alice ended_world =
    (Raise (HTTPException 400 Cannot_cancel_bid_after_auction_has_ended), db')
    /\ get_bid ended_world 1 = Some (Bid.mk 1 7 1 50000 BidStatus.ACTIVE (50 * minute))
    /\ get_bid db' 1 = Some (Bid.mk 1 7 1 50000 BidStatus.WINNING (50 * minute))
    /\ option_map Auction.auctionStatus (find_auction db' 7)
       = Some AuctionStatus.COMPLETED
    /\ option_map Auction.bidWinnerID (find_auction db' 7) = Some (Some 1)
    /\ db' <> ended_world.
Proof.
  eexists. split; [vm_compute; reflexivity|].
  repeat (split; [vm_compute; reflexivity|]). intro E; inversion E.
Qed.


(** * Further properties of the repositories and endpoints *)

(** ** [get_auction] *)

(** X1.  [get_auction] answers [None], writing nothing, exactly when no row
    has the key.  Otherwise the auction it returns carries the key, is
    reconciled at [now] (not SCHEDULED with its start passed, not ONGOING
    with its end passed), is the row now stored under the key, and a second
    fetch at the same instant returns it again and writes nothing. *)
Theorem get_auction_returns_stored now auction_id db :
  match find_auction db auction_id with
  | None => get_auction now auction_id db = (None, db)
  | Some _ =>
      exists a db',
        get_auction now auction_id db = (Some a, db')
        /\ Auction.auctionID a = auction_id
        /\ settled now a
        /\ find_auction db' auction_id = Some a
        /\ get_auction now auction_id db' = (Some a, db')
  end.
Proof.
  destruct (find_auction db auction_id) as [a0|] eqn:F.
  - pose proof (find_auction_id _ _ _ F) as Ia.
    destruct (check_and_update_status_inv now a0 db)
      as (a & db' & C & (I1 & _) & _ & F1 & _ & _).
    exists a, db'. rewrite (get_auction_found _ _ _ _ F).
    assert (St : settled now a) by exact (check_settled _ _ _ _ _ C).
    assert (F' : find_auction db' auction_id = Some a).
    { rewrite <- Ia. apply F1. rewrite Ia. exact F. }
    repeat split; try assumption; try congruence.
    + apply St.
    + apply St.
    + rewrite (get_auction_found _ _ _ _ F'). apply settled_check. exact St.
  - unfold get_auction.
    change (first (filter (fun r => Auction.auctionID r =? auction_id) (auction_tbl db)))
      with (find_auction db auction_id).
    rewrite F. reflexivity.
Qed.

(** ** What closing an auction does to its bids *)

Lemma resolve_row_status auction_id h b :
  Bid.auctionID (resolve_row auction_id h b) = Bid.auctionID b
  /\ (Bid.auctionID b = auction_id ->
      Bid.bidStatus (resolve_row auction_id h b) <> BidStatus.ACTIVE)
  /\ (Bid.bidStatus (resolve_row auction_id h b) = BidStatus.WINNING ->
      Bid.bidID b = Bid.bidID h \/ Bid.bidStatus b = BidStatus.WINNING).
Proof.
  unfold resolve_row. destruct b as [i au u p st c]; simpl.
  destruct (i =? Bid.bidID h) eqn:E; simpl.
  - rewrite E. simpl. rewrite andb_false_r. simpl.
    repeat split; [discriminate|]. intros _. left. apply Z.eqb_eq. exact E.
  - rewrite E. simpl. rewrite andb_true_r.
    destruct (au =? auction_id) eqn:A; simpl.
    + destruct st; simpl; repeat split; try discriminate; auto.
    + repeat split; auto. intro K. apply Z.eqb_neq in A. contradiction.
Qed.

(** X3.  When [check_and_update_status] takes an auction to COMPLETED, no
    bid of that auction is left ACTIVE.  If moreover bid keys are unique and
    no bid of the auction was WINNING before, at most one bid of the
    auction is WINNING afterwards. *)
Theorem closing_leaves_no_active_bid now a db a1 db1 :
  check_and_update_status now (Some a) db = (Some a1, db1) ->
  Auction.auctionStatus a <> AuctionStatus.COMPLETED ->
  Auction.auctionStatus a1 = AuctionStatus.COMPLETED ->
  (forall b, In b (bid_tbl db1) -> Bid.auctionID b = Auction.auctionID a ->
             Bid.bidStatus b <> BidStatus.ACTIVE)
  /\ (NoDup (map Bid.bidID (bid_tbl db)) ->
      (forall b, In b (bid_tbl db) -> Bid.auctionID b = Auction.auctionID a ->
                 Bid.bidStatus b <> BidStatus.WINNING) ->
      forall b b',
        In b (bid_tbl db1) -> In b' (bid_tbl db1) ->
        Bid.auctionID b = Auction.auctionID a ->
        Bid.auctionID b' = Auction.auctionID a ->
        Bid.bidStatus b = BidStatus.WINNING ->
        Bid.bidStatus b' = BidStatus.WINNING ->
        b = b').
Proof.
  intros C N S.
  destruct (check_and_update_status_cases now a db)
    as [(_ & _ & E)|[(_ & _ & _ & E)|(_ & _ & E)]]; rewrite E in C.
  - inversion C; subst. contradiction.
  - inversion C; subst. discriminate S.
  - unfold closed in C.
    destruct (first (order_by_bidPrice_desc (active_bids db (Auction.auctionID a))))
      as [h|] eqn:F.
    + inversion C; subst a1 db1; clear C. simpl. rewrite resolve_bids_map.
      assert (Ih : In h (bid_tbl db)).
      { apply (active_bids_In db (Auction.auctionID a) h).
        apply first_order_by_In. exact F. }
      split.
      * intros b I A. apply in_map_iff in I. destruct I as (x & <- & Ix).
        destruct (resolve_row_status (Auction.auctionID a) h x) as (K1 & K2 & _).
        apply K2. rewrite <- K1. exact A.
      * intros U W b b' I I' A A' Sb Sb'.
        apply in_map_iff in I. destruct I as (x & <- & Ix).
        apply in_map_iff in I'. destruct I' as (x' & <- & Ix').
        destruct (resolve_row_status (Auction.auctionID a) h x) as (K1 & _ & K3).
        destruct (resolve_row_status (Auction.auctionID a) h x') as (K1' & _ & K3').
        rewrite K1 in A. rewrite K1' in A'.
        destruct (K3 Sb) as [Ex|Wx]; [|exfalso; exact (W x Ix A Wx)].
        destruct (K3' Sb') as [Ex'|Wx']; [|exfalso; exact (W x' Ix' A' Wx')].
        assert (x = h) by (apply (bidID_injective (bid_tbl db)); assumption).
        assert (x' = h) by (apply (bidID_injective (bid_tbl db)); assumption).
        congruence.
    + apply first_order_by_nil in F. inversion C; subst a1 db1; clear C. simpl.
      split.
      * intros b I A Sb.
        assert (K : In b (active_bids db (Auction.auctionID a)))
          by (apply active_bids_In; auto).
        rewrite F in K. destruct K.
      * intros U W b b' I I' A A' Sb. exfalso. exact (W b I A Sb).
Qed.

Lemma closing_leaves_no_active_bid_witness :
  exists a1 db1,
    check_and_update_status (90 * minute)
      (Some (demo_auction AuctionStatus.ONGOING (60 * minute))) tie_world
    = (Some a1, db1)
    /\ forall b, In b (bid_tbl db1) -> Bid.auctionID b = 7 ->
                 Bid.bidStatus b <> BidStatus.ACTIVE.
Proof.
  destruct (check_and_update_status (90 * minute)
              (Some (demo_auction AuctionStatus.ONGOING (60 * minute))) tie_world)
    as [[a1|] db1] eqn:C; [|vm_compute in C; discriminate C].
  exists a1, db1. split; [reflexivity|].
  apply (closing_leaves_no_active_bid _ _ _ _ _ C).
  - discriminate.
  - vm_compute in C. inversion C. reflexivity.
Defined.

(** ** [place_bid]: when it refuses and when it accepts *)

Lemma place_bid_commit_not_admitted now bid current_user db a a1 db0 :
  find_auction db (BidCreate.auctionID bid) = Some a ->
  check_and_update_status now (Some a) db = (Some a1, db0) ->
  (~ (Auction.startDate a <= now <= Auction.endDate a) ->
   place_bid_commit now bid current_user db =
   (Raise (HTTPException 400 (Auction_is_not_currently_active (Auction.startDate a))),
    db0))
  /\ (Auction.startDate a <= now <= Auction.endDate a ->
      Auction.auctionStatus a1 <> AuctionStatus.ONGOING ->
      place_bid_commit now bid current_user db =
      (Raise (HTTPException 400 (Auction_is_not_accepting_bids (Auction.auctionStatus a1))),
       db0))
  /\ (Auction.startDate a <= now <= Auction.endDate a ->
      Auction.auctionStatus a1 = AuctionStatus.ONGOING ->
      deposit_payment_of db (BidCreate.auctionID bid) (Account.accountID current_user)
      = None ->
      place_bid_commit now bid current_user db =
      (Raise (HTTPException 400 You_must_register_and_pay_the_deposit), db0)).
Proof.
  intros F C.
  destruct (check_and_update_status_inv now a db)
    as (a1' & db0' & C' & (I1 & I2 & I3 & I4) & (T1 & _) & _).
  rewrite C in C'. inversion C'; subst a1' db0'; clear C'.
  unfold place_bid_commit, bind, call.
  rewrite (get_auction_found _ _ _ _ F), C, I2, I3.
  split; [|split].
  - intro W.
    replace ((Auction.startDate a <=? now) && (now <=? Auction.endDate a)) with false;
      [reflexivity|].
    symmetry. apply andb_false_iff.
    destruct (Z.leb_spec (Auction.startDate a) now);
      destruct (Z.leb_spec now (Auction.endDate a)); auto. exfalso. apply W. lia.
  - intros W S.
    replace ((Auction.startDate a <=? now) && (now <=? Auction.endDate a)) with true
      by (symmetry; apply andb_true_iff; split; apply Z.leb_le; lia).
    cbn [negb].
    destruct (status_accepts_bids (Auction.auctionStatus a1)) eqn:K; [|reflexivity].
    apply status_accepts_bids_ongoing in K. contradiction.
  - intros W S D.
    replace ((Auction.startDate a <=? now) && (now <=? Auction.endDate a)) with true
      by (symmetry; apply andb_true_iff; split; apply Z.leb_le; lia).
    replace (status_accepts_bids (Auction.auctionStatus a1)) with true
      by (symmetry; apply status_accepts_bids_ongoing; exact S).
    cbn [negb]. unfold query.
    replace (deposit_payment_of db0 (BidCreate.auctionID bid)
               (Account.accountID current_user))
      with (deposit_payment_of db (BidCreate.auctionID bid)
              (Account.accountID current_user))
      by (unfold deposit_payment_of; rewrite T1; reflexivity).
    rewrite D. reflexivity.
Qed.

(** X4.  The refusals of [place_bid], in the order the checks are made: 404
    when no auction has the key (nothing is written); otherwise, with the
    auction fetched and thereby reconciled, 400 "not currently active" when
    [now] is outside [start, end], 400 "not accepting bids" when the
    reconciled status is not ONGOING, 400 for a bidder without a completed
    deposit payment for the auction.  A request that succeeds passed all of
    them, was made strictly before the end ([now = end] is refused: the
    fetch completes the auction), and its amount lies between the minimum
    and 999,999,999. *)
Theorem place_bid_decision now faults bid current_user db :
  (find_auction db (BidCreate.auctionID bid) = None ->
   place_bid now faults bid current_user db =
   (Raise (HTTPException 404 Auction_not_found), db))
  /\ (forall a a1 db0,
        find_auction db (BidCreate.auctionID bid) = Some a ->
        check_and_update_status now (Some a) db = (Some a1, db0) ->
        (~ (Auction.startDate a <= now <= Auction.endDate a) ->
         place_bid now faults bid current_user db =
         (Raise (HTTPException 400
                   (Auction_is_not_currently_active (Auction.startDate a))), db0))
        /\ (Auction.startDate a <= now <= Auction.endDate a ->
            Auction.auctionStatus a1 <> AuctionStatus.ONGOING ->
            place_bid now faults bid current_user db =
            (Raise (HTTPException 400
                      (Auction_is_not_accepting_bids (Auction.auctionStatus a1))),
             db0))
        /\ (Auction.startDate a <= now <= Auction.endDate a ->
            Auction.auctionStatus a1 = AuctionStatus.ONGOING ->
            deposit_payment_of db (BidCreate.auctionID bid)
              (Account.accountID current_user) = None ->
            place_bid now faults bid current_user db =
            (Raise (HTTPException 400 You_must_register_and_pay_the_deposit), db0)))
  /\ (forall r db2,
        place_bid now faults bid current_user db = (Ok r, db2) ->
        exists a a1 db0,
          find_auction db (BidCreate.auctionID bid) = Some a
          /\ check_and_update_status now (Some a) db = (Some a1, db0)
          /\ Auction.auctionStatus a1 = AuctionStatus.ONGOING
          /\ Auction.startDate a <= now < Auction.endDate a
          /\ deposit_payment_of db (BidCreate.auctionID bid)
               (Account.accountID current_user) <> None
          /\ current_price db (BidCreate.auctionID bid) + Auction.priceStep a
             <= BidCreate.bidPrice bid <= 999999999).
Proof.
  split; [|split].
  - intro F. apply place_bid_refused.
    unfold place_bid_commit, bind, call, get_auction.
    change (first (filter (fun r => Auction.auctionID r =? BidCreate.auctionID bid)
                          (auction_tbl db)))
      with (find_auction db (BidCreate.auctionID bid)).
    rewrite F. reflexivity.
  - intros a a1 db0 F C.
    destruct (place_bid_commit_not_admitted now bid current_user db a a1 db0 F C)
      as (K1 & K2 & K3).
    split; [|split]; intros; apply place_bid_refused; auto.
  - intros r db2 H.
    destruct (place_bid_ok_commit _ _ _ _ _ _ _ H) as (c & db1 & P & _).
    destruct (place_bid_commit_ok_inv _ _ _ _ _ _ P) as (a & a1 & db0 & F & C & W & S & D).
    destruct (place_bid_commit_ok _ _ _ _ _ _ P)
      as (a' & a1' & db0' & F' & C' & W' & _ & V & _).
    rewrite F in F'. inversion F'; subst a'.
    exists a, a1, db0. repeat split; auto; try lia.
    + rewrite minimum_bid_current_price, (find_auction_id _ _ _ F) in V. lia.
    + unfold MAX_BID_PRICE in V. lia.
Qed.

Lemma place_bid_decision_witness :
  exists db0,
    place_bid (120 * minute) no_faults (BidCreate.mk 7 60000) bob led_world
    = (Raise (HTTPException 400 (Auction_is_not_accepting_bids AuctionStatus.COMPLETED)),
       db0).
Proof.
  destruct (check_and_update_status (120 * minute)
              (Some (demo_auction AuctionStatus.ONGOING (120 * minute))) led_world)
    as [[a1|] db0] eqn:C; [|vm_compute in C; discriminate C].
  destruct (proj1 (proj2 (place_bid_decision (120 * minute) no_faults
                            (BidCreate.mk 7 60000) bob led_world))
              _ a1 db0 eq_refl C) as (_ & K & _).
  assert (S : Auction.auctionStatus a1 = AuctionStatus.COMPLETED)
    by (vm_compute in C; inversion C; reflexivity).
  exists db0. rewrite K.
  - rewrite S. reflexivity.
  - split; vm_compute; discriminate.
  - rewrite S. discriminate.
Defined.

(** ** The accepted bid leads *)

Lemma first_order_by_app_greatest rows x :
  (forall b, In b rows -> Bid.bidPrice b < Bid.bidPrice x) ->
  first (order_by_bidPrice_desc (rows ++ [x])) = Some x.
Proof.
  induction rows as [|b rest IH]; intro H; simpl; [reflexivity|].
  rewrite first_insert, IH by (intros; apply H; simpl; auto).
  replace (Bid.bidPrice b <? Bid.bidPrice x) with true; [reflexivity|].
  symmetry. apply Z.ltb_lt. apply H. simpl. auto.
Qed.

Lemma leading_bids_below_highest db auction_id b :
  In b (leading_bids db auction_id) ->
  Bid.bidPrice b <= current_price db auction_id.
Proof.
  intro I. rewrite current_price_highest. unfold get_current_highest_bid.
  change (filter (fun b => (Bid.auctionID b =? auction_id)
                           && BidStatus.in_leading (Bid.bidStatus b)) (bid_tbl db))
    with (leading_bids db auction_id).
  destruct (first (order_by_bidPrice_desc (leading_bids db auction_id))) as [h|] eqn:F.
  - apply (first_order_by_max _ _ _ F I).
  - apply first_order_by_nil in F. rewrite F in I. destruct I.
Qed.

(** X5.  On an auction whose price step is positive, the bid that
    [place_bid] accepts becomes the current highest bid: afterwards
    [get_current_highest_bid] returns it, and the current price is its
    amount, strictly above the current price before. *)
Theorem accepted_bid_leads now faults bid current_user db r db2 a :
  place_bid now faults bid current_user db = (Ok r, db2) ->
  find_auction db (BidCreate.auctionID bid) = Some a ->
  0 < Auction.priceStep a ->
  get_current_highest_bid db2 (BidCreate.auctionID bid)
  = Some (new_bid now bid current_user db)
  /\ current_price db2 (BidCreate.auctionID bid) = BidCreate.bidPrice bid
  /\ current_price db (BidCreate.auctionID bid) < BidCreate.bidPrice bid.
Proof.
  intros H F Pos.
  destruct (place_bid_ok_effect _ _ _ _ _ _ _ H) as (a' & a2 & _ & _ & _ & _ & _ & _ & B).
  destruct (place_bid_ok_commit _ _ _ _ _ _ _ H) as (c & db1 & P & _).
  destruct (place_bid_commit_ok _ _ _ _ _ _ P)
    as (a'' & a1 & db0 & F'' & _ & _ & _ & V & _).
  rewrite F in F''. inversion F''; subst a''.
  rewrite minimum_bid_current_price, (find_auction_id _ _ _ F) in V.
  assert (G : get_current_highest_bid db2 (BidCreate.auctionID bid)
              = Some (new_bid now bid current_user db)).
  { unfold get_current_highest_bid. rewrite B, filter_app. simpl.
    rewrite Z.eqb_refl. simpl.
    apply first_order_by_app_greatest. intros b I.
    pose proof (leading_bids_below_highest db (BidCreate.auctionID bid) b I) as L.
    simpl. lia. }
  split; [exact G|]. split; [|lia].
  rewrite current_price_highest, G. reflexivity.
Qed.

Lemma accepted_bid_leads_witness :
  exists r db2,
    place_bid (60 * minute) no_faults (BidCreate.mk 7 60000) bob led_world = (Ok r, db2)
    /\ current_price led_world 7 = 50000
    /\ current_price db2 7 = 60000.
Proof.
  destruct (place_bid (60 * minute) no_faults (BidCreate.mk 7 60000) bob led_world)
    as [[r|e] db2] eqn:P; [|vm_compute in P; discriminate P].
  destruct (accepted_bid_leads _ _ _ _ _ _ _
              (demo_auction AuctionStatus.ONGOING (120 * minute)) P eq_refl)
    as (_ & C & _); [vm_compute; reflexivity|].
  exists r, db2. split; [reflexivity|]. split; [reflexivity|exact C].
Defined.

(** ** [validate_date_range] *)

Lemma round_half_even_bounds n d :
  0 < d ->
  n / d <= round_half_even n d
  /\ 2 * round_half_even n d * d <= 2 * n + d.
Proof.
  intro Hd. unfold round_half_even. cbv zeta.
  pose proof (Z.div_mod n d ltac:(lia)) as E.
  pose proof (Z.mod_pos_bound n d Hd) as B.
  remember (n / d) as q. remember (n mod d) as r.
  destruct (2 * r <? d) eqn:C1; [apply Z.ltb_lt in C1; split; nia|].
  apply Z.ltb_ge in C1.
  destruct (d <? 2 * r) eqn:C2; [apply Z.ltb_lt in C2; split; nia|].
  apply Z.ltb_ge in C2.
  destruct (Z.even q); split; nia.
Qed.

Lemma pow2_split a b : 0 <= a -> 0 <= b -> 2 ^ (a + b) = 2 ^ a * 2 ^ b.
Proof. intros. apply Z.pow_add_r; assumption. Qed.

(** The mantissa has 53 bits: the scaled quotient is at least [2 ^ 52]. *)
Lemma true_divide_normal n d :
  0 < n -> 0 < d ->
  let '(m, e) := true_divide n d in
  (0 <= e -> m = round_half_even n (d * 2 ^ e) /\ 2 ^ 52 * (d * 2 ^ e) <= n)
  /\ (e < 0 -> m = round_half_even (n * 2 ^ (- e)) d /\ 2 ^ 52 * d <= n * 2 ^ (- e)).
Proof.
  intros Hn Hd. unfold true_divide. cbv zeta.
  pose proof (Z.log2_spec n Hn) as Ln. pose proof (Z.log2_spec d Hd) as Ld.
  pose proof (Z.log2_nonneg n) as Nn. pose proof (Z.log2_nonneg d) as Nd.
  remember (Z.log2 n) as ln. remember (Z.log2 d) as ld.
  replace (Z.succ ln) with (ln + 1) in Ln by lia.
  replace (Z.succ ld) with (ld + 1) in Ld by lia.
  rewrite pow2_split in Ln, Ld by lia. change (2 ^ 1) with 2 in Ln, Ld.
  assert (Pn : 0 < 2 ^ ln) by (apply Z.pow_pos_nonneg; lia).
  assert (Pd : 0 < 2 ^ ld) by (apply Z.pow_pos_nonneg; lia).
  remember (ln - ld) as k.
  destruct (if 0 <=? k then d * 2 ^ k <=? n else d <=? n * 2 ^ (- k)) eqn:C.
  - (* the quotient is at least 2 ^ k *)
    destruct (0 <=? k - 52) eqn:E; split; intro He;
      try (apply Z.leb_le in E; lia); try (apply Z.leb_gt in E; lia).
    + split; [reflexivity|].
      replace (0 <=? k) with true in C by (symmetry; apply Z.leb_le; lia).
      apply Z.leb_le in C.
      replace k with ((k - 52) + 52) in C at 1 by lia.
      rewrite pow2_split in C by lia. lia.
    + split; [reflexivity|].
      destruct (0 <=? k) eqn:K.
      * apply Z.leb_le in K, C.
        replace (- (k - 52)) with (52 - k) by lia.
        assert (X : 2 ^ 52 = 2 ^ k * 2 ^ (52 - k))
          by (rewrite <- pow2_split by lia; f_equal; lia).
        rewrite X.
        assert (0 < 2 ^ (52 - k)) by (apply Z.pow_pos_nonneg; lia). nia.
      * apply Z.leb_gt in K. apply Z.leb_le in C.
        replace (- (k - 52)) with (- k + 52) by lia.
        rewrite pow2_split by lia.
        assert (0 < 2 ^ 52) by (apply Z.pow_pos_nonneg; lia). nia.
  - clear C.
    destruct (0 <=? k - 53) eqn:E; split; intro He;
      try (apply Z.leb_le in E; lia); try (apply Z.leb_gt in E; lia).
    + split; [reflexivity|].
      assert (X : 2 ^ ln = 2 ^ 52 * (2 ^ (ld + 1) * 2 ^ (k - 53))).
      { rewrite <- !pow2_split by lia. f_equal. lia. }
      rewrite pow2_split in X by lia. change (2 ^ 1) with 2 in X.
      assert (0 < 2 ^ (k - 53)) by (apply Z.pow_pos_nonneg; lia).
      assert (0 < 2 ^ 52) by (apply Z.pow_pos_nonneg; lia). nia.
    + split; [reflexivity|].
      assert (X : 2 ^ ln * 2 ^ (- (k - 53)) = 2 ^ 52 * (2 ^ ld * 2)).
      { rewrite <- pow2_split by lia.
        replace (ln + - (k - 53)) with (52 + (ld + 1)) by lia.
        rewrite !pow2_split by lia. reflexivity. }
      assert (0 < 2 ^ (- (k - 53))) by (apply Z.pow_pos_nonneg; lia).
      assert (0 < 2 ^ 52) by (apply Z.pow_pos_nonneg; lia). nia.
Qed.

(** For a bound [t] of at most [2 ^ 34], comparing the float [n / d] with
    [t] is comparing [n] with [t * d], when [d] is below [2 ^ 20]: below
    [2 ^ 34] two neighbouring floats are less than [2 ^ -19] apart, and
    no quotient by [d] that is below [t] is that close to it. *)
Lemma true_divide_lt n d t :
  0 < n -> 0 < d < 2 ^ 20 -> t <= 2 ^ 34 ->
  float_lt_int (true_divide n d) t = (n <? t * d).
Proof.
  intros Hn Hd Ht.
  pose proof (true_divide_normal n d Hn ltac:(lia)) as N.
  unfold float_lt_int. destruct (true_divide n d) as [m e].
  destruct N as [Npos Nneg].
  assert (P52 : 0 < 2 ^ 52) by (apply Z.pow_pos_nonneg; lia).
  destruct (0 <=? e) eqn:E.
  - apply Z.leb_le in E. destruct (Npos E) as [Em Nm].
    assert (Pe : 0 < 2 ^ e) by (apply Z.pow_pos_nonneg; lia).
    destruct (round_half_even_bounds n (d * 2 ^ e) ltac:(nia)) as [Lo _].
    rewrite <- Em in Lo.
    assert (Q : 2 ^ 52 <= n / (d * 2 ^ e))
      by (apply Z.div_le_lower_bound; nia).
    assert (T34 : 2 ^ 34 < 2 ^ 52) by (apply Z.pow_lt_mono_r; lia).
    assert (M : 2 ^ 52 <= m) by lia.
    assert (1 <= 2 ^ e) by lia.
    assert (m <= m * 2 ^ e) by nia.
    replace (m * 2 ^ e <? t) with false by (symmetry; apply Z.ltb_ge; lia).
    symmetry. apply Z.ltb_ge.
    assert (t * d <= 2 ^ 52 * d) by (apply Z.mul_le_mono_nonneg_r; lia).
    assert (d <= d * 2 ^ e) by nia.
    assert (2 ^ 52 * d <= 2 ^ 52 * (d * 2 ^ e))
      by (apply Z.mul_le_mono_nonneg_l; lia).
    lia.
  - apply Z.leb_gt in E. destruct (Nneg E) as [Em Nm].
    remember (2 ^ (- e)) as p eqn:Ep.
    assert (Pp : 0 < p) by (subst p; apply Z.pow_pos_nonneg; lia).
    destruct (round_half_even_bounds (n * p) d ltac:(lia)) as [Lo Hi].
    rewrite <- Em in Lo, Hi.
    destruct (Z.ltb_spec n (t * d)) as [L|L].
    + apply Z.ltb_lt.
      assert (P18 : 2 ^ 18 < p).
      { assert (2 ^ 52 * d < 2 ^ 34 * p * d) by nia.
        assert (X : 2 ^ 52 = 2 ^ 34 * 2 ^ 18) by reflexivity. nia. }
      assert (P19 : 2 ^ 19 <= p).
      { subst p. apply Z.pow_lt_mono_r_iff in P18; [|lia|lia].
        apply Z.pow_le_mono_r; lia. }
      assert (D : d < 2 * p).
      { assert (2 ^ 20 = 2 * 2 ^ 19) by reflexivity. lia. }
      nia.
    + apply Z.ltb_ge.
      assert (t * p <= n * p / d) by (apply Z.div_le_lower_bound; nia).
      lia.
Qed.

Lemma total_seconds_lt duration t :
  0 < duration -> t <= 2 ^ 34 ->
  float_lt_int (total_seconds duration) t = (duration <? t * 1000000).
Proof.
  intros Hd Ht. apply true_divide_lt; [exact Hd| |exact Ht].
  split; [lia|reflexivity].
Qed.

Lemma validate_date_range_sound start_date end_date h d :
  h <> 0 -> h <= 4772185 -> d <> 0 ->
  fst (validate_date_range start_date end_date (Some h) (Some d)) = true
  <-> start_date < end_date
      /\ timedelta_hours h <= end_date - start_date
      /\ end_date - start_date < timedelta_days (d + 1).
Proof.
  intros Hh Hm Hd. unfold validate_date_range.
  apply Z.eqb_neq in Hh. apply Z.eqb_neq in Hd. rewrite Hh, Hd. simpl negb.
  rewrite !andb_true_l.
  assert (Day : timedelta_days 1 = 86400000000) by reflexivity.
  assert (Days : timedelta_days (d + 1) = 86400000000 * (d + 1))
    by (unfold timedelta_days; lia).
  rewrite Day, Days.
  remember 86400000000 as day eqn:Eday.
  assert (Pday : 0 < day) by lia. clear Eday Day Days.
  destruct (Z.leb_spec end_date start_date) as [L|L]; cbn [fst].
  { split; [discriminate|]. intros (K & _). lia. }
  rewrite total_seconds_lt by (try lia; change (2 ^ 34) with 17179869184; lia).
  replace (h * 3600 * 1000000) with (timedelta_hours h) by reflexivity.
  remember (timedelta_hours h) as least eqn:Eleast. clear Eleast.
  remember (end_date - start_date) as duration eqn:Eduration.
  destruct (Z.ltb_spec duration least) as [S|S]; cbn [fst].
  - split; [discriminate|]. intros (_ & K & _). lia.
  - destruct (Z.ltb_spec d (duration / day)) as [T|T]; cbn [fst].
    + split; [discriminate|]. intros (_ & _ & K). exfalso.
      assert (duration / day < d + 1) by (apply Z.div_lt_upper_bound; lia).
      lia.
    + split; [|reflexivity]. intros _. repeat split; auto.
      pose proof (Z.mul_succ_div_gt duration day Pday) as X. nia.
Qed.

(** X12.  With a minimum of [h] hours, [h] at most 4,772,185 (some 544
    years), and a maximum of [d] whole days (both non-zero),
    [validate_date_range] accepts exactly the ranges whose end is after the
    start, that last at least [h] hours and less than [d + 1] days: the
    maximum is compared with the whole days of the duration, so the hours
    beyond the last whole day do not count; and up to that [h] the
    rounding of [total_seconds()] to a float does not move the minimum. *)
Theorem validate_date_range_accepts start_date end_date h d :
  h <> 0 -> h <= 4772185 -> d <> 0 ->
  fst (validate_date_range start_date end_date (Some h) (Some d)) = true
  <-> start_date < end_date
      /\ timedelta_hours h <= end_date - start_date
      /\ end_date - start_date < timedelta_days (d + 1).
Proof.
  exact (validate_date_range_sound start_date end_date h d).
Qed.

Lemma validate_date_range_accepts_witness :
  fst (validate_date_range 0 (timedelta_days 30 + timedelta_hours 23) (Some 1) (Some 30))
  = true.
Proof.
  apply (validate_date_range_accepts 0 (timedelta_days 30 + timedelta_hours 23) 1 30).
  - discriminate.
  - lia.
  - discriminate.
  - repeat split; vm_compute; try reflexivity; discriminate.
Defined.

(** Beyond that minimum the rounding shows: with a minimum of 5,000,000
    hours, a range one microsecond short of it is accepted. *)
Lemma validate_date_range_rounds :
  validate_date_range 0 (timedelta_hours 5000000 - 1) (Some 5000000) None
  = (true, None).
Proof. vm_compute. reflexivity. Qed.

(** ** The bid table only grows *)

Lemma resolve_row_identity auction_id h b :
  bid_identity (resolve_row auction_id h b) = bid_identity b.
Proof.
  unfold resolve_row, bid_identity. destruct b as [i au u p st c]; simpl.
  destruct (i =? Bid.bidID h); simpl;
    match goal with |- context [if ?c then _ else _] => destruct c end;
    reflexivity.
Qed.

Lemma check_and_update_status_identities now a db :
  map bid_identity (bid_tbl (snd (check_and_update_status now (Some a) db)))
  = map bid_identity (bid_tbl db).
Proof.
  destruct (check_and_update_status_cases now a db)
    as [(_ & _ & E)|[(_ & _ & _ & E)|(_ & _ & E)]]; rewrite E; try reflexivity.
  unfold closed.
  destruct (first (order_by_bidPrice_desc (active_bids db (Auction.auctionID a))));
    [|reflexivity].
  simpl. rewrite resolve_bids_map, map_map. apply map_ext.
  intro b. apply resolve_row_identity.
Qed.

Lemma get_auction_identities now auction_id db :
  map bid_identity (bid_tbl (snd (get_auction now auction_id db)))
  = map bid_identity (bid_tbl db).
Proof.
  unfold get_auction.
  destruct (first (filter _ (auction_tbl db))) as [a|].
  - apply check_and_update_status_identities.
  - reflexivity.
Qed.

Lemma set_bid_status_identities bid_id s rows :
  map bid_identity (set_bid_status bid_id s rows) = map bid_identity rows.
Proof.
  unfold set_bid_status. rewrite map_map. apply map_ext. intro b.
  destruct (Bid.bidID b =? bid_id); reflexivity.
Qed.

Lemma next_id_fresh ids : ~ In (next_id ids) ids.
Proof.
  intro I.
  assert (K : forall x, In x ids -> x <= fold_right Z.max 0 ids).
  { clear I. induction ids as [|y rest IH]; intros x Ix; [destruct Ix|].
    simpl. destruct Ix as [<-|Ix]; [lia|]. specialize (IH x Ix). lia. }
  specialize (K _ I). unfold next_id in K. lia.
Qed.

Lemma bid_keys_of_identities rows rows' :
  map bid_identity rows' = map bid_identity rows ->
  map Bid.bidID rows' = map Bid.bidID rows.
Proof.
  intro E.
  assert (K : forall l, map Bid.bidID l
                        = map (fun t => fst (fst (fst (fst t)))) (map bid_identity l)).
  { intro l. rewrite map_map. reflexivity. }
  rewrite (K rows), (K rows'), E. reflexivity.
Qed.

(** X6.  No operation removes a bid or rewrites its key, auction, bidder,
    amount or creation timestamp: after reconciliation, bid placement or
    bid cancellation the table is made of the rows of the table before,
    in their order and statuses apart, followed by at most one new row,
    which is ACTIVE; and bid keys that were unique stay unique. *)
Theorem bids_are_never_removed now op db :
  exists kept added,
    bid_tbl (run now op db) = kept ++ added
    /\ map bid_identity kept = map bid_identity (bid_tbl db)
    /\ (List.length added <= 1)%nat
    /\ Forall (fun b => Bid.bidStatus b = BidStatus.ACTIVE) added
    /\ (NoDup (map Bid.bidID (bid_tbl db)) ->
        NoDup (map Bid.bidID (bid_tbl (run now op db)))).
Proof.
  assert (Same : forall db',
             map bid_identity (bid_tbl db') = map bid_identity (bid_tbl db) ->
             exists kept added,
               bid_tbl db' = kept ++ added
               /\ map bid_identity kept = map bid_identity (bid_tbl db)
               /\ (List.length added <= 1)%nat
               /\ Forall (fun b => Bid.bidStatus b = BidStatus.ACTIVE) added
               /\ (NoDup (map Bid.bidID (bid_tbl db)) ->
                   NoDup (map Bid.bidID (bid_tbl db')))).
  { intros db' E. exists (bid_tbl db'), []. rewrite app_nil_r.
    split; [reflexivity|]. split; [exact E|]. split; [simpl; lia|].
    split; [constructor|].
    rewrite (bid_keys_of_identities _ _ E). auto. }
  destruct op as [auction_id|faults bid current_user|bid_id current_user]; simpl.
  - apply Same. apply get_auction_identities.
  - destruct (place_bid now faults bid current_user db) as [[r|e] db2] eqn:P.
    + destruct (place_bid_ok_effect _ _ _ _ _ _ _ P)
        as (a & a2 & _ & _ & _ & _ & _ & _ & B).
      exists (bid_tbl db), [new_bid now bid current_user db]. simpl.
      split; [exact B|]. split; [reflexivity|]. split; [lia|].
      split; [repeat constructor|].
      intro N. rewrite B, map_app. simpl.
      apply NoDup_app; [exact N|repeat constructor; intros []|].
      intros x Ix [<-|[]]. exact (next_id_fresh _ Ix).
    + apply Same.
      destruct (place_bid_commit now bid current_user db) as [[c|e'] db1] eqn:Q.
      * destruct (place_bid_after_commit now faults _ _ _ _ _ Q) as (a2 & _ & E).
        rewrite E in P. discriminate P.
      * rewrite (place_bid_refused _ faults _ _ _ _ _ Q) in P. inversion P; subst.
        rewrite (place_bid_commit_refused_state _ _ _ _ _ _ Q).
        apply get_auction_identities.
  - apply Same.
    destruct (cancel_bid_outcomes now bid_id current_user db)
      as [E|[(b & e & _ & _ & E)|[(b & a & e & _ & _ & _ & _ & E)
         |(b & a & db0 & _ & _ & _ & _ & _ & B & E)]]]; rewrite E; simpl.
    + reflexivity.
    + reflexivity.
    + apply get_auction_identities.
    + rewrite set_bid_status_identities, B. reflexivity.
Qed.

Lemma bids_are_never_removed_witness :
  NoDup (map Bid.bidID (bid_tbl led_world))
  /\ NoDup (map Bid.bidID
              (bid_tbl (run (60 * minute)
                          (PlaceBid no_faults (BidCreate.mk 7 60000) bob) led_world))).
Proof.
  assert (N : NoDup (map Bid.bidID (bid_tbl led_world)))
    by (simpl; repeat constructor; intros []).
  split; [exact N|].
  destruct (bids_are_never_removed (60 * minute)
              (PlaceBid no_faults (BidCreate.mk 7 60000) bob) led_world)
    as (kept & added & _ & _ & _ & _ & K).
  exact (K N).
Defined.

(** ** [cancel_bid] (repository) and what a cancellation does to the price *)

Lemma set_bid_status_twice bid_id s rows :
  set_bid_status bid_id s (set_bid_status bid_id s rows) = set_bid_status bid_id s rows.
Proof.
  unfold set_bid_status. rewrite map_map. apply map_ext. intro x.
  destruct (Bid.bidID x =? bid_id) eqn:E; simpl; rewrite E; reflexivity.
Qed.

(** X10.  The repository's [cancel_bid] answers [True] exactly when the bid
    exists and belongs to the user; it does not look at the bid's status.
    On [False] nothing is written; on [True] the bid is CANCELLED, whatever
    it was, no other key is touched, and cancelling again changes nothing
    more. *)
Theorem cancel_bid_repo_contract bid_id user_id db :
  let '(ok, db') := cancel_bid_repo bid_id user_id db in
  (ok = true <-> exists b, get_bid db bid_id = Some b /\ Bid.userID b = user_id)
  /\ (ok = false -> db' = db)
  /\ (ok = true ->
      (forall b, get_bid db bid_id = Some b ->
                 get_bid db' bid_id = Some (Bid.set_bidStatus BidStatus.CANCELLED b))
      /\ (forall other, other <> bid_id -> get_bid db' other = get_bid db other)
      /\ cancel_bid_repo bid_id user_id db' = (true, db')).
Proof.
  unfold cancel_bid_repo.
  destruct (get_bid db bid_id) as [b|] eqn:G.
  - destruct (Bid.userID b =? user_id) eqn:U; simpl.
    + apply Z.eqb_eq in U. split; [|split].
      * split; [intros _; exists b; auto|reflexivity].
      * discriminate.
      * intros _.
        assert (G' : get_bid (with_bids (set_bid_status bid_id BidStatus.CANCELLED
                                           (bid_tbl db)) db) bid_id
                     = Some (Bid.set_bidStatus BidStatus.CANCELLED b)).
        { unfold get_bid at 1. simpl. rewrite get_bid_set_status, G. reflexivity. }
        split; [|split].
        -- intros b' E. inversion E; subst b'. exact G'.
        -- intros other N. unfold get_bid, set_bid_status. simpl.
           rewrite get_bid_map.
           ++ destruct (first (filter (fun x => Bid.bidID x =? other) (bid_tbl db)))
                as [x|] eqn:Fx; [|reflexivity].
              simpl. f_equal.
              assert (Ix : Bid.bidID x = other).
              { clear - Fx. induction (bid_tbl db) as [|y rest IH]; [discriminate|].
                simpl in Fx. destruct (Bid.bidID y =? other) eqn:E; auto.
                inversion Fx; subst. apply Z.eqb_eq. exact E. }
              rewrite Ix. apply Z.eqb_neq in N. rewrite N. reflexivity.
           ++ intro x. destruct (Bid.bidID x =? bid_id); reflexivity.
        -- rewrite G'. cbn [Bid.userID Bid.set_bidStatus]. rewrite U, Z.eqb_refl.
           cbn [negb]. unfold with_bids. cbn [bid_tbl auction_tbl payment_tbl
             account_tbl notification_tbl tasks outbox].
           rewrite set_bid_status_twice. reflexivity.
    + apply Z.eqb_neq in U. split; [|split].
      * split; [discriminate|]. intros (b' & E & K). inversion E; subst. contradiction.
      * reflexivity.
      * discriminate.
  - split; [|split].
    + split; [discriminate|]. intros (b' & E & _). discriminate E.
    + reflexivity.
    + discriminate.
Qed.

Lemma leading_bids_after_cancel bid_id rows auction_id :
  filter (fun b => (Bid.auctionID b =? auction_id)
                   && BidStatus.in_leading (Bid.bidStatus b))
         (set_bid_status bid_id BidStatus.CANCELLED rows)
  = filter (fun b => negb (Bid.bidID b =? bid_id))
      (filter (fun b => (Bid.auctionID b =? auction_id)
                        && BidStatus.in_leading (Bid.bidStatus b)) rows).
Proof.
  induction rows as [|x rest IH]; simpl; [reflexivity|].
  destruct (Bid.bidID x =? bid_id) eqn:E; simpl.
  - rewrite andb_false_r.
    destruct ((Bid.auctionID x =? auction_id) && BidStatus.in_leading (Bid.bidStatus x));
      simpl; rewrite ?E; simpl; exact IH.
  - destruct ((Bid.auctionID x =? auction_id) && BidStatus.in_leading (Bid.bidStatus x));
      simpl; rewrite ?E; simpl; rewrite IH; reflexivity.
Qed.

(** X9.  After a successful [cancel_bid] the cancelled bid no longer counts
    for the current price and nothing else does change: for every auction
    the bids that count are those that counted before, the cancelled one
    removed.  The current price is recomputed from them; no other bid is
    promoted. *)
Theorem cancelled_bid_stops_counting now bid_id current_user db m db' :
  cancel_bid now bid_id current_user db = (Ok m, db') ->
  forall auction_id,
    leading_bids db' auction_id
    = filter (fun b => negb (Bid.bidID b =? bid_id)) (leading_bids db auction_id).
Proof.
  intros H auction_id.
  destruct (cancel_bid_outcomes now bid_id current_user db)
    as [E|[(b & e & _ & _ & E)|[(b & a & e & _ & _ & _ & _ & E)
       |(b & a & db0 & _ & _ & _ & _ & _ & B & E)]]];
    rewrite E in H; try discriminate H.
  inversion H; subst. unfold leading_bids, cancelled. simpl. rewrite B.
  apply leading_bids_after_cancel.
Qed.

Lemma cancelled_bid_stops_counting_witness :
  exists db',
    cancel_bid (60 * minute) 1 alice led_world = (Ok Bid_cancelled_successfully, db')
    /\ leading_bids db' 7 = [].
Proof.
  destruct (cancel_bid (60 * minute) 1 alice led_world) as [[m|e] db'] eqn:P;
    [|vm_compute in P; discriminate P].
  exists db'. destruct m. split; [reflexivity|].
  rewrite (cancelled_bid_stops_counting _ _ _ _ _ _ P 7). reflexivity.
Defined.

(** ** The status and the fixed attributes of an auction across the operations *)

Lemma not_backward_trans s1 s2 s3 :
  not_backward s1 s2 -> not_backward s2 s3 -> not_backward s1 s3.
Proof.
  unfold not_backward. intros H12 H23.
  destruct s1, s2, s3;
    repeat match goal with
           | H : _ \/ _ |- _ => destruct H
           | H : _ /\ _ |- _ => destruct H
           end; try discriminate; auto 10.
Qed.

Lemma evolves_refl db : evolves db db.
Proof. intros id a F. exists a. repeat split; auto. left. reflexivity. Qed.

Lemma evolves_trans db1 db2 db3 :
  evolves db1 db2 -> evolves db2 db3 -> evolves db1 db3.
Proof.
  intros H12 H23 id a F.
  destruct (H12 id a F) as (a2 & F2 & S2 & P2 & N2 & R2 & C2).
  destruct (H23 id a2 F2) as (a3 & F3 & S3 & P3 & N3 & R3 & C3).
  exists a3. split; [exact F3|].
  split; [eapply not_backward_trans; eassumption|].
  repeat split; congruence.
Qed.

Lemma evolves_same_auctions db db' :
  auction_tbl db' = auction_tbl db -> evolves db db'.
Proof.
  intros E id a F. exists a. unfold find_auction in *. rewrite E.
  repeat split; auto. left. reflexivity.
Qed.

Lemma evolves_check now a db :
  find_auction db (Auction.auctionID a) = Some a ->
  evolves db (snd (check_and_update_status now (Some a) db)).
Proof.
  intros F id x Fx.
  destruct (check_and_update_status_inv now a db)
    as (a1 & db1 & C & _ & _ & F1 & F2 & _).
  assert (K : not_backward (Auction.auctionStatus a) (Auction.auctionStatus a1)
              /\ Auction.priceStep a1 = Auction.priceStep a
              /\ Auction.auctionName a1 = Auction.auctionName a
              /\ Auction.productID a1 = Auction.productID a
              /\ Auction.createdAt a1 = Auction.createdAt a).
  { destruct (check_and_update_status_cases now a db)
      as [(_ & _ & E)|[(S & _ & _ & E)|(S & _ & E)]]; rewrite E in C.
    - inversion C; subst. repeat split; auto. left. reflexivity.
    - inversion C; subst. simpl. repeat split; auto. right. left. auto.
    - unfold closed in C.
      assert (B : not_backward (Auction.auctionStatus a) AuctionStatus.COMPLETED).
      { destruct S as [S|(S & _)]; rewrite S; [right; right; right|right; right; left];
          auto. }
      destruct (first (order_by_bidPrice_desc (active_bids db (Auction.auctionID a))));
        inversion C; subst; simpl; repeat split; auto. }
  rewrite C. simpl.
  destruct (Z.eq_dec id (Auction.auctionID a)) as [E|N].
  - subst id. rewrite F in Fx. inversion Fx; subst x.
    exists a1. split; [exact (F1 F)|exact K].
  - exists x. rewrite (F2 id N). repeat split; auto. left. reflexivity.
Qed.

Lemma evolves_get_auction now auction_id db :
  evolves db (snd (get_auction now auction_id db)).
Proof.
  destruct (find_auction db auction_id) as [a|] eqn:F.
  - rewrite (get_auction_found _ _ _ _ F). apply evolves_check.
    rewrite (find_auction_id _ _ _ F). exact F.
  - unfold get_auction.
    change (first (filter (fun r => Auction.auctionID r =? auction_id) (auction_tbl db)))
      with (find_auction db auction_id).
    rewrite F. apply evolves_refl.
Qed.

Lemma evolves_extend now a db :
  find_auction db (Auction.auctionID a) = Some a ->
  evolves db (save_auction (extended_auction now a) db).
Proof.
  intros F id x Fx. rewrite find_save_auction. simpl.
  destruct (id =? Auction.auctionID a) eqn:E.
  - apply Z.eqb_eq in E. subst id. rewrite F in Fx. inversion Fx; subst x.
    rewrite F. simpl. eexists. split; [reflexivity|]. simpl.
    repeat split; auto. left. reflexivity.
  - exists x. repeat split; auto. left. reflexivity.
Qed.

Lemma run_evolves now op db : evolves db (run now op db).
Proof.
  destruct op as [auction_id|faults bid current_user|bid_id current_user]; simpl.
  - apply evolves_get_auction.
  - destruct (place_bid_commit now bid current_user db) as [[c|e] db1] eqn:P.
    + destruct (place_bid_after_commit now faults _ _ _ _ _ P) as (a2 & _ & E).
      rewrite E. simpl.
      apply evolves_trans with db1;
        [|apply evolves_same_auctions;
          apply (send_notifications_frame now faults bid current_user c db1)].
      destruct (place_bid_commit_ok _ _ _ _ _ _ P)
        as (a & a1 & db0 & F & C & _ & _ & _ & _ & _ & _ & _ & Ed).
      pose proof (find_auction_id _ _ _ F) as Ia.
      destruct (check_and_update_status_inv now a db)
        as (a1' & db0' & C' & (I1 & _) & _ & F1 & _ & _).
      rewrite C in C'. inversion C'; subst a1' db0'; clear C'.
      assert (A0 : evolves db db0).
      { pose proof (evolves_check now a db) as K. rewrite C in K. apply K.
        rewrite Ia. exact F. }
      apply evolves_trans with db0; [exact A0|].
      subst db1. cbv zeta. destruct (c_extended c).
      * apply evolves_trans
          with (with_bids (bid_tbl db ++ [c_db_bid c]) db0);
          [apply evolves_same_auctions; reflexivity|].
        apply evolves_extend. rewrite find_auction_with_bids, I1. apply F1.
        rewrite Ia. exact F.
      * apply evolves_same_auctions. reflexivity.
    + rewrite (place_bid_refused _ faults _ _ _ _ _ P). simpl.
      rewrite (place_bid_commit_refused_state _ _ _ _ _ _ P).
      apply evolves_get_auction.
  - pose proof (cancel_bid_early now bid_id current_user db) as Early.
    destruct (get_bid db bid_id) as [b|] eqn:G;
      [|rewrite Early; apply evolves_refl].
    destruct Early as (E1 & E2 & E3).
    destruct (Z.eq_dec (Bid.userID b) (Account.accountID current_user)) as [U|U];
      [|rewrite (E1 U); apply evolves_refl].
    destruct (BidStatus.eqb (Bid.bidStatus b) BidStatus.ACTIVE) eqn:S;
      [apply BidStatus_eqb_eq in S
      |apply BidStatus_eqb_neq in S; rewrite (E2 U S); apply evolves_refl].
    destruct (find_auction db (Bid.auctionID b)) as [a|] eqn:F;
      [|rewrite (E3 U S eq_refl); apply evolves_refl].
    pose proof (find_auction_id _ _ _ F) as Ia.
    destruct (check_and_update_status_inv now a db)
      as (a1 & db0 & C & (I1 & _) & _ & F1 & _ & _).
    rewrite (cancel_bid_found _ _ _ _ _ _ _ _ G U S F C).
    assert (A0 : evolves db db0).
    { pose proof (evolves_check now a db) as K. rewrite C in K. apply K.
      rewrite Ia. exact F. }
    assert (A1 : evolves db (cancelled bid_id db0)).
    { apply evolves_trans with db0; [exact A0|].
      apply evolves_same_auctions. reflexivity. }
    assert (A2 : evolves db
                   (cancelled bid_id (save_auction (extended_auction now a1) db0))).
    { apply evolves_trans with db0; [exact A0|].
      apply evolves_trans with (save_auction (extended_auction now a1) db0).
      - apply evolves_extend. rewrite I1. apply F1. rewrite Ia. exact F.
      - apply evolves_same_auctions. reflexivity. }
    destruct (_ <=? 0); [exact A0|].
    destruct (get_current_highest_bid db (Bid.auctionID b)) as [h|]; [|exact A1].
    destruct (_ =? _); [|exact A1].
    destruct (_ <=? _); [exact A0|exact A2].
Qed.

(** An auction that is stored ONGOING is never stored SCHEDULED again,
    whatever reconciliations, bid placements and bid cancellations
    follow. *)
Lemma started_auction_stays_started requests : forall db id a,
  find_auction db id = Some a ->
  Auction.auctionStatus a = AuctionStatus.ONGOING ->
  exists a',
    find_auction (run_all requests db) id = Some a'
    /\ (Auction.auctionStatus a' = AuctionStatus.ONGOING
        \/ Auction.auctionStatus a' = AuctionStatus.COMPLETED).
Proof.
  assert (Step : forall now op db id a,
            find_auction db id = Some a ->
            Auction.auctionStatus a = AuctionStatus.ONGOING
            \/ Auction.auctionStatus a = AuctionStatus.COMPLETED ->
            exists a',
              find_auction (run now op db) id = Some a'
              /\ (Auction.auctionStatus a' = AuctionStatus.ONGOING
                  \/ Auction.auctionStatus a' = AuctionStatus.COMPLETED)).
  { intros now op db id a F St.
    destruct (run_evolves now op db id a F) as (a' & F' & N & _).
    exists a'. split; [exact F'|].
    destruct N as [E|[(E & _)|[(E & _)|(_ & E)]]];
      destruct St as [St|St];
      first [congruence | left; congruence | right; congruence]. }
  assert (All : forall db id a,
            find_auction db id = Some a ->
            Auction.auctionStatus a = AuctionStatus.ONGOING
            \/ Auction.auctionStatus a = AuctionStatus.COMPLETED ->
            exists a',
              find_auction (run_all requests db) id = Some a'
              /\ (Auction.auctionStatus a' = AuctionStatus.ONGOING
                  \/ Auction.auctionStatus a' = AuctionStatus.COMPLETED)).
  { induction requests as [|[now op] rest IH]; intros db id a F St.
    - exists a. split; [exact F|exact St].
    - simpl. destruct (Step now op db id a F St) as (a1 & F1 & S1).
      exact (IH _ _ _ F1 S1). }
  intros db id a F St. apply (All db id a F). left. exact St.
Qed.

(** X7.  Reconciliation, bid placement and bid cancellation keep every
    auction in the table, never move its status backwards along
    SCHEDULED -> ONGOING -> COMPLETED (a DRAFT, CANCELLED or COMPLETED
    auction keeps its status), and never change its price step, name,
    product or creation timestamp. *)
Theorem operations_keep_auctions now op db id a :
  find_auction db id = Some a ->
  exists a',
    find_auction (run now op db) id = Some a'
    /\ not_backward (Auction.auctionStatus a) (Auction.auctionStatus a')
    /\ Auction.priceStep a' = Auction.priceStep a
    /\ Auction.auctionName a' = Auction.auctionName a
    /\ Auction.productID a' = Auction.productID a
    /\ Auction.createdAt a' = Auction.createdAt a.
Proof.
  revert id a. exact (run_evolves now op db).
Qed.

Lemma operations_keep_auctions_witness :
  exists a',
    find_auction (run (120 * minute) (Reconcile 7) led_world) 7 = Some a'
    /\ not_backward AuctionStatus.ONGOING (Auction.auctionStatus a')
    /\ Auction.priceStep a' = 10000.
Proof.
  destruct (operations_keep_auctions (120 * minute) (Reconcile 7) led_world 7
              (demo_auction AuctionStatus.ONGOING (120 * minute)) eq_refl)
    as (a' & F & S & P & _).
  exists a'. split; [exact F|]. split; [exact S|exact P].
Defined.

(** ** The notifications of an accepted bid *)

Lemma send_notifications_no_faults now bid current_user c db1 :
  let db2 := snd (send_notifications now no_faults bid current_user c db1) in
  (exists t,
      tasks db2 = tasks db1 ++ [t]
      /\ task_auction_id t = BidCreate.auctionID bid
      /\ task_new_highest_bid_raw t = BidCreate.bidPrice bid
      /\ task_extended t = c_extended c)
  /\ (notification_tbl db2, outbox db2) =
     match c_previous_highest_bid c with
     | Some p =>
         if Bid.userID p =? Account.accountID current_user
         then (notification_tbl db1, outbox db1)
         else
           match get_account_by_id db1 (Bid.userID p), c_auction c with
           | Some u, Some a =>
               (notification_tbl db1 ++
                  [Notification.mk
                     (next_id (map Notification.notificationID (notification_tbl db1)))
                     (Bid.userID p) (BidCreate.auctionID bid)
                     NotificationType.BID_OUTBID "You have been outbid!"
                     false false now],
                outbox db1 ++ [{| to_email := Account.email u;
                                  subject_auction := Auction.auctionName a |}])
           | _, _ => (notification_tbl db1, outbox db1)
           end
     | None => (notification_tbl db1, outbox db1)
     end.
Proof.
  unfold send_notifications, bind, attempt, query, call, create_task, send_email,
    ret, raise, create_notification, no_faults. simpl.
  split.
  - destruct (c_previous_highest_bid c) as [p|]; simpl;
      [|eexists; repeat split; reflexivity].
    destruct (Bid.userID p =? Account.accountID current_user); simpl;
      [eexists; repeat split; reflexivity|].
    unfold get_account_by_id. simpl.
    destruct (first (filter _ (account_tbl db1))) as [u|]; simpl;
      [|eexists; repeat split; reflexivity].
    destruct (c_auction c) as [a|]; simpl; eexists; repeat split; reflexivity.
  - destruct (c_previous_highest_bid c) as [p|]; simpl; [|reflexivity].
    destruct (Bid.userID p =? Account.accountID current_user); simpl; [reflexivity|].
    unfold get_account_by_id. simpl.
    destruct (first (filter _ (account_tbl db1))) as [u|]; simpl; [|reflexivity].
    destruct (c_auction c) as [a|]; simpl; reflexivity.
Qed.

(** X8.  When no notification call fails, an accepted bid records exactly
    one unread BID_OUTBID notification, addressed to the bidder of the bid
    that was the highest before, and sends that account one e-mail,
    provided that bidder is another user whose account exists.  It records
    and sends nothing when there was no bid before, when the previous
    highest bid is the bidder's own, or when the account is not found.  In
    every case one broadcast of the new amount is scheduled. *)
Theorem outbid_notification now bid current_user db r db2 :
  place_bid now no_faults bid current_user db = (Ok r, db2) ->
  (exists t,
      tasks db2 = tasks db ++ [t]
      /\ task_auction_id t = BidCreate.auctionID bid
      /\ task_new_highest_bid_raw t = BidCreate.bidPrice bid
      /\ task_extended t = auction_extended r)
  /\ match get_current_highest_bid db (BidCreate.auctionID bid) with
     | Some p =>
         if Bid.userID p =? Account.accountID current_user
         then notification_tbl db2 = notification_tbl db /\ outbox db2 = outbox db
         else
           match get_account_by_id db (Bid.userID p) with
           | Some u =>
               exists n e,
                 notification_tbl db2 = notification_tbl db ++ [n]
                 /\ Notification.userID n = Bid.userID p
                 /\ Notification.auctionID n = BidCreate.auctionID bid
                 /\ Notification.notificationType n = NotificationType.BID_OUTBID
                 /\ Notification.isRead n = false
                 /\ outbox db2 = outbox db ++ [e]
                 /\ to_email e = Account.email u
           | None =>
               notification_tbl db2 = notification_tbl db /\ outbox db2 = outbox db
           end
     | None => notification_tbl db2 = notification_tbl db /\ outbox db2 = outbox db
     end.
Proof.
  intro H.
  destruct (place_bid_ok_commit _ _ _ _ _ _ _ H) as (c & db1 & P & E2 & _ & Rx).
  destruct (place_bid_commit_effect _ _ _ _ _ _ P)
    as (a & a2 & _ & _ & Ea & _ & _ & _ & _ & _ & _ & _ & _ & (T1 & T2 & T3 & T4 & T5)).
  destruct (place_bid_commit_ok _ _ _ _ _ _ P)
    as (a' & a1 & db0 & _ & _ & _ & _ & _ & _ & Ep & _).
  destruct (send_notifications_no_faults now bid current_user c db1) as (K1 & K2).
  rewrite <- E2 in K1, K2. rewrite T4, Rx in *.
  split; [exact K1|].
  rewrite Ep, Ea, T3, T5 in K2.
  unfold get_account_by_id in K2. rewrite T2 in K2.
  fold (get_account_by_id db) in K2.
  destruct (get_current_highest_bid db (BidCreate.auctionID bid)) as [p|];
    [|inversion K2; auto].
  destruct (Bid.userID p =? Account.accountID current_user); [inversion K2; auto|].
  change (first (filter (fun a => Account.accountID a =? Bid.userID p) (account_tbl db)))
    with (get_account_by_id db (Bid.userID p)) in K2.
  destruct (get_account_by_id db (Bid.userID p)) as [u|]; [|inversion K2; auto].
  inversion K2 as [[Kn Ko]]. eexists. eexists.
  split; [exact Kn|]. do 4 (split; [reflexivity|]). split; [exact Ko|reflexivity].
Qed.

Lemma outbid_notification_witness :
  exists r db2 n,
    place_bid (60 * minute) no_faults (BidCreate.mk 7 60000) bob led_world = (Ok r, db2)
    /\ notification_tbl db2 = [n]
    /\ Notification.userID n = 1.
Proof.
  destruct (place_bid (60 * minute) no_faults (BidCreate.mk 7 60000) bob led_world)
    as [[r|e] db2] eqn:P; [|vm_compute in P; discriminate P].
  destruct (outbid_notification _ _ _ _ _ _ P) as (_ & K).
  change (get_current_highest_bid led_world
            (BidCreate.auctionID (BidCreate.mk 7 60000)))
    with (Some (Bid.mk 1 7 1 50000 BidStatus.ACTIVE (59 * minute))) in K.
  cbv iota beta in K.
  change (Bid.userID (Bid.mk 1 7 1 50000 BidStatus.ACTIVE (59 * minute))
          =? Account.accountID bob) with false in K.
  change (get_account_by_id led_world
            (Bid.userID (Bid.mk 1 7 1 50000 BidStatus.ACTIVE (59 * minute))))
    with (Some alice) in K.
  cbv iota beta in K.
  destruct K as (n & e & Kn & Ku & _).
  exists r, db2, n. split; [reflexivity|]. split; [exact Kn|exact Ku].
Defined.

(** ** [get_bids_by_auction] *)

Lemma insert_by_price_desc_perm b rows :
  Permutation (b :: rows) (insert_by_price_desc b rows).
Proof.
  induction rows as [|x rest IH]; simpl; [apply Permutation_refl|].
  destruct (Bid.bidPrice b <? Bid.bidPrice x); [|apply Permutation_refl].
  eapply Permutation_trans; [apply perm_swap|]. apply perm_skip. exact IH.
Qed.

Lemma order_by_bidPrice_desc_perm rows :
  Permutation rows (order_by_bidPrice_desc rows).
Proof.
  induction rows as [|b rest IH]; simpl; [apply perm_nil|].
  eapply Permutation_trans; [apply perm_skip; exact IH|].
  apply insert_by_price_desc_perm.
Qed.

Lemma insert_by_price_desc_sorted b rows :
  StronglySorted (fun x y => Bid.bidPrice y <= Bid.bidPrice x) rows ->
  StronglySorted (fun x y => Bid.bidPrice y <= Bid.bidPrice x)
                 (insert_by_price_desc b rows).
Proof.
  induction rows as [|x rest IH]; intro S; simpl.
  - constructor; constructor.
  - apply StronglySorted_inv in S. destruct S as [S Hx].
    destruct (Bid.bidPrice b <? Bid.bidPrice x) eqn:E.
    + apply Z.ltb_lt in E. constructor; [apply IH; exact S|].
      rewrite Forall_forall in *. intros y Iy.
      apply (Permutation_in _ (Permutation_sym (insert_by_price_desc_perm b rest))) in Iy.
      destruct Iy as [<-|Iy]; [lia|apply Hx; exact Iy].
    + apply Z.ltb_ge in E. constructor; [constructor; assumption|].
      constructor; [exact E|].
      rewrite Forall_forall in *. intros y Iy. specialize (Hx y Iy). simpl in Hx. lia.
Qed.

Lemma order_by_bidPrice_desc_sorted rows :
  StronglySorted (fun x y => Bid.bidPrice y <= Bid.bidPrice x)
                 (order_by_bidPrice_desc rows).
Proof.
  induction rows as [|b rest IH]; simpl; [constructor|].
  apply insert_by_price_desc_sorted. exact IH.
Qed.

Lemma StronglySorted_skipn {A} (R : A -> A -> Prop) n l :
  StronglySorted R l -> StronglySorted R (skipn n l).
Proof.
  revert l. induction n as [|n IH]; intros l S; simpl; [exact S|].
  destruct l as [|x rest]; [constructor|].
  apply IH. apply StronglySorted_inv in S. apply S.
Qed.

Lemma StronglySorted_firstn {A} (R : A -> A -> Prop) n l :
  StronglySorted R l -> StronglySorted R (firstn n l).
Proof.
  revert l. induction n as [|n IH]; intros l S; simpl; [constructor|].
  destruct l as [|x rest]; [constructor|].
  apply StronglySorted_inv in S. destruct S as [S Hx].
  constructor; [apply IH; exact S|].
  rewrite Forall_forall in *. intros y Iy. apply Hx.
  rewrite <- (firstn_skipn n rest). apply in_or_app. left. exact Iy.
Qed.

(** X11.  [get_bids_by_auction] returns bids of the auction only, at most
    [limit] of them, ordered by price from the highest down, whatever their
    status.  Asked from the first row with a limit that the auction's bids
    do not exceed, it returns all of them, each once. *)
Theorem get_bids_by_auction_sorted db auction_id skip limit :
  let page := get_bids_by_auction db auction_id skip limit in
  StronglySorted (fun x y => Bid.bidPrice y <= Bid.bidPrice x) page
  /\ (List.length page <= limit)%nat
  /\ (forall b, In b page -> In b (bid_tbl db) /\ Bid.auctionID b = auction_id)
  /\ (skip = 0%nat -> (List.length (bids_of db auction_id) <= limit)%nat ->
      Permutation (bids_of db auction_id) page).
Proof.
  unfold get_bids_by_auction, offset_limit.
  change (filter (fun b => Bid.auctionID b =? auction_id) (bid_tbl db))
    with (bids_of db auction_id).
  cbv zeta. split; [|split; [|split]].
  - apply StronglySorted_firstn, StronglySorted_skipn, order_by_bidPrice_desc_sorted.
  - apply firstn_le_length.
  - intros b I.
    assert (K : In b (bids_of db auction_id)).
    { apply (Permutation_in _ (Permutation_sym (order_by_bidPrice_desc_perm _))).
      rewrite <- (firstn_skipn skip (order_by_bidPrice_desc _)).
      apply in_or_app. right.
      rewrite <- (firstn_skipn limit (skipn skip _)). apply in_or_app. left. exact I. }
    unfold bids_of in K. apply filter_In in K. destruct K as [K1 K2].
    split; [exact K1|apply Z.eqb_eq; exact K2].
  - intros -> L. simpl.
    rewrite firstn_all2.
    + apply order_by_bidPrice_desc_perm.
    + rewrite <- (Permutation_length (order_by_bidPrice_desc_perm _)). exact L.
Qed.

Lemma get_bids_by_auction_sorted_witness :
  Permutation (bids_of tie_world 7) (get_bids_by_auction tie_world 7 0 100).
Proof.
  apply (get_bids_by_auction_sorted tie_world 7 0 100).
  - reflexivity.
  - simpl. lia.
Defined.

(** ** [create_auction] and [register_auction] *)

Lemma find_auction_app_fresh rows a db :
  auction_tbl db = rows ->
  ~ In (Auction.auctionID a) (map Auction.auctionID rows) ->
  find_auction (with_auctions (rows ++ [a]) db) (Auction.auctionID a) = Some a
  /\ forall id, id <> Auction.auctionID a ->
       find_auction (with_auctions (rows ++ [a]) db) id = find_auction db id.
Proof.
  intros E N. unfold find_auction. simpl. rewrite E. split.
  - rewrite filter_app. simpl. rewrite Z.eqb_refl.
    replace (filter (fun r => Auction.auctionID r =? Auction.auctionID a) rows)
      with (@nil Auction.t); [reflexivity|].
    symmetry. clear E. induction rows as [|x rest IH]; simpl; [reflexivity|].
    destruct (Auction.auctionID x =? Auction.auctionID a) eqn:K.
    + apply Z.eqb_eq in K. exfalso. apply N. simpl. auto.
    + apply IH. intro I. apply N. simpl. auto.
  - intros id D. rewrite filter_app. simpl.
    replace (Auction.auctionID a =? id) with false
      by (symmetry; apply Z.eqb_neq; congruence).
    rewrite app_nil_r. reflexivity.
Qed.

Lemma find_auction_fresh db id :
  ~ In id (map Auction.auctionID (auction_tbl db)) -> find_auction db id = None.
Proof.
  unfold find_auction. induction (auction_tbl db) as [|y rest IH]; intro N;
    [reflexivity|].
  simpl. destruct (Auction.auctionID y =? id) eqn:E.
  - apply Z.eqb_eq in E. exfalso. apply N. simpl. auto.
  - apply IH. intro I. apply N. simpl. auto.
Qed.

Lemma create_auction_inv now auction db :
  exists a db',
    create_auction now auction db = (Some a, db')
    /\ find_auction db (Auction.auctionID a) = None
    /\ find_auction db' (Auction.auctionID a) = Some a
    /\ (forall id, id <> Auction.auctionID a ->
        find_auction db' id = find_auction db id)
    /\ Auction.auctionName a = AuctionCreate.auctionName auction
    /\ Auction.productID a = AuctionCreate.productID auction
    /\ Auction.startDate a = AuctionCreate.startDate auction
    /\ Auction.endDate a = AuctionCreate.endDate auction
    /\ Auction.priceStep a = AuctionCreate.priceStep auction
    /\ settled now a
    /\ (now < AuctionCreate.startDate auction ->
        Auction.auctionStatus a = AuctionStatus.SCHEDULED
        /\ Auction.bidWinnerID a = None
        /\ bid_tbl db' = bid_tbl db).
Proof.
  unfold create_auction.
  set (a0 := Auction.mk (next_id (map Auction.auctionID (auction_tbl db)))
               (AuctionCreate.auctionName auction) (AuctionCreate.productID auction)
               now None (AuctionCreate.startDate auction)
               (AuctionCreate.endDate auction) (AuctionCreate.priceStep auction)
               AuctionStatus.SCHEDULED None).
  cbv zeta.
  set (db1 := with_auctions (auction_tbl db ++ [a0]) db).
  assert (Fresh : ~ In (Auction.auctionID a0) (map Auction.auctionID (auction_tbl db)))
    by apply next_id_fresh.
  destruct (find_auction_app_fresh (auction_tbl db) a0 db eq_refl Fresh) as (Fa & Fo).
  fold db1 in Fa, Fo.
  destruct (check_and_update_status_inv now a0 db1)
    as (a & db' & C & (I1 & I2 & I3 & I4) & _ & F1 & F2 & _).
  exists a, db'. rewrite C. split; [reflexivity|].
  assert (None0 : find_auction db (Auction.auctionID a0) = None)
    by (apply find_auction_fresh; exact Fresh).
  assert (Keep : Auction.auctionName a = Auction.auctionName a0
                 /\ Auction.productID a = Auction.productID a0).
  { destruct (evolves_check now a0 db1 Fa (Auction.auctionID a0) a0 Fa)
      as (a' & Fa' & _ & _ & Kn & Kp & _).
    rewrite C in Fa'. cbn [snd] in Fa'. pose proof (F1 Fa) as Fb.
    assert (E : a' = a) by congruence. subst a'. auto. }
  rewrite I1. split; [exact None0|]. split; [exact (F1 Fa)|].
  split; [intros id D; rewrite (F2 id D); apply Fo; exact D|].
  split; [apply Keep|]. split; [apply Keep|].
  split; [exact I2|]. split; [exact I3|]. split; [exact I4|].
  split; [exact (check_settled _ _ _ _ _ C)|].
  intro L. rewrite settled_check in C.
  - inversion C; subst. repeat split.
  - split; [right; exact L|left; discriminate].
Qed.

(** X13.  [create_auction] stores the auction under a key that no row had,
    and what it returns is what [find_auction] then finds under that key:
    the auction as requested, reconciled at [now] (SCHEDULED when its start
    lies ahead).  The rows of the other auctions are as they were. *)
Theorem create_auction_stores now auction db :
  exists a db',
    create_auction now auction db = (Some a, db')
    /\ find_auction db (Auction.auctionID a) = None
    /\ find_auction db' (Auction.auctionID a) = Some a
    /\ (forall id, id <> Auction.auctionID a ->
        find_auction db' id = find_auction db id)
    /\ Auction.auctionName a = AuctionCreate.auctionName auction
    /\ Auction.productID a = AuctionCreate.productID auction
    /\ Auction.startDate a = AuctionCreate.startDate auction
    /\ Auction.endDate a = AuctionCreate.endDate auction
    /\ Auction.priceStep a = AuctionCreate.priceStep auction
    /\ settled now a
    /\ (now < AuctionCreate.startDate auction ->
        Auction.auctionStatus a = AuctionStatus.SCHEDULED
        /\ Auction.bidWinnerID a = None
        /\ bid_tbl db' = bid_tbl db).
Proof.
  exact (create_auction_inv now auction db).
Qed.

Lemma create_auction_stores_witness :
  exists a db',
    create_auction (10 * minute)
      (AuctionCreate.mk "vase" 3 (100 * minute) (400 * minute) 10000) planned_world
    = (Some a, db')
    /\ find_auction db' (Auction.auctionID a) = Some a
    /\ Auction.auctionStatus a = AuctionStatus.SCHEDULED.
Proof.
  destruct (create_auction_stores (10 * minute)
              (AuctionCreate.mk "vase" 3 (100 * minute) (400 * minute) 10000)
              planned_world)
    as (a & db' & C & _ & F & _ & _ & _ & _ & _ & _ & _ & K).
  exists a, db'. split; [exact C|]. split; [exact F|].
  apply K. vm_compute. reflexivity.
Defined.

(** X20.  An auction that [register_auction] accepts is stored as
    [create_auction] stores it and satisfies what the endpoint checked: the
    product exists, the end is after the start, the auction lasts at least
    one hour and less than 31 days, the price step lies between 1,000 and
    100,000,000, and the start is after the endpoint's reading of the
    clock.  A refused registration writes nothing. *)
Theorem register_auction_accepts sanitize_string products now_local now auction db :
  match register_auction sanitize_string products now_local now auction db with
  | (Registration_refused _ _, db') => db' = db
  | (Registration_done r, db') =>
      exists a,
        r = Some a
        /\ find_auction db (Auction.auctionID a) = None
        /\ find_auction db' (Auction.auctionID a) = Some a
        /\ get_product products (Auction.productID a) <> None
        /\ Auction.auctionName a
           = sanitize_string (AuctionCreate.auctionName auction) 200
        /\ Auction.startDate a = AuctionCreate.startDate auction
        /\ Auction.endDate a = AuctionCreate.endDate auction
        /\ Auction.priceStep a = AuctionCreate.priceStep auction
        /\ Auction.startDate a < Auction.endDate a
        /\ timedelta_hours 1 <= Auction.endDate a - Auction.startDate a
        /\ Auction.endDate a - Auction.startDate a < timedelta_days 31
        /\ 1000 <= Auction.priceStep a <= 100000000
        /\ now_local < Auction.startDate a
  end.
Proof.
  unfold register_auction.
  set (auction' := AuctionCreate.set_auctionName
                     (sanitize_string (AuctionCreate.auctionName auction) 200) auction).
  cbv zeta.
  destruct (get_product products (AuctionCreate.productID auction')) as [p|] eqn:G;
    [|reflexivity].
  pose proof (validate_date_range_sound (AuctionCreate.startDate auction')
                (AuctionCreate.endDate auction') 1 30
                ltac:(discriminate) ltac:(lia) ltac:(discriminate)) as VD.
  destruct (validate_date_range (AuctionCreate.startDate auction')
              (AuctionCreate.endDate auction') (Some 1) (Some 30)) as [ok err].
  cbn [fst] in VD. destruct ok; cbn [negb]; [|reflexivity].
  pose proof (validate_price_accepts (AuctionCreate.priceStep auction') 1000 100000000)
    as VP.
  destruct (validate_price (AuctionCreate.priceStep auction') 1000 (Some 100000000))
    as [ok err'].
  cbn [fst] in VP. destruct ok; cbn [negb]; [|reflexivity].
  destruct (AuctionCreate.startDate auction' <=? now_local) eqn:L; [reflexivity|].
  apply Z.leb_gt in L.
  destruct (create_auction_inv now auction' db)
    as (a & db' & C & F0 & F1 & _ & Kn & Kp & Ks & Ke & Kq & _).
  rewrite C. exists a.
  destruct (proj1 VD eq_refl) as (D1 & D2 & D3).
  symmetry in VP. apply negb_true_iff, orb_false_iff in VP.
  destruct VP as [P1 P2]. apply Z.ltb_ge in P1.
  change (negb (100000000 =? 0)) with true in P2. cbn [andb] in P2.
  apply Z.ltb_ge in P2.
  rewrite Ks, Ke, Kq, Kn, Kp.
  repeat split; auto; try lia.
  rewrite G. discriminate.
Qed.

Lemma register_auction_accepts_witness :
  exists a db',
    register_auction (fun name _ => name) [Product.mk 3 "vase"] (10 * minute)
      (10 * minute) (AuctionCreate.mk "vase" 3 (100 * minute) (400 * minute) 10000)
      planned_world = (Registration_done (Some a), db')
    /\ Auction.auctionID a = 9
    /\ find_auction db' 9 = Some a.
Proof.
  pose proof (register_auction_accepts (fun name _ => name) [Product.mk 3 "vase"]
                (10 * minute) (10 * minute)
                (AuctionCreate.mk "vase" 3 (100 * minute) (400 * minute) 10000)
                planned_world) as H.
  destruct (register_auction _ _ _ _ _ planned_world) as [[code detail|r] db'] eqn:R;
    [vm_compute in R; discriminate R|].
  destruct H as (a & -> & _ & F & _).
  assert (I : Auction.auctionID a = 9)
    by (vm_compute in R; inversion R; reflexivity).
  exists a, db'. split; [reflexivity|]. split; [exact I|]. rewrite <- I. exact F.
Defined.

(** ** [get_auctions] *)

Lemma find_auction_unique db a :
  NoDup (map Auction.auctionID (auction_tbl db)) ->
  In a (auction_tbl db) ->
  find_auction db (Auction.auctionID a) = Some a.
Proof.
  unfold find_auction. induction (auction_tbl db) as [|x rest IH]; intros N I;
    [contradiction|].
  simpl in N. inversion N as [|? ? Nx Nr]; subst. simpl.
  destruct I as [->|I].
  - rewrite Z.eqb_refl. reflexivity.
  - destruct (Auction.auctionID x =? Auction.auctionID a) eqn:E.
    + apply Z.eqb_eq in E. exfalso. apply Nx. rewrite E. apply in_map. exact I.
    + apply IH; assumption.
Qed.

Lemma NoDup_skipn {A} n (l : list A) : NoDup l -> NoDup (skipn n l).
Proof.
  revert l. induction n as [|n IH]; intros l N; [exact N|].
  destruct l as [|x l]; [exact N|]. simpl. apply IH. inversion N; assumption.
Qed.

Lemma NoDup_firstn {A} n (l : list A) : NoDup l -> NoDup (firstn n l).
Proof.
  revert l. induction n as [|n IH]; intros l N; [constructor|].
  destruct l as [|x l]; [constructor|]. simpl. inversion N as [|? ? Nx Nl]; subst.
  constructor; [|apply IH; exact Nl].
  intro I. apply Nx. revert I. clear. revert l.
  induction n as [|n IH]; intros l I; [contradiction|].
  destruct l as [|y l]; [contradiction|]. destruct I as [->|I]; simpl; auto.
Qed.

Lemma In_offset_limit {A} skip limit (l : list A) x :
  In x (offset_limit skip limit l) -> In x l.
Proof.
  unfold offset_limit. intro I.
  assert (J : In x (skipn skip l)).
  { revert I. generalize (skipn skip l). clear. intro l. revert l.
    induction limit as [|n IH]; intros l I; [contradiction|].
    destruct l as [|y l]; [contradiction|]. destruct I as [->|I]; simpl; auto. }
  revert J. clear. revert l. induction skip as [|n IH]; intros l J; [exact J|].
  destruct l as [|y l]; [contradiction|]. simpl in J. right. apply IH. exact J.
Qed.

Lemma check_each_inv now l : forall db,
  NoDup (map Auction.auctionID l) ->
  (forall a, In a l -> find_auction db (Auction.auctionID a) = Some a) ->
  exists out db',
    check_each now l db = (map Some out, db')
    /\ map Auction.auctionID out = map Auction.auctionID l
    /\ Forall (fun a => settled now a
                        /\ find_auction db' (Auction.auctionID a) = Some a) out
    /\ (forall id, ~ In id (map Auction.auctionID l) ->
        find_auction db' id = find_auction db id).
Proof.
  induction l as [|a rest IH]; intros db N S.
  - exists [], db. repeat split. constructor.
  - simpl in N. inversion N as [|? ? Na Nr]; subst.
    destruct (check_and_update_status_inv now a db)
      as (a1 & db1 & C & (I1 & _) & _ & F1 & F2 & _).
    assert (S1 : forall r, In r rest ->
                  find_auction db1 (Auction.auctionID r) = Some r).
    { intros r I. rewrite F2; [apply S; simpl; auto|].
      intro E. apply Na. rewrite <- E. apply in_map. exact I. }
    destruct (IH db1 Nr S1) as (out & db' & CE & K & Fa & Fo).
    exists (a1 :: out), db'. simpl. rewrite C, CE.
    split; [reflexivity|]. split; [rewrite I1, K; reflexivity|].
    split.
    + constructor; [|exact Fa]. split; [exact (check_settled _ _ _ _ _ C)|].
      rewrite I1. rewrite Fo by exact Na. apply F1. apply S. simpl. auto.
    + intros id D. simpl in D.
      rewrite Fo by (intro I; apply D; right; exact I).
      apply F2. intro E. apply D. left. symmetry. exact E.
Qed.

(** X2.  With the auction keys unique, [get_auctions] returns the auctions
    of the requested page, at most [limit] of them and in the order of the
    table, each one reconciled at [now] and stored as it is returned; the
    auctions outside the page are as they were. *)
Theorem get_auctions_reconciles now skip limit db :
  NoDup (map Auction.auctionID (auction_tbl db)) ->
  exists out db',
    get_auctions now skip limit db = (map Some out, db')
    /\ map Auction.auctionID out
       = offset_limit skip limit (map Auction.auctionID (auction_tbl db))
    /\ (List.length out <= limit)%nat
    /\ Forall (fun a => settled now a
                        /\ find_auction db' (Auction.auctionID a) = Some a) out
    /\ (forall id,
        ~ In id (offset_limit skip limit (map Auction.auctionID (auction_tbl db))) ->
        find_auction db' id = find_auction db id).
Proof.
  intro N. unfold get_auctions.
  assert (E : offset_limit skip limit (map Auction.auctionID (auction_tbl db))
              = map Auction.auctionID (offset_limit skip limit (auction_tbl db))).
  { unfold offset_limit. rewrite skipn_map, firstn_map. reflexivity. }
  rewrite E.
  destruct (check_each_inv now (offset_limit skip limit (auction_tbl db)) db)
    as (out & db' & CE & K & Fa & Fo).
  - rewrite <- E. unfold offset_limit. apply NoDup_firstn, NoDup_skipn. exact N.
  - intros a I. apply find_auction_unique; [exact N|].
    eapply In_offset_limit. exact I.
  - exists out, db'. split; [exact CE|]. split; [exact K|].
    split; [|split; assumption].
    rewrite <- (length_map Auction.auctionID), K, length_map.
    unfold offset_limit. rewrite length_firstn. apply Nat.le_min_l.
Qed.

Lemma get_auctions_reconciles_witness :
  exists out db',
    get_auctions (200 * minute) 0 5 planned_world = (map Some out, db')
    /\ (List.length out <= 5)%nat.
Proof.
  destruct (get_auctions_reconciles (200 * minute) 0 5 planned_world)
    as (out & db' & G & _ & L & _).
  - vm_compute. repeat constructor; simpl; intuition discriminate.
  - exists out, db'. split; assumption.
Defined.

(** ** [get_highest_bid] *)

(** X15.  What [get_highest_bid] answers.  An unknown auction is a 404 and
    nothing is written.  Otherwise the auction is reconciled, the answer
    reports bids exactly when an ACTIVE, WINNING or WON bid of the auction
    exists, the
    bid it shows is the one of greatest price, and the next minimum it
    announces is the current price plus the price step: the minimum that
    [place_bid] then enforces, so that no bid accepted on the resulting
    session is below it. *)
Theorem get_highest_bid_announces_minimum now auction_id current_user db :
  match get_highest_bid now auction_id current_user db with
  | (Raise e, db') =>
      e = HTTPException 404 Auction_not_found
      /\ find_auction db auction_id = None /\ db' = db
  | (Ok r, db') =>
      (exists a,
         find_auction db' auction_id = Some a
         /\ settled now a
         /\ next_min_bid_of r = current_price db' auction_id + Auction.priceStep a)
      /\ match r with
         | No_bids_yet _ => leading_bids db' auction_id = []
         | Highest_bid id price yours _ =>
             price = current_price db' auction_id
             /\ exists b,
                  In b (leading_bids db' auction_id)
                  /\ Bid.bidID b = id /\ Bid.bidPrice b = price
                  /\ yours = (Bid.userID b =? Account.accountID current_user)
         end
      /\ forall now' faults bid bidder r2 db2,
           BidCreate.auctionID bid = auction_id ->
           place_bid now' faults bid bidder db' = (Ok r2, db2) ->
           next_min_bid_of r <= BidCreate.bidPrice bid
  end.
Proof.
  unfold get_highest_bid, bind, call, query, get_auction.
  change (first (filter (fun r => Auction.auctionID r =? auction_id) (auction_tbl db)))
    with (find_auction db auction_id).
  destruct (find_auction db auction_id) as [a0|] eqn:F.
  - pose proof (find_auction_id _ _ _ F) as Ia.
    destruct (check_and_update_status_inv now a0 db)
      as (a & db' & C & (I1 & _) & _ & F1 & _ & _).
    rewrite C.
    assert (F' : find_auction db' auction_id = Some a)
      by (rewrite <- Ia; apply F1; rewrite Ia; exact F).
    assert (Min : forall r,
              next_min_bid_of r = current_price db' auction_id + Auction.priceStep a ->
              forall now' faults bid bidder r2 db2,
                BidCreate.auctionID bid = auction_id ->
                place_bid now' faults bid bidder db' = (Ok r2, db2) ->
                next_min_bid_of r <= BidCreate.bidPrice bid).
    { intros r E now' faults bid bidder r2 db2 B H. rewrite E.
      destruct (place_bid_ok_commit _ _ _ _ _ _ _ H) as (c & db1 & P & _).
      destruct (place_bid_commit_ok _ _ _ _ _ _ P)
        as (a' & a1' & db0' & Fb & _ & _ & _ & V & _).
      rewrite B, F' in Fb. inversion Fb; subst a'.
      rewrite minimum_bid_current_price, (find_auction_id _ _ _ F') in V. lia. }
    pose proof (current_price_highest db' auction_id) as P.
    destruct (get_current_highest_bid db' auction_id) as [h|] eqn:H.
    + unfold ret. split; [|split].
      * exists a. split; [exact F'|]. split; [exact (check_settled _ _ _ _ _ C)|].
        cbn [next_min_bid_of]. rewrite P. reflexivity.
      * split; [symmetry; exact P|]. exists h.
        split; [|repeat split].
        unfold get_current_highest_bid in H. apply first_order_by_In in H. exact H.
      * apply Min. cbn [next_min_bid_of]. rewrite P. reflexivity.
    + unfold ret. split; [|split].
      * exists a. split; [exact F'|]. split; [exact (check_settled _ _ _ _ _ C)|].
        cbn [next_min_bid_of]. rewrite P. reflexivity.
      * unfold get_current_highest_bid in H. unfold leading_bids.
        apply first_order_by_nil. exact H.
      * apply Min. cbn [next_min_bid_of]. rewrite P. reflexivity.
  - unfold raise. repeat split.
Qed.

Lemma get_highest_bid_announces_minimum_witness :
  exists r db',
    get_highest_bid (100 * minute) 7 bob led_world = (Ok r, db')
    /\ next_min_bid_of r = 60000
    /\ forall now' faults bid bidder r2 db2,
         BidCreate.auctionID bid = 7 ->
         place_bid now' faults bid bidder db' = (Ok r2, db2) ->
         60000 <= BidCreate.bidPrice bid.
Proof.
  pose proof (get_highest_bid_announces_minimum (100 * minute) 7 bob led_world) as H.
  destruct (get_highest_bid (100 * minute) 7 bob led_world) as [[r|e] db'] eqn:G;
    [|vm_compute in G; discriminate G].
  destruct H as (_ & _ & Min).
  assert (N : next_min_bid_of r = 60000)
    by (vm_compute in G; inversion G; reflexivity).
  exists r, db'. split; [reflexivity|]. split; [exact N|].
  rewrite <- N. exact Min.
Defined.

(** ** [update_auction] (endpoint) *)

Lemma apply_update_priceStep u a :
  Auction.priceStep (apply_update u a) =
  match AuctionUpdate.priceStep u with Some v => v | None => Auction.priceStep a end.
Proof.
  unfold apply_update.
  destruct u as [n s e p st w]; destruct a; cbn [AuctionUpdate.auctionName
    AuctionUpdate.startDate AuctionUpdate.endDate AuctionUpdate.priceStep
    AuctionUpdate.auctionStatus AuctionUpdate.bidWinnerID].
  destruct n, s, e, p, st, w; reflexivity.
Qed.

(** X16.  The contract of the endpoint [update_auction].  An update goes
    through only for an auction that, reconciled at [now], is not ONGOING;
    the auction returned is the stored one, reconciled again after the
    change; a price step in the request is taken over, and it is 0 or lies
    between 1,000 and 100,000,000; no other auction is touched.  A refusal
    leaves the session as the fetch of the auction left it, it is a 404
    exactly for an unknown auction, and it is never the 500 of a failed
    update. *)
Theorem update_auction_contract sanitize_string now auction_id u db :
  match update_auction sanitize_string now auction_id u db with
  | (Raise e, db') =>
      db' = snd (get_auction now auction_id db)
      /\ e <> HTTPException 500 Failed_to_update_auction
      /\ (find_auction db auction_id = None
          <-> e = HTTPException 404 Auction_not_found)
  | (Ok r, db') =>
      exists a,
        fst (get_auction now auction_id db) = Some a
        /\ Auction.auctionStatus a <> AuctionStatus.ONGOING
        /\ find_auction db' auction_id = Some r
        /\ settled now r
        /\ Auction.priceStep r =
           match AuctionUpdate.priceStep u with
           | Some p => p
           | None => Auction.priceStep a
           end
        /\ (forall p, AuctionUpdate.priceStep u = Some p ->
            p = 0 \/ 1000 <= p <= 100000000)
        /\ (forall id, id <> auction_id ->
            find_auction db' id = find_auction db id)
  end.
Proof.
  unfold update_auction, bind, call, get_auction.
  change (first (filter (fun r => Auction.auctionID r =? auction_id) (auction_tbl db)))
    with (find_auction db auction_id).
  destruct (find_auction db auction_id) as [a|] eqn:F.
  2:{ unfold check_and_update_status, raise. cbn [snd].
      split; [reflexivity|]. split; [discriminate|]. split; reflexivity. }
  pose proof (find_auction_id _ _ _ F) as Ia.
  destruct (check_and_update_status_inv now a db)
    as (a1 & db0 & C & (I1 & _) & _ & F1 & F2 & _).
  rewrite C. cbn [fst snd].
  set (u' := match AuctionUpdate.auctionName u with
             | Some name =>
                 if String.eqb name "" then u
                 else AuctionUpdate.mk (Some (sanitize_string name 200))
                        (AuctionUpdate.startDate u) (AuctionUpdate.endDate u)
                        (AuctionUpdate.priceStep u) (AuctionUpdate.auctionStatus u)
                        (AuctionUpdate.bidWinnerID u)
             | None => u
             end).
  assert (Up : AuctionUpdate.priceStep u' = AuctionUpdate.priceStep u).
  { unfold u'. destruct (AuctionUpdate.auctionName u) as [n|]; [|reflexivity].
    destruct (String.eqb n ""); reflexivity. }
  cbv zeta.
  assert (Refusal : forall d,
            d <> Failed_to_update_auction -> d <> Auction_not_found ->
            db0 = db0
            /\ HTTPException HTTP_400_BAD_REQUEST d
               <> HTTPException 500 Failed_to_update_auction
            /\ (Some a = None
                <-> HTTPException HTTP_400_BAD_REQUEST d
                    = HTTPException 404 Auction_not_found)).
  { intros d D1 D2. split; [reflexivity|]. split; [congruence|].
    split; [discriminate|congruence]. }
  match goal with
  | |- context [if negb (fst ?x) then raise _ else _] =>
      destruct (negb (fst x)) eqn:V1
  end.
  { unfold raise. apply Refusal; discriminate. }
  set (pc := match AuctionUpdate.priceStep u' with
             | Some p => if p =? 0 then (true, None)
                         else validate_price p 1000 (Some 100000000)
             | None => (true, None)
             end).
  destruct (negb (fst pc)) eqn:V2.
  { unfold raise. apply Refusal; discriminate. }
  destruct (AuctionStatus.eqb (Auction.auctionStatus a1) AuctionStatus.ONGOING) eqn:S.
  { unfold raise. apply Refusal; discriminate. }
  unfold update_auction_repo, get_auction.
  change (first (filter (fun r => Auction.auctionID r =? auction_id) (auction_tbl db0)))
    with (find_auction db0 auction_id).
  assert (F0 : find_auction db0 auction_id = Some a1).
  { rewrite <- Ia. apply F1. rewrite Ia. exact F. }
  rewrite F0, (settled_check now a1 db0 (check_settled _ _ _ _ _ C)).
  set (a2 := Auction.set_updatedAt (Some now) (apply_update u' a1)).
  destruct (apply_update_dates u' a1) as (D1 & _).
  destruct (check_and_update_status_inv now a2 (save_auction a2 db0))
    as (a3 & db3 & C3 & (J1 & _ & _ & J4) & _ & G1 & G2 & _).
  rewrite C3. unfold ret.
  assert (I2 : Auction.auctionID a2 = auction_id).
  { unfold a2. simpl. rewrite D1, I1. exact Ia. }
  exists a1. split; [reflexivity|].
  split.
  { intro E. rewrite E in S. discriminate S. }
  split.
  { rewrite <- I2. apply G1. rewrite find_save_auction, Z.eqb_refl.
    rewrite I2, F0. reflexivity. }
  split; [exact (check_settled _ _ _ _ _ C3)|].
  split.
  { rewrite J4. unfold a2. simpl. rewrite apply_update_priceStep, Up. reflexivity. }
  split.
  { intros p P. apply negb_false_iff in V2. unfold pc in V2. rewrite Up, P in V2.
    destruct (p =? 0) eqn:Z0; [left; apply Z.eqb_eq; exact Z0|]. right.
    rewrite validate_price_accepts in V2.
    apply negb_true_iff, orb_false_iff in V2. destruct V2 as [P1 P2].
    apply Z.ltb_ge in P1. change (negb (100000000 =? 0)) with true in P2.
    cbn [andb] in P2. apply Z.ltb_ge in P2. lia. }
  intros id D. rewrite G2 by (rewrite I2; exact D).
  rewrite find_save_auction.
  replace (id =? Auction.auctionID a2) with false
    by (symmetry; apply Z.eqb_neq; rewrite I2; exact D).
  apply F2. rewrite Ia. exact D.
Qed.

Lemma update_auction_contract_witness :
  exists r db',
    update_auction (fun name _ => name) (10 * minute) 8
      (AuctionUpdate.mk None None None (Some 20000) None None) planned_world
    = (Ok r, db')
    /\ find_auction db' 8 = Some r
    /\ Auction.priceStep r = 20000.
Proof.
  pose proof (update_auction_contract (fun name _ => name) (10 * minute) 8
                (AuctionUpdate.mk None None None (Some 20000) None None)
                planned_world) as H.
  destruct (update_auction _ _ _ _ planned_world) as [[r|e] db'] eqn:U;
    [|vm_compute in U; discriminate U].
  destruct H as (a & _ & _ & F & _ & P & _).
  exists r, db'. split; [reflexivity|]. split; [exact F|exact P].
Defined.

(** ** [format_pagination_response] *)

Lemma format_pagination_response_sound pg size total :
  0 < size -> 0 <= total ->
  exists p,
    format_pagination_response pg size total = Some p
    /\ page p = pg /\ page_size p = size /\ total_items p = total
    /\ 0 <= total_pages p
    /\ total <= total_pages p * size < total + size
    /\ (has_next p = true <-> pg * size < total)
    /\ (has_previous p = true <-> 1 < pg).
Proof.
  intros Hs Ht. unfold format_pagination_response.
  destruct (size =? 0) eqn:Z0; [apply Z.eqb_eq in Z0; lia|].
  eexists. split; [reflexivity|]. cbn [page page_size total_items total_pages
                                       has_next has_previous].
  remember ((total + size - 1) / size) as tp eqn:Etp.
  pose proof (Z.div_mod (total + size - 1) size ltac:(lia)) as DM.
  pose proof (Z.mod_pos_bound (total + size - 1) size Hs) as MB.
  rewrite <- Etp in DM.
  assert (B : total <= tp * size < total + size) by nia.
  do 3 (split; [reflexivity|]).
  split; [nia|]. split; [exact B|].
  split.
  - rewrite Z.ltb_lt. split; intro L; nia.
  - apply Z.ltb_lt.
Qed.

(** X14.  For a positive page size and a count of items that is not
    negative, the number of pages is the least one that holds all the
    items, there is a next page exactly when items remain after the pages
    up to [page], and a previous page exactly when [page] is beyond the
    first. *)
Theorem format_pagination_response_pages pg size total :
  0 < size -> 0 <= total ->
  exists p,
    format_pagination_response pg size total = Some p
    /\ page p = pg /\ page_size p = size /\ total_items p = total
    /\ 0 <= total_pages p
    /\ total <= total_pages p * size < total + size
    /\ (has_next p = true <-> pg * size < total)
    /\ (has_previous p = true <-> 1 < pg).
Proof.
  exact (format_pagination_response_sound pg size total).
Qed.

Lemma format_pagination_response_pages_witness :
  exists p,
    format_pagination_response 8 20 156 = Some p
    /\ total_pages p = 8 /\ has_next p = false /\ has_previous p = true.
Proof.
  destruct (format_pagination_response_pages 8 20 156)
    as (p & E & _ & _ & _ & T0 & T & N & P); [lia|lia|].
  exists p. split; [exact E|].
  split; [lia|]. split.
  - destruct (has_next p); [|reflexivity]. destruct N as [N _].
    specialize (N eq_refl). lia.
  - apply P. lia.
Defined.

(** ** [get_auction_bids] *)

Lemma skipn_nonempty {A} n (l : list A) : skipn n l <> [] <-> (n < List.length l)%nat.
Proof.
  split.
  - intro N. destruct (Nat.lt_ge_cases n (List.length l)) as [L|G]; [exact L|].
    exfalso. apply N. apply skipn_all2. exact G.
  - intros L E. pose proof (length_skipn n l) as K. rewrite E in K. simpl in K. lia.
Qed.

Lemma slice_from skip limit {A} (rows : list A) :
  slice rows (Z.of_nat skip) (Z.of_nat skip + Z.of_nat limit)
  = offset_limit skip limit rows.
Proof.
  unfold slice, slice_index, offset_limit. cbv zeta.
  replace (Z.of_nat skip <? 0) with false by (symmetry; apply Z.ltb_ge; lia).
  replace (Z.of_nat skip + Z.of_nat limit <? 0) with false
    by (symmetry; apply Z.ltb_ge; lia).
  destruct (Nat.le_gt_cases skip (List.length rows)) as [L|G].
  - rewrite (Z.min_l (Z.of_nat skip)) by lia. rewrite Nat2Z.id.
    pose proof (length_skipn skip rows) as K.
    destruct (Nat.le_gt_cases limit (List.length rows - skip)) as [L2|G2].
    + rewrite Z.min_l by lia.
      replace (Z.to_nat (Z.of_nat skip + Z.of_nat limit - Z.of_nat skip)) with limit
        by lia.
      reflexivity.
    + rewrite Z.min_r by lia.
      rewrite !firstn_all2 by lia. reflexivity.
  - rewrite (Z.min_r (Z.of_nat skip)) by lia. rewrite Nat2Z.id.
    rewrite (skipn_all2 rows) by lia. rewrite (skipn_all2 rows) by lia.
    rewrite !firstn_nil. reflexivity.
Qed.

Lemma get_auction_bids_from now auction_id (skip limit : nat) db :
  (0 < limit)%nat ->
  match get_auction_bids now auction_id (Z.of_nat skip) (Z.of_nat limit) db with
  | (Raise e, db') =>
      e = HTTPException 404 Auction_not_found
      /\ find_auction db auction_id = None /\ db' = db
  | (Ok r, db') =>
      db' = snd (get_auction now auction_id db)
      /\ fst (get_auction now auction_id db) = Some (listed_auction r)
      /\ listed_bids r
         = offset_limit skip limit (get_bids_by_auction db' auction_id 0 1000)
      /\ StronglySorted (fun x y => Bid.bidPrice y <= Bid.bidPrice x) (listed_bids r)
      /\ (forall b, In b (listed_bids r) ->
          In b (bid_tbl db') /\ Bid.auctionID b = auction_id)
      /\ List.length (listed_bids r)
         = Nat.min limit (Z.to_nat (total_items (listed_pagination r)) - skip)
      /\ total_items (listed_pagination r)
         = Z.of_nat (Nat.min 1000 (List.length (bids_of db' auction_id)))
      /\ page_size (listed_pagination r) = Z.of_nat limit
      /\ (has_previous (listed_pagination r) = true <-> (limit <= skip)%nat)
      /\ (Nat.divide limit skip ->
          page (listed_pagination r) * Z.of_nat limit = Z.of_nat (skip + limit)
          /\ (has_next (listed_pagination r) = true
              <-> offset_limit (skip + limit) limit
                    (get_bids_by_auction db' auction_id 0 1000) <> []))
  end.
Proof.
  intro L. unfold get_auction_bids, bind, call, query, get_auction.
  change (first (filter (fun r => Auction.auctionID r =? auction_id) (auction_tbl db)))
    with (find_auction db auction_id).
  destruct (find_auction db auction_id) as [a0|] eqn:F.
  2:{ unfold check_and_update_status, raise. repeat split. }
  destruct (check_and_update_status_inv now a0 db) as (a & db' & C & _).
  rewrite C. cbv zeta.
  destruct (Z.of_nat limit =? 0) eqn:L0; [apply Z.eqb_eq in L0; lia|].
  set (all := get_bids_by_auction db' auction_id 0 1000).
  assert (Hall : List.length all = Nat.min 1000 (List.length (bids_of db' auction_id))).
  { unfold all, get_bids_by_auction, offset_limit. simpl skipn.
    rewrite length_firstn.
    rewrite <- (Permutation_length (order_by_bidPrice_desc_perm _)). reflexivity. }
  destruct (format_pagination_response_sound
              (Z.of_nat skip / Z.of_nat limit + 1) (Z.of_nat limit)
              (Z.of_nat (List.length all)) ltac:(lia) ltac:(lia))
    as (p & E & P1 & P2 & P3 & _ & _ & Pn & Pp).
  rewrite E. unfold ret. cbn [listed_auction listed_bids listed_pagination fst snd].
  rewrite slice_from.
  split; [reflexivity|]. split; [reflexivity|]. split; [reflexivity|].
  split.
  { apply StronglySorted_firstn, StronglySorted_skipn.
    unfold all, get_bids_by_auction, offset_limit.
    apply StronglySorted_firstn, StronglySorted_skipn, order_by_bidPrice_desc_sorted. }
  split.
  { intros b I. apply (In_offset_limit skip limit) in I.
    unfold all, get_bids_by_auction in I. apply In_offset_limit in I.
    apply (Permutation_in _ (Permutation_sym (order_by_bidPrice_desc_perm _))) in I.
    apply filter_In in I. destruct I as [I1 I2].
    split; [exact I1|apply Z.eqb_eq; exact I2]. }
  split.
  { rewrite P3, Nat2Z.id. unfold offset_limit.
    rewrite length_firstn, length_skipn. reflexivity. }
  split; [rewrite P3, Hall; reflexivity|].
  split; [exact P2|].
  assert (Q : 0 <= Z.of_nat skip / Z.of_nat limit) by (apply Z.div_pos; lia).
  split.
  { rewrite Pp. split; intro H.
    - destruct (Nat.le_gt_cases limit skip) as [K|K]; [exact K|]. exfalso.
      rewrite Z.div_small in H by lia. lia.
    - assert (1 <= Z.of_nat skip / Z.of_nat limit); [|lia].
      apply Z.div_le_lower_bound; lia. }
  intros [k K]. subst skip.
  assert (Ek : Z.of_nat (k * limit) / Z.of_nat limit = Z.of_nat k).
  { rewrite Nat2Z.inj_mul. apply Z.div_mul. lia. }
  rewrite P1, Ek. split; [lia|].
  rewrite Pn, Ek. unfold offset_limit at 1.
  split.
  - intros H E0. fold all in E0.
    assert (S : skipn (k * limit + limit) all <> []) by (apply skipn_nonempty; lia).
    destruct (skipn (k * limit + limit) all) as [|x rest]; [congruence|].
    destruct limit; [lia|simpl in E0; discriminate E0].
  - intro N. fold all in N.
    assert (S : skipn (k * limit + limit) all <> []).
    { intro E0. apply N. rewrite E0. apply firstn_nil. }
    apply skipn_nonempty in S. lia.
Qed.

(** X19.  The page of [get_auction_bids], for a [skip] that is not negative
    and a positive [limit].  An unknown auction is a 404.  Otherwise the
    bids listed are those of the auction from position [skip] on, at most
    [limit] of them, by decreasing price; the total reported is the number
    of the auction's bids, capped at 1000; a previous page is announced
    exactly when [skip] reaches [limit]; and when [skip] is a multiple of
    [limit], a next page is announced exactly when the page that starts at
    [skip + limit] has a bid. *)
Theorem get_auction_bids_page now auction_id skip limit db :
  0 <= skip -> 0 < limit ->
  match get_auction_bids now auction_id skip limit db with
  | (Raise e, db') =>
      e = HTTPException 404 Auction_not_found
      /\ find_auction db auction_id = None /\ db' = db
  | (Ok r, db') =>
      let all_bids := get_bids_by_auction db' auction_id 0 1000 in
      db' = snd (get_auction now auction_id db)
      /\ fst (get_auction now auction_id db) = Some (listed_auction r)
      /\ listed_bids r = firstn (Z.to_nat limit) (skipn (Z.to_nat skip) all_bids)
      /\ StronglySorted (fun x y => Bid.bidPrice y <= Bid.bidPrice x) (listed_bids r)
      /\ (forall b, In b (listed_bids r) ->
          In b (bid_tbl db') /\ Bid.auctionID b = auction_id)
      /\ Z.of_nat (List.length (listed_bids r))
         = Z.min limit (Z.max 0 (total_items (listed_pagination r) - skip))
      /\ total_items (listed_pagination r)
         = Z.min 1000 (Z.of_nat (List.length (bids_of db' auction_id)))
      /\ page_size (listed_pagination r) = limit
      /\ (has_previous (listed_pagination r) = true <-> limit <= skip)
      /\ ((limit | skip) ->
          page (listed_pagination r) * limit = skip + limit
          /\ (has_next (listed_pagination r) = true
              <-> slice all_bids (skip + limit) (skip + limit + limit) <> []))
  end.
Proof.
  intros Hs Hl.
  pose proof (get_auction_bids_from now auction_id (Z.to_nat skip) (Z.to_nat limit) db
                ltac:(lia)) as H.
  rewrite !Z2Nat.id in H by lia.
  destruct (get_auction_bids now auction_id skip limit db) as [[r|e] db'];
    [|exact H].
  destruct H as (H1 & H2 & H3 & H4 & H5 & H6 & H7 & H8 & H9 & H10).
  cbv zeta. split; [exact H1|]. split; [exact H2|]. split; [exact H3|].
  split; [exact H4|]. split; [exact H5|].
  split; [rewrite H6; lia|]. split; [rewrite H7; lia|]. split; [exact H8|].
  split; [rewrite H9; lia|].
  intros [k K].
  assert (D : Nat.divide (Z.to_nat limit) (Z.to_nat skip)).
  { exists (Z.to_nat k). subst skip.
    assert (0 <= k) by nia. rewrite Z2Nat.inj_mul by lia. reflexivity. }
  destruct (H10 D) as (Hp & Hn). split.
  - rewrite Hp. lia.
  - rewrite Hn, <- slice_from.
    replace (Z.of_nat (Z.to_nat skip + Z.to_nat limit)) with (skip + limit) by lia.
    rewrite (Z2Nat.id limit) by lia. reflexivity.
Qed.

Lemma get_auction_bids_page_witness :
  exists r db',
    get_auction_bids (200 * minute) 7 0 1 tie_world = (Ok r, db')
    /\ List.length (listed_bids r) = 1%nat
    /\ has_next (listed_pagination r) = true.
Proof.
  pose proof (get_auction_bids_page (200 * minute) 7 0 1 tie_world
                ltac:(lia) ltac:(lia)) as H.
  destruct (get_auction_bids (200 * minute) 7 0 1 tie_world) as [[r|e] db'] eqn:G;
    [|vm_compute in G; discriminate G].
  cbv zeta in H.
  destruct H as (_ & _ & _ & _ & _ & _ & _ & _ & _ & N).
  destruct (N ltac:(exists 0; reflexivity)) as (_ & N').
  exists r, db'. split; [reflexivity|]. split.
  - vm_compute in G. inversion G. reflexivity.
  - apply N'. vm_compute in G. inversion G. vm_compute. discriminate.
Defined.

(** ** [get_user_won_auctions] *)




